(** * Election-results parsers: line classification, normalisation and aggregation

    A shallow embedding of the Python parsers under [python-parsers/]
    ([clarity_parser.py], [collin.py], [fort_bend.py], [electionware.py],
    [greenbox.py]) together with the properties the specification states
    about them.

    Text is modelled as ASCII [string]s.  Python's [str] methods and the
    [re] patterns the parsers use are embedded in [PyStr] and [Re]; each
    parser lives in a module named after its source file. *)

From Stdlib Require Import ZArith Ascii String List Bool Lia Sorting.Sorted Permutation.
From stdpp Require Import gmap strings list fin_maps.

Local Open Scope string_scope.

(** ** Python string operations *)
Module PyStr.

Definition code (c : ascii) : nat := nat_of_ascii c.

(** [str.isspace] on ASCII: TAB..CR, FS..US and the blank. *)
Definition is_space (c : ascii) : bool :=
  let n := code c in
  ((9 <=? n)%nat && (n <=? 13)%nat) || ((28 <=? n)%nat && (n <=? 32)%nat).

Definition is_digit (c : ascii) : bool :=
  let n := code c in (48 <=? n)%nat && (n <=? 57)%nat.

Definition is_upper (c : ascii) : bool :=
  let n := code c in (65 <=? n)%nat && (n <=? 90)%nat.

Definition is_lower (c : ascii) : bool :=
  let n := code c in (97 <=? n)%nat && (n <=? 122)%nat.

Definition is_alpha (c : ascii) : bool := is_upper c || is_lower c.

(** [\w] on ASCII. *)
Definition is_word (c : ascii) : bool :=
  is_alpha c || is_digit c || Ascii.eqb c "_"%char.

Definition to_lower (c : ascii) : ascii :=
  if is_upper c then ascii_of_nat (code c + 32) else c.

Definition to_upper (c : ascii) : ascii :=
  if is_lower c then ascii_of_nat (code c - 32) else c.

Fixpoint lower (s : string) : string :=
  match s with
  | EmptyString => EmptyString
  | String c s' => String (to_lower c) (lower s')
  end.

(** [str.title]: a letter that follows a non-letter is upper-cased, every
    other letter is lower-cased. *)
Fixpoint title_from (prev_cased : bool) (s : string) : string :=
  match s with
  | EmptyString => EmptyString
  | String c s' =>
      String (if is_alpha c
              then (if prev_cased then to_lower c else to_upper c)
              else c)
             (title_from (is_alpha c) s')
  end.

Definition title (s : string) : string := title_from false s.

Fixpoint rev_onto (s acc : string) : string :=
  match s with
  | EmptyString => acc
  | String c s' => rev_onto s' (String c acc)
  end.

Definition srev (s : string) : string := rev_onto s EmptyString.

Fixpoint lstrip (s : string) : string :=
  match s with
  | String c s' => if is_space c then lstrip s' else s
  | EmptyString => EmptyString
  end.

Definition rstrip (s : string) : string := srev (lstrip (srev s)).

Definition strip (s : string) : string := rstrip (lstrip s).

Definition startswith (s p : string) : bool := String.prefix p s.

Definition endswith (s p : string) : bool := String.prefix (srev p) (srev s).

(** [sub in s]. *)
Fixpoint contains (s sub : string) : bool :=
  if String.prefix sub s then true
  else match s with
       | EmptyString => false
       | String _ s' => contains s' sub
       end.

(** [s.find(sub)], [None] standing for -1. *)
Fixpoint find_from (i : nat) (s sub : string) : option nat :=
  if String.prefix sub s then Some i
  else match s with
       | EmptyString => None
       | String _ s' => find_from (S i) s' sub
       end.

Definition find (s sub : string) : option nat := find_from 0 s sub.

Definition take (n : nat) (s : string) : string := String.substring 0 n s.

(** [s.split(sep)] for a non-empty separator; [skip] counts the characters
    of a separator occurrence still to be passed over, [cur] is the piece
    being read, reversed. *)
Fixpoint split_aux (sep : string) (skip : nat) (cur : string) (s : string)
  : list string :=
  match s with
  | EmptyString => [srev cur]
  | String c s' =>
      match skip with
      | S k => split_aux sep k cur s'
      | O =>
          if String.prefix sep s
          then srev cur :: split_aux sep (String.length sep - 1) EmptyString s'
          else split_aux sep 0 (String c cur) s'
      end
  end.

Definition split (s sep : string) : list string := split_aux sep 0 EmptyString s.

(** [s.split(sep, 1)]. *)
Definition split1 (s sep : string) : list string :=
  match find s sep with
  | None => [s]
  | Some i =>
      [take i s;
       String.substring (i + String.length sep)
                        (String.length s - (i + String.length sep)) s]
  end.

(** [s.split()]: maximal runs of non-blank characters. *)
Fixpoint split_ws_aux (cur : string) (s : string) : list string :=
  match s with
  | EmptyString =>
      match cur with EmptyString => [] | _ => [srev cur] end
  | String c s' =>
      if is_space c
      then match cur with
           | EmptyString => split_ws_aux EmptyString s'
           | _ => srev cur :: split_ws_aux EmptyString s'
           end
      else split_ws_aux (String c cur) s'
  end.

Definition split_ws (s : string) : list string := split_ws_aux EmptyString s.

(** [s.replace(old, new)] for a non-empty [old]. *)
Fixpoint replace_aux (old new : string) (skip : nat) (s : string) : string :=
  match s with
  | EmptyString => EmptyString
  | String c s' =>
      match skip with
      | S k => replace_aux old new k s'
      | O =>
          if String.prefix old s
          then new ++ replace_aux old new (String.length old - 1) s'
          else String c (replace_aux old new 0 s')
      end
  end.

Definition replace (s old new : string) : string := replace_aux old new 0 s.

(** [sep.join(parts)]. *)
Fixpoint join (sep : string) (parts : list string) : string :=
  match parts with
  | [] => EmptyString
  | [p] => p
  | p :: ps => p ++ sep ++ join sep ps
  end.

(** Digits with single underscores between them, as [int] accepts. *)
Fixpoint digits_value (acc : Z) (after_digit : bool) (s : string) : option Z :=
  match s with
  | EmptyString => if after_digit then Some acc else None
  | String c s' =>
      if is_digit c
      then digits_value (10 * acc + Z.of_nat (code c - 48)) true s'
      else if Ascii.eqb c "_"%char && after_digit
           then match s' with
                | String d _ => if is_digit d then digits_value acc false s' else None
                | EmptyString => None
                end
           else None
  end.

(** [int(s)]; [None] is [ValueError]. *)
Definition py_int (s : string) : option Z :=
  match strip s with
  | String "-" r => option_map Z.opp (digits_value 0 false r)
  | String "+" r => digits_value 0 false r
  | r => digits_value 0 false r
  end.

(** Truthiness of a string. *)
Definition nonempty (s : string) : bool :=
  match s with EmptyString => false | _ => true end.

End PyStr.

(** ** Regular expressions

    The fragment of Python's [re] the parsers use, with a backtracking
    matcher that tries alternatives in Python's priority order (leftmost
    alternative first, greedy repetition longest first, lazy repetition
    shortest first) and records the numbered groups. *)
Module Re.

Inductive re : Type :=
| Eps                         (* the empty pattern *)
| Chr (c : ascii)             (* a literal character *)
| Cls (p : ascii -> bool)     (* a character class *)
| Seq (r1 r2 : re)
| Alt (r1 r2 : re)
| Star (greedy : bool) (r : re)
| Grp (n : nat) (r : re)      (* capturing group number n *)
| Bol                         (* ^ *)
| Eol.                        (* $ *)

Definition Plus (g : bool) (r : re) : re := Seq r (Star g r).
Definition Opt (r : re) : re := Alt r Eps.

Fixpoint Lit (s : string) : re :=
  match s with
  | EmptyString => Eps
  | String c EmptyString => Chr c
  | String c s' => Seq (Chr c) (Lit s')
  end.

Fixpoint Seqs (rs : list re) : re :=
  match rs with
  | [] => Eps
  | [r] => r
  | r :: rs' => Seq r (Seqs rs')
  end.

Fixpoint Alts (rs : list re) : re :=
  match rs with
  | [] => Cls (fun _ => false)
  | [r] => r
  | r :: rs' => Alt r (Alts rs')
  end.

(** [.] matches everything but a newline. *)
Definition dot : re := Cls (fun c => negb (Ascii.eqb c "010"%char)).
Definition ws : re := Cls PyStr.is_space.            (* \s *)
Definition digit : re := Cls PyStr.is_digit.         (* \d *)
Definition is_num (c : ascii) : bool := PyStr.is_digit c || Ascii.eqb c ","%char.
Definition num : re := Plus true (Cls is_num).       (* [\d,]+ *)
Definition is_pct (c : ascii) : bool := PyStr.is_digit c || Ascii.eqb c "."%char.
Definition pct : re := Seq (Plus true (Cls is_pct)) (Chr "%").   (* [\d.]+% *)
Definition ws1 : re := Plus true ws.                 (* \s+ *)
Definition ws0 : re := Star true ws.                 (* \s* *)

(** Captured groups, most recent first. *)
Definition caps : Type := list (nat * string).

Fixpoint group (n : nat) (cs : caps) : option string :=
  match cs with
  | [] => None
  | (i, s) :: cs' => if Nat.eqb i n then Some s else group n cs'
  end.

(** The state of a match attempt: the input still to be read, the number
    of characters read so far, and the groups. *)
Definition kont (A : Type) : Type := string -> nat -> caps -> option A.

Section Matcher.
Variable ci : bool.   (* re.IGNORECASE *)
Context {A : Type}.

Definition chr_ok (c x : ascii) : bool :=
    if ci then Ascii.eqb (PyStr.to_lower c) (PyStr.to_lower x) else Ascii.eqb c x.

Definition cls_ok (p : ascii -> bool) (x : ascii) : bool :=
    if ci then p x || p (PyStr.to_lower x) || p (PyStr.to_upper x) else p x.

  (** Repetition of a body matcher [body]: each round must read at least
      one character; [fuel] bounds the number of rounds. *)
Fixpoint star_loop (body : string -> nat -> caps -> kont A -> option A)
    (g : bool) (k : kont A) (fuel : nat) (s : string) (pos : nat) (cs : caps)
    {struct fuel} : option A :=
    match fuel with
    | O => None
    | S f =>
        let again :=
          body s pos cs
            (fun s' pos' cs' =>
               if (pos <? pos')%nat then star_loop body g k f s' pos' cs' else None) in
        if g
        then match again with
             | Some x => Some x
             | None => k s pos cs
             end
        else match k s pos cs with
             | Some x => Some x
             | None => again
             end
    end.

Fixpoint m (r : re) (s : string) (pos : nat) (cs : caps) (k : kont A)
    {struct r} : option A :=
    match r with
    | Eps => k s pos cs
    | Chr c =>
        match s with
        | String x s' => if chr_ok c x then k s' (S pos) cs else None
        | EmptyString => None
        end
    | Cls p =>
        match s with
        | String x s' => if cls_ok p x then k s' (S pos) cs else None
        | EmptyString => None
        end
    | Seq r1 r2 => m r1 s pos cs (fun s' pos' cs' => m r2 s' pos' cs' k)
    | Alt r1 r2 =>
        match m r1 s pos cs k with
        | Some x => Some x
        | None => m r2 s pos cs k
        end
    | Star g r1 => star_loop (m r1) g k (S (String.length s)) s pos cs
    | Grp n r1 =>
        m r1 s pos cs
          (fun s' pos' cs' => k s' pos' ((n, PyStr.take (pos' - pos) s) :: cs'))
    | Bol => if Nat.eqb pos 0 then k s pos cs else None
    | Eol =>
        match s with
        | EmptyString => k s pos cs
        | String "010" EmptyString => k s pos cs
        | _ => None
        end
    end.
End Matcher.

(** The result of a successful match: groups and the end position. *)
Definition finish : kont (caps * nat) := fun _ pos cs => Some (cs, pos).

(** [re.match(r, s)], with [re.IGNORECASE] when [ci]. *)
Definition match_ci (ci : bool) (r : re) (s : string) : option caps :=
  option_map fst (m ci r s 0 [] finish).

Definition rmatch (r : re) (s : string) : option caps := match_ci false r s.

(** [re.search(r, s)]: the leftmost position at which [r] matches. *)
Fixpoint search_from (r : re) (s : string) (pos : nat) : option caps :=
  match m false r s pos [] finish with
  | Some (cs, _) => Some cs
  | None =>
      match s with
      | EmptyString => None
      | String _ s' => search_from r s' (S pos)
      end
  end.

Definition search (r : re) (s : string) : option caps := search_from r s 0.

(** [re.findall(r, s)] for a pattern without groups: the successive
    non-overlapping matches, left to right.  [skip] counts the characters
    of the last match still to be passed over. *)
Fixpoint findall_aux (r : re) (skip : nat) (s : string) (pos : nat)
  : list string :=
  match s with
  | EmptyString =>
      match skip with
      | O => match m false r s pos [] finish with
             | Some _ => [EmptyString]
             | None => []
             end
      | S _ => []
      end
  | String _ s' =>
      match skip with
      | S k => findall_aux r k s' (S pos)
      | O =>
          match m false r s pos [] finish with
          | Some (_, e) =>
              PyStr.take (e - pos) s :: findall_aux r (e - pos - 1) s' (S pos)
          | None => findall_aux r 0 s' (S pos)
          end
      end
  end.

Definition findall (r : re) (s : string) : list string := findall_aux r 0 s 0.

End Re.

(** ** The output schema of the PDF parsers with three vote methods

    [electionware.py], [fort_bend.py] and [greenbox.py] build the same
    dictionary: six identity fields, [votes], and the columns [absentee],
    [early_voting] and [election_day], each holding an integer or the empty
    string. *)
Module Tabular.

Inductive cell : Type :=
| CEmpty            (* '' *)
| CInt (z : Z).

Record record : Type := mkRecord {
  county : string;
  precinct : string;
  office : string;
  district : string;
  party : string;
  candidate : string;
  votes : Z;
  absentee : cell;
  early_voting : cell;
  election_day : cell
}.


(** [int(g.replace(',', ''))]. *)
Definition int_commas (s : string) : option Z :=
  PyStr.py_int (PyStr.replace s "," "").

Definition grp (n : nat) (cs : Re.caps) : string :=
  match Re.group n cs with Some s => s | None => EmptyString end.

(** Truthiness of a variable that holds [None] or a string. *)
Definition truthy (o : option string) : bool :=
  match o with Some s => PyStr.nonempty s | None => false end.

(** [any(t in line for t in terms)]. *)
Definition any_in (line : string) (terms : list string) : bool :=
  existsb (PyStr.contains line) terms.

(** [line.startswith((p1, p2, ...))]. *)
Definition startswith_any (line : string) (ps : list string) : bool :=
  existsb (PyStr.startswith line) ps.

(** The first group of the first pattern of [rs] found in [line], as in the
    [if re.search ... elif re.search ...] chains that extract a district. *)
Fixpoint first_search (rs : list Re.re) (line : string) : option string :=
  match rs with
  | [] => None
  | r :: rs' =>
      match Re.search r line with
      | Some cs => Some (grp 1 cs)
      | None => first_search rs' line
      end
  end.

(** [r'<word>\s+(\d+)']. *)
Definition word_number (w : string) : Re.re :=
  Re.Seqs [Re.Lit w; Re.ws1; Re.Grp 1 (Re.Plus true Re.digit)].

(** [r'<label>\s+([\d,]+)\s+([\d,]+)\s+([\d,]+)\s+([\d,]+)']. *)
Definition label_four (label : string) : Re.re :=
  Re.Seqs [Re.Lit label; Re.ws1; Re.Grp 1 Re.num; Re.ws1; Re.Grp 2 Re.num;
           Re.ws1; Re.Grp 3 Re.num; Re.ws1; Re.Grp 4 Re.num].

(** The four integers of a match of [label_four]; [None] is [ValueError]. *)
Definition four_ints (cs : Re.caps) : option (Z * Z * Z * Z) :=
  match int_commas (grp 1 cs), int_commas (grp 2 cs),
        int_commas (grp 3 cs), int_commas (grp 4 cs) with
  | Some a, Some b, Some c, Some d => Some (a, b, c, d)
  | _, _, _, _ => None
  end.

End Tabular.

(** ** electionware.py *)
Module Electionware.
Import Tabular.

Definition normalize_office_name (office0 : string) : string :=
  let office := PyStr.strip office0 in
  let has := PyStr.contains office in
  if has "President/Vice President" || has "President and Vice President" then "President"
  else if has "US Senator" || has "U.S. Senator" then "U.S. Senate"
  else if has "US Representative" || has "U.S. Representative" then "U.S. House"
  else if has "State Representative" then "State Representative"
  else if has "Railroad Commissioner" then "Railroad Commissioner"
  else if has "Justice, Supreme Court" then office
  else if has "Judge," || has "Justice," || has "Presiding Judge" then office
  else if has "Member, State BoE" then "State Board of Education"
  else if has "Dist Attorney" || has "District Attorney" then "District Attorney"
  else if has "County" then office
  else if has "Sheriff" then "Sheriff"
  else if has "Constable" then office
  else if has "Board of Trustees" then office
  else if has "Chief Justice" then office
  else office.

(** The local variables of [parse_election_data] that live across lines. *)
Record state : Type := mkState {
  data : list record;
  current_precinct : option string;
  current_office : option string;
  district : string;
  precinct_stats_added : gset string
}.

Definition init : state := mkState [] None None "" ∅.

Definition append (st : state) (r : record) : state :=
  mkState (data st ++ [r]) (current_precinct st) (current_office st)
          (district st) (precinct_stats_added st).

Definition add_flag (st : state) (f : string) : state :=
  mkState (data st) (current_precinct st) (current_office st)
          (district st) (precinct_stats_added st ∪ {[ f ]}).

(** [r'^Precinct\s+(.+)$'] *)
Definition precinct_pattern : Re.re :=
  Re.Seqs [Re.Bol; Re.Lit "Precinct"; Re.ws1; Re.Grp 1 (Re.Plus true Re.dot); Re.Eol].

(** [r'Registered Voters - Total\s+([\d,]+)'] *)
Definition registered_pattern : Re.re :=
  Re.Seqs [Re.Lit "Registered Voters - Total"; Re.ws1; Re.Grp 1 Re.num].

Definition office_indicators : list string :=
  ["President/Vice President"; "US Senator"; "U.S. Senator";
   "US Representative"; "U.S. Representative"; "Railroad Commissioner";
   "Justice, Supreme Court"; "Justice,"; "Judge,"; "Presiding Judge";
   "Member, State BoE"; "State Representative"; "Dist Attorney";
   "County Attorney"; "County Commissioner"; "County Clerk"; "County Tax";
   "Sheriff"; "Constable"; "Board of Trustees"; "Chief Justice"].

Definition skip_terms : list string :=
  ["Vote For"; "TOTAL"; "Absentee"; "Early"; "Election";
   "Voting"; "Day"; "Total Votes Cast"; "Write-In Totals";
   "Not Assigned"; "Contest Totals"; "Write-In:"].

(** [r'^(REP|DEM|LIB|GRN|IND)\s+(.+?)\s+(\d+)\s+(\d+)\s+(\d+)\s+(\d+)$'] *)
Definition candidate_pattern : Re.re :=
  Re.Seqs [Re.Bol;
           Re.Grp 1 (Re.Alts [Re.Lit "REP"; Re.Lit "DEM"; Re.Lit "LIB";
                              Re.Lit "GRN"; Re.Lit "IND"]);
           Re.ws1; Re.Grp 2 (Re.Plus false Re.dot);
           Re.ws1; Re.Grp 3 (Re.Plus true Re.digit);
           Re.ws1; Re.Grp 4 (Re.Plus true Re.digit);
           Re.ws1; Re.Grp 5 (Re.Plus true Re.digit);
           Re.ws1; Re.Grp 6 (Re.Plus true Re.digit); Re.Eol].

(** The district of an office header: [Dist], then [Place], [Pct], [Pl]. *)
Definition header_district (line : string) : string :=
  match first_search [word_number "Dist"; word_number "Place";
                      word_number "Pct"; word_number "Pl"] line with
  | Some d => d
  | None => ""
  end.

(** A statistics line with a total and three method columns, in the order
    total, absentee, early, election day. *)
Definition stat_record (cnty prec off dist cand : string) (t a e d : Z) : record :=
  mkRecord cnty prec off dist "" cand t (CInt a) (CInt e) (CInt d).

(** The office header test and everything after it in the loop body. *)
Definition contest_line (cnty prec : string) (st0 : state) (line : string) : state :=
  (* for indicator in office_indicators: if indicator in line: ...; break *)
  let st :=
    if any_in line office_indicators
    then mkState (data st0) (current_precinct st0) (Some line)
                 (header_district line) (precinct_stats_added st0)
    else st0 in
  match current_office st with
  | None => st
  | Some off =>
      if any_in line skip_terms then st
      else
        match Re.rmatch candidate_pattern line with
        | None => st
        | Some cs =>
            let party := PyStr.strip (grp 1 cs) in
            let candidate_name := PyStr.strip (grp 2 cs) in
            match PyStr.py_int (grp 3 cs), PyStr.py_int (grp 4 cs),
                  PyStr.py_int (grp 5 cs), PyStr.py_int (grp 6 cs) with
            | Some total, Some absentee, Some early, Some eday =>
                if PyStr.startswith candidate_name "Write-In:" then st
                else append st
                       (mkRecord cnty prec (normalize_office_name off) (district st)
                                 party candidate_name total
                                 (CInt absentee) (CInt early) (CInt eday))
            | _, _, _, _ => st          (* ValueError, caught *)
            end
        end
  end.

(** Over- and under-vote lines. *)
Definition over_under (label cand : string) (cnty prec : string)
  (st : state) (line : string) : state :=
  match current_office st with
  | Some off =>
      match Re.search (label_four label) line with
      | Some cs =>
          match four_ints cs with
          | Some (t, a, e, d) =>
              append st (stat_record cnty prec (normalize_office_name off)
                                     (district st) cand t a e d)
          | None => st                  (* ValueError, caught *)
          end
      | None => st
      end
  | None => st
  end.

(** A per-precinct statistic with four numbers, recorded once per flag. *)
Definition ballots_line (label off suffix : string) (cnty prec : string)
  (st : state) (line : string) : state :=
  match Re.search (label_four label) line with
  | Some cs =>
      if bool_decide ((prec ++ suffix) ∈ precinct_stats_added st) then st
      else match four_ints cs with
           | Some (t, a, e, d) =>
               add_flag (append st (stat_record cnty prec off "" "" t a e d))
                        (prec ++ suffix)
           | None => st                 (* ValueError, caught *)
           end
  | None => st
  end.

Definition registered_line (cnty prec : string) (st : state) (line : string) : state :=
  match Re.search registered_pattern line with
  | Some cs =>
      if bool_decide ((prec ++ "_registered") ∈ precinct_stats_added st) then st
      else match int_commas (grp 1 cs) with
           | Some n =>
               add_flag (append st (mkRecord cnty prec "Registered Voters" "" "" ""
                                             n CEmpty CEmpty CEmpty))
                        (prec ++ "_registered")
           | None => st                 (* ValueError, caught *)
           end
  | None => st
  end.

(** One iteration of the loop over the lines. *)
Definition step (cnty : string) (st : state) (raw : string) : state :=
  let line := PyStr.strip raw in
  if negb (PyStr.nonempty line) then st
  else
    match (if PyStr.startswith line "Precinct "
           then Re.rmatch precinct_pattern line else None) with
    | Some cs =>
        mkState (data st) (Some ("Precinct " ++ grp 1 cs)) (current_office st)
                (district st) (precinct_stats_added st)
    | None =>
        match current_precinct st with
        | None => st
        | Some prec =>
            if String.eqb line "Statistics"
               || (PyStr.contains line "TOTAL" && PyStr.contains line "Absentee"
                   && PyStr.contains line "Early")
            then st
            else if PyStr.contains line "Registered Voters - Total"
            then registered_line cnty prec st line
            else if PyStr.contains line "Ballots Cast - Total"
            then ballots_line "Ballots Cast - Total" "Ballots Cast" "_ballots"
                              cnty prec st line
            else if PyStr.contains line "Ballots Cast - Blank"
            then ballots_line "Ballots Cast - Blank" "Ballots Cast - Blank" "_blank"
                              cnty prec st line
            else if PyStr.startswith line "Overvotes" && truthy (current_office st)
            then over_under "Overvotes" "Over Votes" cnty prec st line
            else if PyStr.startswith line "Undervotes" && truthy (current_office st)
            then over_under "Undervotes" "Under Votes" cnty prec st line
            else contest_line cnty prec st line
        end
    end.

Definition run (cnty : string) (st : state) (lines : list string) : state :=
  fold_left (step cnty) lines st.

Definition parse_election_data (text cnty : string) : list record :=
  data (run cnty init (PyStr.split text (String "010" EmptyString))).

End Electionware.

(** ** fort_bend.py *)
Module FortBend.
Import Tabular.

Definition normalize_office_name (office0 : string) : string :=
  let office := PyStr.strip office0 in
  let has := PyStr.contains office in
  if has "President" && (has "Vice President" || has "Vice-President") then "President"
  else if has "President/Vice-President" then "President"
  else if has "United States Senator" || has "US Senator" || has "U.S. Senator"
  then "U.S. Senate"
  else if has "United States Representative" || has "US Representative"
          || has "U.S. Representative"
  then "U.S. House"
  else if has "State Representative" then "State Representative"
  else if has "State Senator" then "State Senate"
  else if has "Railroad Commissioner" then "Railroad Commissioner"
  else if has "Justice, Supreme Court" then office
  else if has "Judge," || has "Justice," || has "Presiding Judge" then office
  else if has "Member, State Boe" then "State Board of Education"
  else if has "District Attorney" || has "Dist Attorney" then "District Attorney"
  else if has "County" then office
  else if has "Sheriff" then "Sheriff"
  else if has "Constable" then office
  else if has "Board Of Trustees" then office
  else if has "Chief Justice" then office
  else office.

Record state : Type := mkState {
  data : list record;
  current_precinct : option string;
  current_office : option string;
  district : string;
  precinct_stats_added : gset string
}.

Definition init : state := mkState [] None None "" ∅.

Definition append (st : state) (r : record) : state :=
  mkState (data st ++ [r]) (current_precinct st) (current_office st)
          (district st) (precinct_stats_added st).

Definition add_flag (st : state) (f : string) : state :=
  mkState (data st) (current_precinct st) (current_office st)
          (district st) (precinct_stats_added st ∪ {[ f ]}).

(** [r'^(\d+)(?:\s*-\s*(\d+))?$'] *)
Definition precinct_pattern : Re.re :=
  Re.Seqs [Re.Bol; Re.Grp 1 (Re.Plus true Re.digit);
           Re.Opt (Re.Seqs [Re.ws0; Re.Chr "-"; Re.ws0;
                            Re.Grp 2 (Re.Plus true Re.digit)]);
           Re.Eol].

(** The precinct named by a header line, if the line is one. *)
Definition precinct_header (line : string) : option string :=
  match Re.rmatch precinct_pattern line with
  | Some cs =>
      Some (match Re.group 2 cs with
            | Some sub =>
                if PyStr.nonempty sub
                then "Precinct " ++ grp 1 cs ++ "-" ++ sub
                else "Precinct " ++ grp 1 cs
            | None => "Precinct " ++ grp 1 cs
            end)
  | None => None
  end.

(** [r'Registered Voters - Total\s+([\d,]+)'] *)
Definition registered_pattern : Re.re :=
  Re.Seqs [Re.Lit "Registered Voters - Total"; Re.ws1; Re.Grp 1 Re.num].

(** [r'Precinct\s+No\.\s+(\d+)'] *)
Definition precinct_no : Re.re :=
  Re.Seqs [Re.Lit "Precinct"; Re.ws1; Re.Lit "No."; Re.ws1;
           Re.Grp 1 (Re.Plus true Re.digit)].

Definition office_indicators : list string :=
  ["President"; "Vice-President"; "United States Senator"; "US Senator"; "U.S. Senator";
   "United States Representative"; "US Representative"; "U.S. Representative";
   "Railroad Commissioner"; "Justice, Supreme Court"; "Justice,"; "Judge,";
   "Presiding Judge"; "Member, State BoE"; "State Representative"; "State Senator";
   "District Attorney"; "Dist Attorney"; "County Attorney"; "County Commissioner";
   "County Clerk"; "County Tax"; "Sheriff"; "Constable"; "Board of Trustees";
   "Chief Justice"; "Court of Appeals"; "Judicial District"].

Definition skip_terms : list string :=
  ["Vote For"; "TOTAL"; "VOTE %"; "Absentee"; "Early"; "Election";
   "Voting"; "Day"; "Total Votes Cast"; "Not Assigned"; "Contest Totals";
   "Write-In:"; "Voter Turnout"].

Definition party_tokens : list string := ["REP"; "DEM"; "LIB"; "GRN"; "IND"].

(** The district of an office header: [District], [Precinct No.], [Place]. *)
Definition header_district (line : string) : string :=
  match first_search [word_number "District"; precinct_no; word_number "Place"] line with
  | Some d => d
  | None => ""
  end.

(** [re.match(r'[\d,]+$', part)] *)
Definition is_number_token (part : string) : bool :=
  match Re.rmatch (Re.Seq Re.num Re.Eol) part with Some _ => true | None => false end.

(** [[int(p.replace(',', '')) for p in parts if re.match(r'[\d,]+$', p)]];
    [None] is the [ValueError] of a token made of commas only. *)
Fixpoint numbers_of (parts : list string) : option (list Z) :=
  match parts with
  | [] => Some []
  | p :: ps =>
      if is_number_token p
      then match int_commas p with
           | Some n => option_map (cons n) (numbers_of ps)
           | None => None
           end
      else numbers_of ps
  end.

(** The index [j >= 1] of the first part after the party that is a number
    or holds a percent sign; [None] stands for -1. *)
Fixpoint number_start_from (j : nat) (parts : list string) : option nat :=
  match parts with
  | [] => None
  | p :: ps =>
      if is_number_token p || PyStr.contains p "%" then Some j
      else number_start_from (S j) ps
  end.

(** A record whose columns come in the order total, election day, absentee,
    early voting. *)
Definition fb_record (cnty prec off dist pty cand : string) (t d a e : Z) : record :=
  mkRecord cnty prec off dist pty cand t (CInt a) (CInt e) (CInt d).

Definition registered_line (cnty prec : string) (st : state) (line : string) : state :=
  match Re.search registered_pattern line with
  | Some cs =>
      if bool_decide ((prec ++ "_registered") ∈ precinct_stats_added st) then st
      else match int_commas (grp 1 cs) with
           | Some n =>
               add_flag (append st (mkRecord cnty prec "Registered Voters" "" "" ""
                                             n CEmpty CEmpty CEmpty))
                        (prec ++ "_registered")
           | None => st                 (* ValueError, caught *)
           end
  | None => st
  end.

Definition ballots_line (label off suffix : string) (cnty prec : string)
  (st : state) (line : string) : state :=
  match Re.search (label_four label) line with
  | Some cs =>
      if bool_decide ((prec ++ suffix) ∈ precinct_stats_added st) then st
      else match four_ints cs with
           | Some (t, d, a, e) =>
               add_flag (append st (fb_record cnty prec off "" "" "" t d a e))
                        (prec ++ suffix)
           | None => st                 (* ValueError, caught *)
           end
  | None => st
  end.

Definition over_under (label cand : string) (cnty prec off : string)
  (st : state) (line : string) : state :=
  match Re.search (label_four label) line with
  | Some cs =>
      match four_ints cs with
      | Some (t, d, a, e) =>
          append st (fb_record cnty prec (normalize_office_name off)
                               (district st) "" cand t d a e)
      | None => st                      (* ValueError, caught *)
      end
  | None => st
  end.

(** The [Write-In Totals] line. *)
Definition write_in_totals (cnty prec off : string) (st : state) (line : string)
  : state :=
  match numbers_of (skipn 2 (PyStr.split_ws line)) with
  | Some (t :: d :: a :: e :: _) =>
      append st (fb_record cnty prec (normalize_office_name off) (district st)
                           "" "Write-In Totals" t d a e)
  | _ => st
  end.

(** The candidate line, parsed by position. *)
Definition candidate_line (cnty prec off : string) (st : state) (line : string)
  : state :=
  let parts := PyStr.split_ws line in
  if (6 <=? length parts)%nat then
    match parts with
    | pty :: rest =>
        match number_start_from 1 rest with
        | Some number_start =>
            if (1 <? number_start)%nat then
              let candidate_name := PyStr.join " " (firstn (number_start - 1) rest) in
              match numbers_of (skipn number_start parts) with
              | Some (t :: d :: a :: e :: _) =>
                  if PyStr.startswith candidate_name "Write-In:" then st
                  else append st (fb_record cnty prec (normalize_office_name off)
                                            (district st) pty candidate_name t d a e)
              | _ => st
              end
            else st
        | None => st
        end
    | [] => st
    end
  else st.

Definition step (cnty : string) (st : state) (raw : string) : state :=
  let line := PyStr.strip raw in
  if negb (PyStr.nonempty line) then st
  else
    match precinct_header line with
    | Some p =>
        mkState (data st) (Some p) (current_office st) (district st) ∅
    | None =>
        match current_precinct st with
        | None => st
        | Some prec =>
            if String.eqb line "STATISTICS" then st
            else if PyStr.contains line "Registered Voters - Total"
            then registered_line cnty prec st line
            else if PyStr.contains line "Ballots Cast - Total"
            then ballots_line "Ballots Cast - Total" "Ballots Cast" "_ballots"
                              cnty prec st line
            else if PyStr.contains line "Ballots Cast - Blank"
            then ballots_line "Ballots Cast - Blank" "Ballots Cast - Blank" "_blank"
                              cnty prec st line
            else
              let off := match current_office st with Some o => o | None => "" end in
              if PyStr.startswith line "Overvotes" && truthy (current_office st)
              then over_under "Overvotes" "Over Votes" cnty prec off st line
              else if PyStr.startswith line "Undervotes" && truthy (current_office st)
              then over_under "Undervotes" "Under Votes" cnty prec off st line
              else if any_in line office_indicators
              then mkState (data st) (current_precinct st) (Some line)
                           (header_district line) (precinct_stats_added st)
              else if truthy (current_office st)
                      && PyStr.startswith line "Write-In Totals"
              then write_in_totals cnty prec off st line
              else if any_in line skip_terms then st
              else if truthy (current_office st) && startswith_any line party_tokens
              then candidate_line cnty prec off st line
              else st
        end
    end.

Definition run (cnty : string) (st : state) (lines : list string) : state :=
  fold_left (step cnty) lines st.

Definition parse_election_data (text cnty : string) : list record :=
  data (run cnty init (PyStr.split text (String "010" EmptyString))).

End FortBend.

(** ** greenbox.py *)
Module Greenbox.
Import Tabular.

Definition normalize_office_name (office0 : string) : string :=
  let office := PyStr.strip office0 in
  let has := PyStr.contains office in
  if has "President and Vice President" || has "President and Vice-President"
  then "President"
  else if has "President/Vice President" then "President"
  else if has "President/Vice-President" then "President"
  else if has "United States Senator" then "U.S. Senate"
  else if has "U.S. Senator" then "U.S. Senate"
  else if has "United States Representative" then "U.S. House"
  else if has "U.S. Representative" then "U.S. House"
  else if has "State Senator" then "State Senate"
  else if has "State Representative" && negb (has "Unexpired Term")
  then "State Representative"
  else if has "Chief Justice, 13th Court of Appeals"
  then "Chief Justice, 13th Court of Appeals District"
  else if has "Chief Justice, 10th Court of Appeals"
  then "Chief Justice, 10th Court of Appeals District"
  else if has "Chief Justice, 11th Court of Appeals District"
  then "Chief Justice, 11th Court of Appeals District"
  else office.

Record state : Type := mkState {
  data : list record;
  current_precinct : option string;
  current_office : option string;
  district : string;
  precinct_added : gset string
}.

Definition init : state := mkState [] None None "" ∅.

Definition append (st : state) (r : record) : state :=
  mkState (data st ++ [r]) (current_precinct st) (current_office st)
          (district st) (precinct_added st).

(** A pattern given as text in which [.] is the only special character. *)
Fixpoint pat (s : string) : Re.re :=
  let one c := if Ascii.eqb c "."%char then Re.dot else Re.Chr c in
  match s with
  | EmptyString => Re.Eps
  | String c EmptyString => one c
  | String c s' => Re.Seq (one c) (pat s')
  end.

(** [<text>[^\n]*] *)
Definition pat_rest (s : string) : Re.re := Re.Seq (pat s) (Re.Star true Re.dot).

Definition office_patterns : list Re.re :=
  [pat "President and Vice President";
   pat "President and Vice-President";
   pat "President/Vice President";
   pat "President/Vice-President";
   pat "United States Senator";
   pat "U.S. Senator";
   pat_rest "United States Representative";
   pat_rest "U.S. Representative";
   pat "Railroad Commissioner";
   pat_rest "Justice";
   pat_rest "Judge";
   pat_rest "Member";
   pat_rest "State Representative";
   pat "Chief Justice, 13th Court of Appeals District";
   pat "Chief Justice, 10th Court of Appeals District";
   pat "Chief Justice, 11th Court of Appeals District";
   pat_rest "District Judge";
   pat_rest "District Attorney";
   pat_rest "County ";
   pat "Sheriff";
   pat "District Clerk";
   pat_rest "Presiding Judge";
   Re.Seq (pat "PROPOSITION ") (Re.Cls PyStr.is_upper);
   pat "County Attorney";
   pat "County Clerk";
   pat "County Tax Assessor-Collector";
   pat "County Constable";
   pat "Constable";
   pat "HEADWATER GROUNDWATER CONSERVATION DISTRICT"].

(** [r'^(\d+?(?:\s*-\s*[\w\s]+)?)\s+([\d,]+)\s+of\s+([\d,]+)\s+registered\s+voters'] *)
Definition precinct_pattern : Re.re :=
  Re.Seqs [Re.Bol;
           Re.Grp 1 (Re.Seq (Re.Plus false Re.digit)
                       (Re.Opt (Re.Seqs [Re.ws0; Re.Chr "-"; Re.ws0;
                                         Re.Plus true
                                           (Re.Cls (fun c => PyStr.is_word c
                                                             || PyStr.is_space c))])));
           Re.ws1; Re.Grp 2 Re.num; Re.ws1; Re.Lit "of"; Re.ws1; Re.Grp 3 Re.num;
           Re.ws1; Re.Lit "registered"; Re.ws1; Re.Lit "voters"].

(** [r'District.*\s+(\d+)'] *)
Definition district_pattern : Re.re :=
  Re.Seqs [Re.Lit "District"; Re.Star true Re.dot; Re.ws1;
           Re.Grp 1 (Re.Plus true Re.digit)].

(** [r'^(.+?)\s+(REP|DEM|LIB|GRN|IND|\(W\))\s+([\d,]+)\s+[\d.]+%\s+([\d,]+)\s+[\d.]+%\s+([\d,]+)\s+[\d.]+%\s+([\d,]+)\s+[\d.]+%'] *)
Definition candidate_pattern : Re.re :=
  Re.Seqs [Re.Bol; Re.Grp 1 (Re.Plus false Re.dot); Re.ws1;
           Re.Grp 2 (Re.Alts [Re.Lit "REP"; Re.Lit "DEM"; Re.Lit "LIB";
                              Re.Lit "GRN"; Re.Lit "IND"; Re.Lit "(W)"]);
           Re.ws1; Re.Grp 3 Re.num; Re.ws1; Re.pct;
           Re.ws1; Re.Grp 4 Re.num; Re.ws1; Re.pct;
           Re.ws1; Re.Grp 5 Re.num; Re.ws1; Re.pct;
           Re.ws1; Re.Grp 6 Re.num; Re.ws1; Re.pct].

Definition header_terms : list string :=
  ["Choice Party Absentee Voting"; "Not Assigned"; "Rejected write-in votes";
   "Unresolved write-in votes"; "Contest Totals"].

(** The precinct summary line: the precinct becomes current, and its two
    statistics are recorded the first time the precinct is seen. *)
Definition precinct_line (cnty : string) (st : state) (cs : Re.caps) : state :=
  let prec := PyStr.strip (grp 1 cs) in
  let st1 := mkState (data st) (Some prec) (current_office st) (district st)
                     (precinct_added st) in
  match int_commas (grp 2 cs), int_commas (grp 3 cs) with
  | Some ballots_cast, Some registered_voters =>
      if bool_decide (prec ∈ precinct_added st) then st1
      else
        mkState (data st
                 ++ [mkRecord cnty prec "Registered Voters" "" "" ""
                              registered_voters CEmpty CEmpty CEmpty;
                     mkRecord cnty prec "Ballots Cast" "" "" ""
                              ballots_cast CEmpty CEmpty CEmpty])
                (Some prec) (current_office st) (district st)
                (precinct_added st ∪ {[ prec ]})
  | _, _ => st1                         (* ValueError, caught *)
  end.

(** The office header test: every pattern is tried on the line, and each
    hit makes the line the current office and recomputes the district. *)
Definition office_header (st : state) (line : string) : state :=
  if existsb (fun p => match Re.match_ci true p line with
                       | Some _ => true | None => false end) office_patterns
  then
    let d :=
      match Re.search district_pattern (PyStr.title line) with
      | Some cs => grp 1 cs
      | None =>
          if PyStr.contains line "Place"
          then match Re.search (word_number "Place") (PyStr.title line) with
               | Some cs => grp 1 cs
               | None => ""
               end
          else ""
      end in
    mkState (data st) (current_precinct st) (Some line) d (precinct_added st)
  else st.

(** Under- and over-vote lines: absentee, early, election day, total. *)
Definition over_under (label cand : string) (cnty prec off : string)
  (st : state) (line : string) : state :=
  match map PyStr.py_int
            (Re.findall (Re.Plus true Re.digit) (PyStr.replace line label "")) with
  | Some a :: Some e :: Some d :: Some t :: _ =>
      append st (mkRecord cnty prec (normalize_office_name off) (district st)
                          "" cand t (CInt a) (CInt e) (CInt d))
  | _ => st
  end.

Definition candidate_line (cnty prec off : string) (st : state) (cs : Re.caps)
  : state :=
  let candidate_name := PyStr.strip (grp 1 cs) in
  let party := PyStr.strip (grp 2 cs) in
  match int_commas (grp 3 cs), int_commas (grp 4 cs),
        int_commas (grp 5 cs), int_commas (grp 6 cs) with
  | Some absentee, Some early, Some eday, Some total =>
      if PyStr.contains party "(W)" && (10 <? String.length candidate_name)%nat
      then st
      else append st (mkRecord cnty prec (normalize_office_name off) (district st)
                               party candidate_name total
                               (CInt absentee) (CInt early) (CInt eday))
  | _, _, _, _ => st                    (* ValueError, caught *)
  end.

Definition step (cnty : string) (st0 : state) (raw : string) : state :=
  let line := PyStr.strip raw in
  if negb (PyStr.nonempty line) then st0
  else
    match Re.search precinct_pattern line with
    | Some cs => precinct_line cnty st0 cs
    | None =>
        let st := office_header st0 line in
        match current_office st, current_precinct st with
        | Some off, Some prec =>
            if any_in line header_terms then st
            else
              match Re.rmatch candidate_pattern line with
              | Some cs => candidate_line cnty prec off st cs
              | None =>
                  if PyStr.startswith line "Cast Votes:" then st
                  else if PyStr.startswith line "Undervotes:"
                  then over_under "Undervotes:" "Under Votes" cnty prec off st line
                  else if PyStr.startswith line "Overvotes:"
                  then over_under "Overvotes:" "Over Votes" cnty prec off st line
                  else st
              end
        | _, _ => st
        end
    end.

Definition run (cnty : string) (st : state) (lines : list string) : state :=
  fold_left (step cnty) lines st.

Definition parse_election_data (text cnty : string) : list record :=
  data (run cnty init (PyStr.split text (String "010" EmptyString))).

End Greenbox.

(** ** collin.py *)
Module Collin.
Import Tabular.

Definition normalize_office_name (office0 : string) : string :=
  let office := PyStr.strip office0 in
  let has := PyStr.contains office in
  if has "President/Vice President" || has "President and Vice President" then "President"
  else if has "United States Senator" || has "U.S. Senator" then "U.S. Senate"
  else if has "United States Representative" || has "U.S. Representative" then "U.S. House"
  else if has "State Representative" then "State Representative"
  else if has "State Senator" then "State Senator"
  else if has "Railroad Commissioner" then "Railroad Commissioner"
  else if has "Justice, Supreme Court" then office
  else if has "Judge," || has "Justice," || has "Presiding Judge" || has "District Judge"
  then office
  else if has "Member, State Board of Education" || has "Member, State BoE"
  then "State Board of Education"
  else if has "Chief Justice" then office
  else if has "County" then office
  else if has "Sheriff" then "Sheriff"
  else if has "Constable" then office
  else if has "Proposition" then office
  else office.

(** The dictionary appended to [data]: five method columns. *)
Record record : Type := mkRecord {
  county : string;
  precinct : string;
  office : string;
  district : string;
  party : string;
  candidate : string;
  votes : Z;
  election_day : Z;
  early_voting : Z;
  ballot_by_mail : Z;
  provisional : Z;
  limited : Z
}.

Record state : Type := mkState {
  data : list record;
  current_precinct : option string;
  current_office : option string;
  cur_district : string
}.

Definition init : state := mkState [] None None "".

Definition append (st : state) (r : record) : state :=
  mkState (data st ++ [r]) (current_precinct st) (current_office st) (cur_district st).

(** [r'^PCT\s+(\d+)$'] *)
Definition precinct_pattern : Re.re :=
  Re.Seqs [Re.Bol; Re.Lit "PCT"; Re.ws1; Re.Grp 1 (Re.Plus true Re.digit); Re.Eol].

Definition office_indicators : list string :=
  ["President/Vice President"; "United States Senator"; "United States Representative";
   "Railroad Commissioner"; "Justice, Supreme Court"; "Presiding Judge";
   "Judge, Court of Criminal Appeals"; "Member, State Board of Education";
   "State Senator"; "State Representative"; "Chief Justice";
   "Justice, 5th Court of Appeals"; "District Judge"; "Judge, County Probate Court";
   "Sheriff"; "County Tax Assessor-Collector"; "County Commissioner"; "Constable";
   "Proposition"].

(** Terms that keep a line from being read as an office header. *)
Definition header_skip_terms : list string :=
  ["Vote For"; "TOTAL"; "Rep "; "Dem "; "Lib "; "Grn "; "Write-In"; "YES"; "NO"].

Definition skip_terms : list string :=
  ["Vote For"; "TOTAL"; "VOTE %"; "Election Day"; "Early Voting";
   "Ballot by mail"; "Provisional"; "Limited"; "Contest Totals"].

Definition party_prefixes : list string := ["Rep "; "Dem "; "Lib "; "Grn "; "IND "].

(** [r'Precinct\s+No\.\s+(\d+)'] *)
Definition precinct_no : Re.re :=
  Re.Seqs [Re.Lit "Precinct"; Re.ws1; Re.Lit "No."; Re.ws1;
           Re.Grp 1 (Re.Plus true Re.digit)].

Definition header_district (line : string) : string :=
  match first_search [word_number "District"; word_number "Place"; precinct_no] line with
  | Some d => d
  | None => ""
  end.

Definition parties : Re.re :=
  Re.Alts [Re.Lit "Rep"; Re.Lit "Dem"; Re.Lit "Lib"; Re.Lit "Grn"; Re.Lit "IND"].

(** [\s+([\d,]+)] five times, groups [n] to [n+4]. *)
Definition five_nums (n : nat) : list Re.re :=
  [Re.ws1; Re.Grp n Re.num; Re.ws1; Re.Grp (n + 1) Re.num; Re.ws1; Re.Grp (n + 2) Re.num;
   Re.ws1; Re.Grp (n + 3) Re.num; Re.ws1; Re.Grp (n + 4) Re.num].

(** [r'^\s*(Rep|Dem|Lib|Grn|IND)\s+(.+?)\s+([\d,]+)\s+[\d.]+%\s+([\d,]+)\s+([\d,]+)\s+([\d,]+)\s+([\d,]+)\s+([\d,]+)'] *)
Definition candidate_pattern : Re.re :=
  Re.Seqs ([Re.Bol; Re.ws0; Re.Grp 1 parties; Re.ws1; Re.Grp 2 (Re.Plus false Re.dot);
            Re.ws1; Re.Grp 3 Re.num; Re.ws1; Re.pct] ++ five_nums 4).

(** [r'(Rep|Dem|Lib|Grn|IND)\s+(.+)'] *)
Definition simple_pattern : Re.re :=
  Re.Seqs [Re.Grp 1 parties; Re.ws1; Re.Grp 2 (Re.Plus true Re.dot)].

(** [r'^\s*(Rep|Dem)\s+(.+?)\s+([\d,]+)\s+100\.00%\s+([\d,]+)\s+([\d,]+)\s+([\d,]+)\s+([\d,]+)\s+([\d,]+)$'] *)
Definition uncontested_pattern : Re.re :=
  Re.Seqs ([Re.Bol; Re.ws0; Re.Grp 1 (Re.Alts [Re.Lit "Rep"; Re.Lit "Dem"]); Re.ws1;
            Re.Grp 2 (Re.Plus false Re.dot); Re.ws1; Re.Grp 3 Re.num; Re.ws1;
            Re.Lit "100.00%"] ++ five_nums 4 ++ [Re.Eol]).

(** [r'^\s*(YES|NO)\s+([\d,]+)\s+[\d.]+%\s+([\d,]+)\s+([\d,]+)\s+([\d,]+)\s+([\d,]+)\s+([\d,]+)$'] *)
Definition prop_pattern : Re.re :=
  Re.Seqs ([Re.Bol; Re.ws0; Re.Grp 1 (Re.Alts [Re.Lit "YES"; Re.Lit "NO"]);
            Re.ws1; Re.Grp 2 Re.num; Re.ws1; Re.pct] ++ five_nums 3 ++ [Re.Eol]).

(** [if name.startswith('Write-In'): name = 'Write-In Totals'] *)
Definition write_in_totals (name : string) : string :=
  if PyStr.startswith name "Write-In" then "Write-In Totals" else name.

(** [int(xs[i].replace(',', ''))]; [None] is [IndexError] or [ValueError]. *)
Definition int_at (xs : list string) (i : nat) : option Z :=
  match nth_error xs i with
  | Some x => int_commas x
  | None => None
  end.

(** The over- and under-vote lines: six numbers found with [\d+]. *)
Definition over_under (cand : string) (cnty prec off : string) (st : state)
  (line : string) : state :=
  let numbers := Re.findall (Re.Plus true Re.digit) line in
  if (6 <=? length numbers)%nat then
    match map PyStr.py_int (firstn 6 numbers) with
    | [Some t; Some d; Some e; Some b; Some p; Some l] =>
        append st (mkRecord cnty prec (normalize_office_name off) (cur_district st)
                            "" cand t d e b p l)
    | _ => st
    end
  else st.

(** The first fallback: the party, then everything up to the first number
    is the name; the second number is skipped as the percentage. *)
Definition simple_fallback (cnty prec off dist : string) (cs : Re.caps)
  (numbers : list string) : option record :=
  let rest := grp 2 cs in
  match numbers with
  | n0 :: _ =>
      let first_num_pos := match PyStr.find rest n0 with Some i => i | None => 0 end in
      let candidate_name := PyStr.strip (PyStr.take first_num_pos rest) in
      match int_at numbers 0, int_at numbers 2, int_at numbers 3,
            int_at numbers 4, int_at numbers 5 with
      | Some t, Some d, Some e, Some b, Some p =>
          match (if (6 <? length numbers)%nat then int_at numbers 6 else Some 0%Z) with
          | Some l =>
              Some (mkRecord cnty prec (normalize_office_name off) dist (grp 1 cs)
                             (write_in_totals candidate_name) t d e b p l)
          | None => None
          end
      | _, _, _, _, _ => None
      end
  | [] => None
  end.

(** The index of the first part that ends with a percent sign. *)
Fixpoint pct_index (i : nat) (parts : list string) : option nat :=
  match parts with
  | [] => None
  | p :: ps => if PyStr.endswith p "%" then Some i else pct_index (S i) ps
  end.

(** The second fallback: the fields are located around the percentage. *)
Definition pct_fallback (cnty prec off dist : string) (line : string)
  : option record :=
  let parts := PyStr.split_ws line in
  if (8 <=? length parts)%nat then
    match pct_index 0 parts with
    | Some pct_idx =>
        if (0 <? pct_idx)%nat then
          let candidate_name :=
            PyStr.join " " (firstn (pct_idx - 1 - 1) (skipn 1 parts)) in
          match int_at parts (pct_idx - 1), int_at parts (pct_idx + 1),
                int_at parts (pct_idx + 2), int_at parts (pct_idx + 3),
                int_at parts (pct_idx + 4), int_at parts (pct_idx + 5) with
          | Some t, Some d, Some e, Some b, Some p, Some l =>
              Some (mkRecord cnty prec (normalize_office_name off) dist
                             (nth 0 parts "") (write_in_totals candidate_name)
                             t d e b p l)
          | _, _, _, _, _, _ => None
          end
        else None
    | None => None
    end
  else None.

(** A match of a pattern with a label, a name, a total and five columns,
    the total in group [n]. *)
Definition six_ints (n : nat) (cs : Re.caps) : option (Z * Z * Z * Z * Z * Z) :=
  match int_commas (grp n cs), int_commas (grp (n + 1) cs), int_commas (grp (n + 2) cs),
        int_commas (grp (n + 3) cs), int_commas (grp (n + 4) cs),
        int_commas (grp (n + 5) cs) with
  | Some t, Some d, Some e, Some b, Some p, Some l => Some (t, d, e, b, p, l)
  | _, _, _, _, _, _ => None
  end.

(** The last three classifiers: the strict candidate pattern, the
    uncontested pattern and the proposition pattern. *)
Definition strict_line (cnty prec off : string) (st : state) (line : string)
  (candidate_match : option Re.caps) : state :=
  match candidate_match with
  | Some cs =>
      match six_ints 3 cs with
      | Some (t, d, e, b, p, l) =>
          append st (mkRecord cnty prec (normalize_office_name off) (cur_district st)
                              (PyStr.strip (grp 1 cs))
                              (write_in_totals (PyStr.strip (grp 2 cs))) t d e b p l)
      | None => st                      (* ValueError, caught *)
      end
  | None =>
      match (if PyStr.nonempty off then Re.rmatch uncontested_pattern line else None) with
      | Some cs =>
          match six_ints 3 cs with
          | Some (t, d, e, b, p, l) =>
              append st (mkRecord cnty prec (normalize_office_name off) (cur_district st)
                                  (PyStr.strip (grp 1 cs)) (PyStr.strip (grp 2 cs))
                                  t d e b p l)
          | None => st
          end
      | None =>
          match (if PyStr.nonempty off && PyStr.contains off "Proposition"
                 then Re.rmatch prop_pattern line else None) with
          | Some cs =>
              match six_ints 2 cs with
              | Some (t, d, e, b, p, l) =>
                  append st (mkRecord cnty prec (normalize_office_name off)
                                      (cur_district st) "" (grp 1 cs) t d e b p l)
              | None => st
              end
          | None => st
          end
      end
  end.

(** The candidate classifier with its two fallbacks. *)
Definition candidate_line (cnty prec off : string) (st : state) (line : string)
  : state :=
  let candidate_match := Re.search candidate_pattern line in
  let fallback : option record :=
    if startswith_any line party_prefixes && PyStr.nonempty off then
      match candidate_match with
      | Some _ => None
      | None =>
          let numbers0 := Re.findall Re.num line in
          let simple_match := Re.rmatch simple_pattern line in
          let numbers :=
            match simple_match with
            | Some cs => Re.findall Re.num (grp 2 cs)
            | None => numbers0
            end in
          match (match simple_match with
                 | Some cs =>
                     if (6 <=? length numbers)%nat
                     then simple_fallback cnty prec off (cur_district st) cs numbers
                     else None
                 | None => None
                 end) with
          | Some r => Some r
          | None =>
              if (6 <=? length numbers)%nat
              then pct_fallback cnty prec off (cur_district st) line
              else None
          end
      end
    else None in
  match fallback with
  | Some r => append st r
  | None => strict_line cnty prec off st line candidate_match
  end.

Definition step (cnty : string) (st : state) (raw : string) : state :=
  let line := PyStr.strip raw in
  if negb (PyStr.nonempty line) then st
  else
    match (if PyStr.startswith line "PCT "
           then Re.rmatch precinct_pattern line else None) with
    | Some cs =>
        mkState (data st) (Some ("PCT " ++ grp 1 cs)) (current_office st) (cur_district st)
    | None =>
        match current_precinct st with
        | None => st
        | Some prec =>
            if any_in line office_indicators && negb (any_in line header_skip_terms)
            then mkState (data st) (current_precinct st) (Some line) (header_district line)
            else
              match current_office st with
              | None => st
              | Some off =>
                  if any_in line skip_terms then st
                  else if PyStr.startswith line "Overvotes" && PyStr.nonempty off
                  then over_under "Over Votes" cnty prec off st line
                  else if PyStr.startswith line "Undervotes" && PyStr.nonempty off
                  then over_under "Under Votes" cnty prec off st line
                  else candidate_line cnty prec off st line
              end
        end
    end.

Definition run (cnty : string) (st : state) (lines : list string) : state :=
  fold_left (step cnty) lines st.

Definition parse_election_data (text cnty : string) : list record :=
  data (run cnty init (PyStr.split text (String "010" EmptyString))).

End Collin.

(** ** clarity_parser.py *)
Module Clarity.

(** A Python value held in a row: [None], a string or an integer. *)
Inductive cell : Type :=
| VNone
| VStr (s : string)
| VInt (z : Z).

#[global] Instance cell_eq_dec : EqDecision cell.
Proof. solve_decision. Defined.

Definition of_opt (o : option string) : cell :=
  match o with Some s => VStr s | None => VNone end.

(** What the parser of the results tree hands over for one result. *)
Record choice : Type := mkChoice {
  choice_text : option string;
  choice_party : option string      (* [None]: no [party] attribute, or [None] *)
}.

Record result : Type := mkResult {
  vote_type : string;
  res_choice : option choice;
  contest_text : string;
  jurisdiction : option string;     (* the jurisdiction's name *)
  res_votes : Z
}.

(** [parse_office] *)
Definition district_after (office_text sep : string) : string :=
  let part := nth 1 (PyStr.split office_text sep) "" in
  if PyStr.contains part " - "
  then PyStr.strip (nth 0 (PyStr.split part " - ") "")
  else PyStr.strip part.

Definition parse_office (office_text0 : string) : string * option string :=
  if negb (PyStr.nonempty office_text0) then ("", None)
  else
    let office_text := PyStr.strip office_text0 in
    let office :=
      if PyStr.contains office_text " - "
      then PyStr.strip (nth 0 (PyStr.split office_text " - ") "")
      else if PyStr.contains office_text ","
      then PyStr.strip (nth 0 (PyStr.split office_text ",") "")
      else office_text in
    let district :=
      if PyStr.contains office_text ", District"
      then Some (district_after office_text ", District")
      else if PyStr.contains office_text ", Dist"
      then Some (district_after office_text ", Dist")
      else if PyStr.contains office_text "Precinct"
      then Some (PyStr.strip (nth 1 (PyStr.split office_text "Precinct") ""))
      else if PyStr.contains office_text ", Pl "
      then Some (district_after office_text ", Pl ")
      else None in
    if PyStr.contains office "President/Vice President" then ("President", district)
    else if PyStr.contains office "United States Senator"
            || PyStr.contains office "US Senator"
            || PyStr.contains office "U. S. Senator"
    then ("U.S. Senate", None)
    else if PyStr.contains office "US Representative"
            || PyStr.contains office "U.S. Representative"
            || PyStr.contains office "United States Representative"
    then ("U.S. House", district)
    else (office, district).

(** [parse_party] *)
Definition parse_party (office_text : string) : option string :=
  if PyStr.contains office_text "- REP" then Some "REP"
  else if PyStr.contains office_text "- DEM" then Some "DEM"
  else None.

(** [parse_candidate_party] *)
Definition parse_candidate_party (candidate_text : string) : string * option string :=
  let candidate := PyStr.strip candidate_text in
  if PyStr.contains candidate "(" then
    if PyStr.contains candidate "(I)" then
      if PyStr.contains candidate "(I)(I)"
      then (PyStr.strip (nth 0 (PyStr.split candidate "(I)") ""), Some "I")
      else
        let parts := PyStr.split candidate "(I)" in
        let name := PyStr.strip (nth 0 parts "") in
        if (1 <? length parts)%nat && PyStr.nonempty (PyStr.strip (nth 1 parts ""))
        then (name ++ " (I)", Some "I")
        else (name, Some "I")
    else
      match PyStr.split1 candidate "(" with
      | [name; party_part] =>
          (PyStr.strip name, Some (PyStr.strip (PyStr.replace party_part ")" "")))
      | _ => (candidate, None)          (* ValueError, caught *)
      end
  else (candidate, None).

(** [clean_candidate_name] *)
Definition party_name_prefixes : list string := ["REP "; "DEM "; "LIB "; "GRN "; "IND "].

Fixpoint strip_first_prefix (prefixes : list string) (candidate : string) : string :=
  match prefixes with
  | [] => candidate
  | p :: ps =>
      if PyStr.startswith candidate p
      then PyStr.strip (String.substring (String.length p)
                          (String.length candidate - String.length p) candidate)
      else strip_first_prefix ps candidate
  end.

Definition clean_candidate_name (candidate_text : string) : string :=
  if negb (PyStr.nonempty candidate_text) then candidate_text
  else strip_first_prefix party_name_prefixes (PyStr.strip candidate_text).

(** *** statewide_results *)

(** The candidate and party of a statewide row, from the choice text and
    the party found in the contest text.  [None] is the [ValueError] of
    unpacking a split into more than two parts. *)
Definition statewide_candidate_party (candidate : string) (party : option string)
  : option (string * option string) :=
  match party with
  | None =>
      if PyStr.contains candidate "(" then
        if PyStr.contains candidate "(I)" then
          match (if PyStr.contains candidate "(I)(I)"
                 then Some (nth 0 (PyStr.split candidate "(I)") "", "I")
                 else match PyStr.split candidate "(I)" with
                      | [c; p] => Some (c, p)
                      | _ => None
                      end) with
          | Some (c, p) =>
              Some (PyStr.strip c ++ " (I)", Some (PyStr.strip (PyStr.replace p ")" "")))
          | None => None
          end
        else
          match PyStr.split1 candidate "(" with
          | [c; p] => Some (PyStr.strip c, Some (PyStr.strip (PyStr.replace p ")" "")))
          | _ => None
          end
      else Some (candidate, None)
  | Some _ => Some (candidate, party)
  end.

(** A statewide row is one dictionary holding the identity fields and the
    vote types side by side. *)
Definition srow : Type := gmap string cell.

Definition same_identity (county office district party candidate : cell) (x : srow)
  : bool :=
  bool_decide (x !! "county" = Some county) && bool_decide (x !! "office" = Some office)
  && bool_decide (x !! "district" = Some district)
  && bool_decide (x !! "party" = Some party)
  && bool_decide (x !! "candidate" = Some candidate).

(** [r[0][vote_type] = votes] on the first row with the identity. *)
Fixpoint set_first (same : srow -> bool) (vt : string) (v : Z) (rows : list srow)
  : option (list srow) :=
  match rows with
  | [] => None
  | x :: xs =>
      if same x then Some (<[vt := VInt v]> x :: xs)
      else option_map (cons x) (set_first same vt v xs)
  end.

(** [None] is an uncaught exception: a result without a choice or without
    choice text, or the [ValueError] of the party resolution. *)
Definition statewide_ingest (rows : list srow) (r : result) : option (list srow) :=
  let '(office, district) := parse_office (contest_text r) in
  match match res_choice r with
        | Some c =>
            match choice_text c with
            | Some t => statewide_candidate_party t (parse_party (contest_text r))
            | None => None
            end
        | None => None
        end with
  | None => None
  | Some (candidate, party) =>
      let same := same_identity (of_opt (jurisdiction r)) (VStr office) (of_opt district)
                                (of_opt party) (VStr candidate) in
      match set_first same (vote_type r) (res_votes r) rows with
      | Some rows' => Some rows'
      | None =>
          Some ((rows ++ [ <[vote_type r := VInt (res_votes r)]>
                            (<["candidate" := VStr candidate]>
                               (<["party" := of_opt party]>
                                  (<["district" := of_opt district]>
                                     (<["office" := VStr office]>
                                        (<["county" := of_opt (jurisdiction r)]> ∅))))) ])%list)
      end
  end.

Fixpoint statewide_rows (rows : list srow) (rs : list result) : option (list srow) :=
  match rs with
  | [] => Some rows
  | r :: rs' =>
      match statewide_ingest rows r with
      | Some rows' => statewide_rows rows' rs'
      | None => None
      end
  end.

(** The [votes] column written for a statewide row: the value stored
    under ['Election Day']; [None] is [KeyError]. *)
Definition statewide_total (row : srow) : option cell := row !! "Election Day".

(** *** precinct_results *)

(** The aggregation key: county, precinct, office, district, party and
    candidate.  The last three may be [None]. *)
Definition key : Type :=
  (string * string * string * option string * option string * option string)%type.

Definition k_office (k : key) : string := let '(_, _, o, _, _, _) := k in o.
Definition k_district (k : key) : option string := let '(_, _, _, d, _, _) := k in d.
Definition k_party (k : key) : option string := let '(_, _, _, _, p, _) := k in p.
Definition k_candidate (k : key) : option string := let '(_, _, _, _, _, c) := k in c.

(** The payload of a key: vote-method name to count. *)
Abbreviation payload := (gmap string Z).

(** [results], a dictionary in insertion order. *)
Definition store : Type := list (key * payload).

(** [results[k][vt] = v]: the payload of [k] is created when [k] is new,
    and extended or overwritten at [vt] otherwise. *)
Fixpoint store_set (k : key) (vt : string) (v : Z) (st : store) : store :=
  match st with
  | [] => [(k, {[ vt := v ]})]
  | (k', p) :: rest =>
      if decide (k = k') then (k', <[vt := v]> p) :: rest
      else (k', p) :: store_set k vt v rest
  end.

Fixpoint store_get (k : key) (st : store) : option payload :=
  match st with
  | [] => None
  | (k', p) :: rest => if decide (k = k') then Some p else store_get k rest
  end.

Definition excluded_vote_types : list string :=
  ["Number of Precincts"; "Overvotes"; "Undervotes"].

(** The loop body over [p.results]: the store and the set of vote types
    seen.  [region] is [p.region] when the parser has one. *)
Definition ingest (county_name : string) (region : option string)
  (acc : store * gset string) (r : result) : store * gset string :=
  let '(results, vote_types) := acc in
  if bool_decide (vote_type r ∈ excluded_vote_types) then acc
  else
    match res_choice r with
    | None => acc
    | Some ch =>
        let vote_types := vote_types ∪ {[ vote_type r ]} in
        let candidate0 :=
          match choice_text ch with
          | Some t => if PyStr.nonempty t then PyStr.strip t else ""
          | None => ""
          end in
        if negb (PyStr.nonempty candidate0) then (results, vote_types)
        else
          let '(office, district) := parse_office (contest_text r) in
          let '(candidate1, party) :=
            match choice_party ch with
            | None =>
                if PyStr.contains candidate0 "("
                then parse_candidate_party candidate0
                else (candidate0, None)
            | Some pty => (candidate0, Some pty)
            end in
          let candidate := clean_candidate_name candidate1 in
          let county := match region with Some g => g | None => county_name end in
          match jurisdiction r with
          | None => (results, vote_types)
          | Some precinct =>
              (store_set (county, precinct, office, district, party, Some candidate)
                         (vote_type r) (res_votes r) results,
               vote_types)
          end
    end.

(** The [VoterTurnout] element of detail.xml, as far as it is read. *)
Record precinct_elem : Type := mkPrecinctElem {
  pe_name : option string;
  pe_totalVoters : option string;
  pe_ballotsCast : option string;
  pe_votes : option string
}.

Record vote_type_elem : Type := mkVoteTypeElem {
  vte_name : option string;
  vte_precincts : list precinct_elem     (* its [Precinct] descendants *)
}.

Record voter_turnout : Type := mkVoterTurnout {
  vt_precincts : list precinct_elem;     (* all [Precinct] descendants *)
  vt_vote_types : list vote_type_elem    (* all [VoteType] descendants *)
}.

Definition attr (a : option string) (default : string) : string :=
  match a with Some s => s | None => default end.

(** An attribute that is present, non-empty and not ['0']. *)
Definition counted (s : string) : bool :=
  PyStr.nonempty s && negb (String.eqb s "0").

Definition reg_key (county_name precinct_name : string) : key :=
  (county_name, precinct_name, "Registered Voters", None, None, None).

Definition ballots_key (county_name precinct_name : string) : key :=
  (county_name, precinct_name, "Ballots Cast", None, None, None).

(** A store together with a flag that is [false] once an exception was
    raised; what was stored before the exception stays. *)
Definition attempt : Type := (store * bool)%type.

Definition set_int (k : key) (vt : string) (value : string) (a : attempt) : attempt :=
  let '(st, ok) := a in
  if ok then
    match PyStr.py_int value with
    | Some n => (store_set k vt n st, true)
    | None => (st, false)               (* ValueError *)
    end
  else a.

Definition turnout_precinct (county_name : string) (a : attempt) (pe : precinct_elem)
  : attempt :=
  match pe_name pe with
  | Some name =>
      if PyStr.nonempty name then
        let total_voters := attr (pe_totalVoters pe) "0" in
        let ballots_cast := attr (pe_ballotsCast pe) "0" in
        let a1 := if counted total_voters
                  then set_int (reg_key county_name name) "votes_only" total_voters a
                  else a in
        if counted ballots_cast
        then set_int (ballots_key county_name name) "ballotsCast" ballots_cast a1
        else a1
      else a
  | None => a
  end.

Definition turnout_vote_type (county_name : string) (a : attempt) (vte : vote_type_elem)
  : attempt :=
  match vte_name vte with
  | Some vt_name =>
      if PyStr.nonempty vt_name && negb (String.eqb vt_name "regVotersCounty") then
        fold_left
          (fun a pe =>
             match pe_name pe with
             | Some name =>
                 let votes := attr (pe_votes pe) "0" in
                 if PyStr.nonempty name && counted votes
                 then set_int (ballots_key county_name name) vt_name votes a
                 else a
             | None => a
             end)
          (vte_precincts vte) a
      else a
  | None => a
  end.

(** The handler of the exception: registered voters summed per precinct
    from the [regVotersCounty] results, in first-seen order. *)
Fixpoint tally_add (name : string) (v : Z) (tally : list (string * Z))
  : list (string * Z) :=
  match tally with
  | [] => [(name, v)]
  | (n, t) :: rest =>
      if String.eqb n name then (n, (t + v)%Z) :: rest
      else (n, t) :: tally_add name v rest
  end.

Definition reg_voters_data (rs : list result) : list (string * Z) :=
  fold_left
    (fun tally r =>
       match jurisdiction r with
       | Some name =>
           if String.eqb (vote_type r) "regVotersCounty" && PyStr.nonempty name
              && negb (Z.eqb (res_votes r) 0)
           then tally_add name (res_votes r) tally
           else tally
       | None => tally
       end) rs [].

Definition add_voter_turnout_rows (results : store) (rs : list result)
  (turnout : option voter_turnout) (county_name : string) : store :=
  match turnout with
  | None => results
  | Some vt =>
      let a1 := fold_left (turnout_precinct county_name) (vt_precincts vt) (results, true) in
      let '(st, ok) := fold_left (turnout_vote_type county_name) (vt_vote_types vt) a1 in
      if ok then st
      else fold_left
             (fun st '(name, n) =>
                if (0 <? n)%Z then store_set (reg_key county_name name) "votes_only" n st
                else st)
             (reg_voters_data rs) st
  end.

(** An output row: the dictionary [row_data]. *)
Definition row : Type := gmap string cell.

Definition base_headers : list string :=
  ["county"; "precinct"; "office"; "district"; "party"; "candidate"; "votes"].

(** [vt.replace(' ', '_').lower()] *)
Definition column_name (vt : string) : string :=
  PyStr.lower (PyStr.replace vt " " "_").

(** The party written for a key. *)
Definition row_party (k : key) : option string :=
  if PyStr.contains (k_office k) "Republican" then Some "REP"
  else if PyStr.contains (k_office k) "Democrat" then Some "DEM"
  else k_party k.

(** [sum(v for k, v in vote_data.items() if k != 'votes_only')] *)
Definition payload_sum (vote_data : payload) : Z :=
  map_fold (fun k v acc => if String.eqb k "votes_only" then acc else (acc + v)%Z)
           0%Z vote_data.

Definition vote_total (k : key) (vote_data : payload) : Z :=
  if String.eqb (k_office k) "Registered Voters"
  then match vote_data !! "votes_only" with Some v => v | None => 0%Z end
  else payload_sum vote_data.

(** The value written in the column of vote type [vt]. *)
Definition column_value (k : key) (vote_data : payload) (vt : string) : cell :=
  if String.eqb (k_office k) "Registered Voters" then VStr ""
  else VInt (match vote_data !! vt with Some v => v | None => 0%Z end).

(** The seven base entries of [row_data]. *)
Definition base_row (k : key) (vote_data : payload) : row :=
  let '(county, precinct, office, district, _, candidate) := k in
  <["votes" := VInt (vote_total k vote_data)]>
    (<["candidate" := of_opt candidate]>
       (<["party" := of_opt (row_party k)]>
          (<["district" := of_opt district]>
             (<["office" := VStr office]>
                (<["precinct" := VStr precinct]>
                   (<["county" := VStr county]> ∅)))))).

(** [row_data] after the loop over the vote types, which are visited in
    the order [vts]. *)
Definition row_data (vts : list string) (k : key) (vote_data : payload) : row :=
  fold_left
    (fun rd vt =>
       if String.eqb vt "votes_only" then rd
       else <[column_name vt := column_value k vote_data vt]> rd)
    vts (base_row k vote_data).

(** [output_rows] before it is sorted: one row per key of the store. *)
Definition output_rows (vote_types : gset string) (results : store) : list row :=
  map (fun '(k, vote_data) => row_data (elements vote_types) k vote_data) results.

(** *** Sorting the rows *)

Section StableSort.
Context {A : Type} (le : A -> A -> bool).

  (** [x] goes in front of the first element that is not smaller. *)
Fixpoint insert_sorted (x : A) (l : list A) : list A :=
    match l with
    | [] => [x]
    | y :: l' => if le x y then x :: l else y :: insert_sorted x l'
    end.

  (** A stable sort, as [list.sort] is. *)
Definition stable_sort (l : list A) : list A := foldr insert_sorted [] l.
End StableSort.

(** The sort key [(x['office'], x['district'] or '', x['candidate'])] when
    its three entries are strings or [None] as the base row has them. *)
Definition sort_key : Type := (string * string * option string)%type.

Definition sort_key_of (x : row) : option sort_key :=
  match x !! "office", x !! "district", x !! "candidate" with
  | Some (VStr o), Some d, Some c =>
      match (match d with
             | VNone => Some ""
             | VStr s => Some s
             | VInt z => if Z.eqb z 0 then Some "" else None
             end),
            (match c with
             | VNone => Some None
             | VStr s => Some (Some s)
             | VInt _ => None
             end) with
      | Some d', Some c' => Some (o, d', c')
      | _, _ => None
      end
  | _, _, _ => None
  end.

Definition lex (c1 c2 : comparison) : comparison :=
  match c1 with Eq => c2 | _ => c1 end.

(** Tuple comparison; a [None] candidate is put first among rows that
    agree on the rest, where Python cannot compare it with a string. *)
Definition key_compare (a b : sort_key) : comparison :=
  let '(o1, d1, c1) := a in
  let '(o2, d2, c2) := b in
  lex (String.compare o1 o2)
      (lex (String.compare d1 d2)
           (match c1, c2 with
            | None, None => Eq
            | None, Some _ => Lt
            | Some _, None => Gt
            | Some x, Some y => String.compare x y
            end)).

Definition key_le (a b : sort_key) : bool :=
  match key_compare a b with Gt => false | _ => true end.

(** Two keys Python can compare: not a [None] against a string after equal
    office and district. *)
Definition comparable (a b : sort_key) : bool :=
  let '(o1, d1, c1) := a in
  let '(o2, d2, c2) := b in
  negb (String.eqb o1 o2 && String.eqb d1 d2)
  || match c1, c2 with
     | None, None | Some _, Some _ => true
     | _, _ => false
     end.

Definition all_comparable (ks : list sort_key) : bool :=
  forallb (fun a => forallb (comparable a) ks) ks.

Fixpoint keyed (rows : list row) : option (list (sort_key * row)) :=
  match rows with
  | [] => Some []
  | x :: xs =>
      match sort_key_of x, keyed xs with
      | Some k, Some kxs => Some ((k, x) :: kxs)
      | _, _ => None
      end
  end.

(** [output_rows.sort(key=...)].  [None] stands for rows on which the sort
    is not modelled: a key entry replaced by a number, or a [None]
    candidate that may have to be compared with a string, for which
    [list.sort] can raise [TypeError]. *)
Definition sort_rows (rows : list row) : option (list row) :=
  match keyed rows with
  | Some kxs =>
      if all_comparable (map fst kxs)
      then Some (map snd (stable_sort (fun a b => key_le (fst a) (fst b)) kxs))
      else None
  | None => None
  end.

(** [sorted(column names)], the dynamic part of the header. *)
Definition vote_type_headers (vote_types : gset string) : list string :=
  stable_sort String.leb (map column_name (elements vote_types)).

(** The rows handed to the CSV writer. *)
Definition precinct_results (county_name : string) (region : option string)
  (rs : list result) (turnout : option voter_turnout) : option (list row) :=
  let '(results0, vote_types) := fold_left (ingest county_name region) rs ([], ∅) in
  let results := add_voter_turnout_rows results0 rs turnout county_name in
  sort_rows (output_rows vote_types results).

(** The line written for a row: [row.get(header, '')] for each header. *)
Definition csv_line (headers : list string) (x : row) : list cell :=
  map (fun h => match x !! h with Some v => v | None => VStr "" end) headers.

End Clarity.

(** * Notions used in the statements *)

(** A record of a write-in candidate given by name, in the Electionware and
    Fort Bend layouts. *)
Definition named_write_in (r : Tabular.record) : bool :=
  PyStr.startswith (Tabular.candidate r) "Write-In:".

(** The same in the Greenbox layout: party token [(W)] and a name of more
    than ten characters. *)
Definition long_write_in (r : Tabular.record) : bool :=
  String.eqb (Tabular.party r) "(W)" && (10 <? String.length (Tabular.candidate r))%nat.

(** The store of [precinct_results] when the rows are built: the results
    scanned, then the turnout rows added. *)
Definition scan (county_name : string) (region : option string)
  (rs : list Clarity.result) : Clarity.store * gset string :=
  fold_left (Clarity.ingest county_name region) rs ([], ∅).

Definition final_store (county_name : string) (region : option string)
  (rs : list Clarity.result) (turnout : option Clarity.voter_turnout) : Clarity.store :=
  Clarity.add_voter_turnout_rows (fst (scan county_name region rs)) rs turnout county_name.

(** No vote type is written into one of the seven base columns. *)
Definition no_clash (vts : list string) : Prop :=
  Forall (fun vt => Clarity.column_name vt ∉ Clarity.base_headers) vts.

(** Rows in the order of their sort keys. *)
Definition rows_in_order (a b : Clarity.row) : Prop :=
  exists ka kb, Clarity.sort_key_of a = Some ka /\ Clarity.sort_key_of b = Some kb
                /\ Clarity.key_le ka kb = true.

(** The rows whose sort key is [k]. *)
Definition has_key (k : Clarity.sort_key) (x : Clarity.row) : bool :=
  bool_decide (Clarity.sort_key_of x = Some k).

(** A text made of the given lines. *)
Definition text_of (lines : list string) : string :=
  PyStr.join (String "010" EmptyString) lines.

(** A small results tree: two methods for one candidate in precinct P1,
    and a second candidate in precinct P0. *)
Definition sample_results : list Clarity.result :=
  [Clarity.mkResult "Election Day"
     (Some (Clarity.mkChoice (Some "John Smith (REP)") None)) "Sheriff" (Some "P1") 10;
   Clarity.mkResult "Early Voting"
     (Some (Clarity.mkChoice (Some "John Smith (REP)") None)) "Sheriff" (Some "P1") 5;
   Clarity.mkResult "Election Day"
     (Some (Clarity.mkChoice (Some "Al Brown") (Some "DEM"))) "Sheriff" (Some "P0") 7].

Definition sample_turnout : option Clarity.voter_turnout :=
  Some (Clarity.mkVoterTurnout
          [Clarity.mkPrecinctElem (Some "P1") (Some "100") (Some "15") None]
          [Clarity.mkVoteTypeElem (Some "Election Day")
             [Clarity.mkPrecinctElem (Some "P1") None None (Some "10")]]).

(** One result of a party primary, and the key and payload it leaves in
    the store. *)
Definition primary_results : list Clarity.result :=
  [Clarity.mkResult "Election Day"
     (Some (Clarity.mkChoice (Some "Pat Roe") None))
     "Republican Party County Chair" (Some "P1") 3].

Definition primary_key : Clarity.key :=
  ("cty", "P1", "Republican Party County Chair", None, None, Some "Pat Roe").

Definition primary_payload : gmap string Z := {[ "Election Day" := 3%Z ]}.

(** A contest whose name holds both party words. *)
Definition joint_results : list Clarity.result :=
  [Clarity.mkResult "Election Day"
     (Some (Clarity.mkChoice (Some "Pat Roe") None))
     "Democrat-Republican Joint Committee" (Some "P1") 3].

(** The integer in a column of a row, 0 when the column holds none. *)
Definition column_int (x : Clarity.row) (c : string) : Z :=
  match x !! c with Some (Clarity.VInt z) => z | _ => 0%Z end.

(** The sum of the vote-method columns of a row. *)
Definition columns_sum (vts : list string) (x : Clarity.row) : Z :=
  foldr (fun vt acc =>
           if String.eqb vt "votes_only" then acc
           else (column_int x (Clarity.column_name vt) + acc)%Z) 0%Z vts.

(** Every method stored in the payload is one of the vote types [vts]. *)
Definition payload_within (vts : list string) (vd : gmap string Z) : Prop :=
  forall vt, is_Some (vd !! vt) -> vt = "votes_only" \/ vt ∈ vts.

(** The strings a pattern can consume, whatever the position ([^] and [$]
    consume nothing). *)
Inductive Lang (ci : bool) : Re.re -> string -> Prop :=
| L_Eps : Lang ci Re.Eps ""
| L_Chr c x : Re.chr_ok ci c x = true -> Lang ci (Re.Chr c) (String x "")
| L_Cls p x : Re.cls_ok ci p x = true -> Lang ci (Re.Cls p) (String x "")
| L_Seq r1 r2 s1 s2 :
    Lang ci r1 s1 -> Lang ci r2 s2 -> Lang ci (Re.Seq r1 r2) (s1 ++ s2)
| L_AltL r1 r2 s : Lang ci r1 s -> Lang ci (Re.Alt r1 r2) s
| L_AltR r1 r2 s : Lang ci r2 s -> Lang ci (Re.Alt r1 r2) s
| L_Star0 g r : Lang ci (Re.Star g r) ""
| L_StarS g r s1 s2 :
    Lang ci r s1 -> Lang ci (Re.Star g r) s2 -> Lang ci (Re.Star g r) (s1 ++ s2)
| L_Grp n r s : Lang ci r s -> Lang ci (Re.Grp n r) s
| L_Bol : Lang ci Re.Bol ""
| L_Eol : Lang ci Re.Eol "".

(** [v] occurs in [s]. *)
Definition infix (v s : string) : Prop := exists a b, s = a ++ v ++ b.

(** The groups [cs] are the groups [cs0] and, in front of them, groups
    whose text occurs in [s]. *)
Definition caps_within (s : string) (cs0 cs : Re.caps) : Prop :=
  exists new, cs = (new ++ cs0)%list /\ Forall (fun nv => infix (snd nv) s) new.

(** The number of maximal runs of digits and commas in a string; [prev]
    tells whether the character before the string belongs to a run. *)
Fixpoint runs (prev : bool) (s : string) : nat :=
  match s with
  | EmptyString => 0
  | String c s' => (if Re.is_num c && negb prev then 1 else 0) + runs (Re.is_num c) s'
  end.

(** The length of the longest prefix made of characters of a class. *)
Fixpoint lead (p : ascii -> bool) (s : string) : nat :=
  match s with
  | EmptyString => 0
  | String c s' => if p c then S (lead p s') else 0
  end.

Fixpoint all_chars (p : ascii -> bool) (s : string) : bool :=
  match s with
  | EmptyString => true
  | String c s' => p c && all_chars p s'
  end.

(** A Fort Bend line of the per-precinct statistics block. *)
Definition statistics_line (line : string) : bool :=
  PyStr.contains line "Registered Voters - Total"
  || PyStr.contains line "Ballots Cast - Total"
  || PyStr.contains line "Ballots Cast - Blank".

(** The number of parts of a line that are numbers. *)
Definition number_tokens (line : string) : nat :=
  length (List.filter FortBend.is_number_token (PyStr.split_ws line)).

(** The registered-voters record of precinct [prec]: the only kind of
    record of the Electionware and Fort Bend layouts with empty method
    columns. *)
Definition is_registered (prec : string) (r : Tabular.record) : bool :=
  match Tabular.absentee r with
  | Tabular.CEmpty =>
      String.eqb (Tabular.precinct r) prec
      && String.eqb (Tabular.office r) "Registered Voters"
  | Tabular.CInt _ => false
  end.

Definition count_registered (prec : string) (data : list Tabular.record) : nat :=
  length (List.filter (is_registered prec) data).

Definition registered_record (cnty prec : string) (n : Z) : Tabular.record :=
  Tabular.mkRecord cnty prec "Registered Voters" "" "" "" n
                   Tabular.CEmpty Tabular.CEmpty Tabular.CEmpty.

(** What one line can do to the records and the flags while no flag is
    removed: nothing to the records; or one more record that is not a
    registered-voters record; or the registered-voters record of a precinct
    whose flag was not set, and is set now. *)
Definition line_effect (data data' : list Tabular.record) (flags flags' : gset string)
  : Prop :=
  (data' = data /\ flags ⊆ flags')
  \/ (exists r, data' = (data ++ [r])%list
                /\ (forall prec, is_registered prec r = false) /\ flags ⊆ flags')
  \/ (exists cnty prec n,
        data' = (data ++ [registered_record cnty prec n])%list
        /\ ((prec ++ "_registered") ∉ flags)
        /\ flags' = flags ∪ {[ prec ++ "_registered" ]}).


(** What a successful run of the matcher on [s] amounts to: a prefix [s1]
    of [s] that the pattern can consume, groups taken from [s1], and the
    continuation succeeding on what is left. *)
Definition sound_at (ci : bool) {A : Type} (r : Re.re) (s : string) (pos : nat)
  (cs : Re.caps) (k : Re.kont A) (x : A) : Prop :=
  exists s1 s2 cs',
    s = s1 ++ s2 /\ Lang ci r s1 /\ caps_within s1 cs cs'
    /\ k s2 (pos + String.length s1)%nat cs' = Some x.

(** A boolean order read as a relation. *)
Definition holds {A : Type} (le : A -> A -> bool) (a b : A) : Prop := le a b = true.

(** A record that carries the county it was parsed for and a precinct
    label that begins with [label]. *)
Definition located (cnty label : string) (r : Tabular.record) : Prop :=
  Tabular.county r = cnty /\ PyStr.startswith (Tabular.precinct r) label = true.

Definition collin_located (cnty : string) (r : Collin.record) : Prop :=
  Collin.county r = cnty /\ PyStr.startswith (Collin.precinct r) "PCT " = true.

(** The key and payload that [sample_results] leave for the first
    candidate. *)
Definition sample_key : Clarity.key :=
  ("cty", "P1", "Sheriff", None, Some "REP", Some "John Smith").

Definition sample_payload : gmap string Z :=
  <["Early Voting" := 5%Z]> {[ "Election Day" := 10%Z ]}.

(** Every method stored in a payload is one of the vote types seen, and
    none of them is an excluded vote type. *)
Definition methods_seen (acc : Clarity.store * gset string) : Prop :=
  (forall k (vd : gmap string Z) vt,
      (k, vd) ∈ fst acc -> is_Some (vd !! vt) -> vt ∈ snd acc)
  /\ (forall vt, vt ∈ snd acc -> vt ∉ Clarity.excluded_vote_types).

(** A key of the turnout rows. *)
Definition turnout_key (k : Clarity.key) : Prop :=
  Clarity.k_office k = "Registered Voters" \/ Clarity.k_office k = "Ballots Cast".

(** [st] is [results] with turnout keys added at the end and no other key
    touched. *)
Definition extends_with_turnout (results st : Clarity.store) : Prop :=
  (exists extra, map fst st = (map fst results ++ extra)%list /\ Forall turnout_key extra)
  /\ forall k, ~ turnout_key k -> Clarity.store_get k st = Clarity.store_get k results.

(** A string that does not begin with a blank. *)
Definition head_ok (s : string) : bool :=
  match s with
  | EmptyString => true
  | String c _ => negb (PyStr.is_space c)
  end.

(** The registered-voters records counted against the set of precincts
    already recorded: one for a precinct of the set, none for another. *)
Definition counted_once (data : list Tabular.record) (added : gset string) : Prop :=
  forall prec,
    count_registered prec data = if bool_decide (prec ∈ added) then 1%nat else 0%nat.

(** The count held for a precinct in the tally of the fallback, 0 when the
    precinct has no entry. *)
Fixpoint tally_get (name : string) (tally : list (string * Z)) : Z :=
  match tally with
  | [] => 0%Z
  | (n, v) :: rest => if String.eqb n name then v else tally_get name rest
  end.

(** The votes of the [regVotersCounty] results of a precinct, added up. *)
Definition registered_in (name : string) (rs : list Clarity.result) : Z :=
  foldr (fun r acc =>
           if String.eqb (Clarity.vote_type r) "regVotersCounty"
              && bool_decide (Clarity.jurisdiction r = Some name)
              && PyStr.nonempty name
           then (Clarity.res_votes r + acc)%Z else acc) 0%Z rs.

(** A row that has a value under a header, the marker column apart. *)
Definition has_column (x : Clarity.row) (h : string) : Prop :=
  h = "votes_only" \/ is_Some (x !! h).

(** The fields by which [statewide_results] recognises the row of a
    result, and what a row holds under them. *)
Definition identity_fields : list string :=
  ["county"; "office"; "district"; "party"; "candidate"].

Definition identity (x : Clarity.srow) : list (option Clarity.cell) :=
  map (fun f => x !! f) identity_fields.

(** Two results of one candidate in one county, by different methods. *)
Definition statewide_sample : list Clarity.result :=
  [Clarity.mkResult "Election Day"
     (Some (Clarity.mkChoice (Some "Ann Lee (DEM)") None)) "Governor" (Some "Kent") 10;
   Clarity.mkResult "Early Voting"
     (Some (Clarity.mkChoice (Some "Ann Lee (DEM)") None)) "Governor" (Some "Kent") 4].

(** An office name that [norm] maps to itself. *)
Definition canonical (norm : string -> string) (office : string) : Prop :=
  norm office = office.

(** The result [r] reported again with another count. *)
Definition with_votes (r : Clarity.result) (v : Z) : Clarity.result :=
  Clarity.mkResult (Clarity.vote_type r) (Clarity.res_choice r) (Clarity.contest_text r)
                   (Clarity.jurisdiction r) v.

(** A string that [strip] leaves as it is. *)
Definition stripped (s : string) : Prop := PyStr.strip s = s.

(** A group with body [g] occurs in a pattern. *)
Inductive has_grp (g : Re.re) : Re.re -> Prop :=
| hg_here n : has_grp g (Re.Grp n g)
| hg_grp n r : has_grp g r -> has_grp g (Re.Grp n r)
| hg_seq_l r1 r2 : has_grp g r1 -> has_grp g (Re.Seq r1 r2)
| hg_seq_r r1 r2 : has_grp g r2 -> has_grp g (Re.Seq r1 r2)
| hg_alt_l r1 r2 : has_grp g r1 -> has_grp g (Re.Alt r1 r2)
| hg_alt_r r1 r2 : has_grp g r2 -> has_grp g (Re.Alt r1 r2)
| hg_star gr r : has_grp g r -> has_grp g (Re.Star gr r).

(** A text that the body of some group of the pattern can consume. *)
Definition captured (ci : bool) (r : Re.re) (v : string) : Prop :=
  exists g, has_grp g r /\ Lang ci g v.

(** The groups [cs] are the groups [cs0] and, in front of them, texts
    captured by groups of [r]. *)
Definition caps_from (ci : bool) (r : Re.re) (cs0 cs : Re.caps) : Prop :=
  exists new, cs = (new ++ cs0)%list /\ Forall (fun nv => captured ci r (snd nv)) new.

Definition groups_at (ci : bool) {A : Type} (r : Re.re) (s : string) (pos : nat)
  (cs : Re.caps) (k : Re.kont A) (x : A) : Prop :=
  exists s1 s2 cs',
    s = s1 ++ s2 /\ Lang ci r s1 /\ caps_from ci r cs cs'
    /\ k s2 (pos + String.length s1)%nat cs' = Some x.

(** A pattern all of whose groups are [(\d+)]. *)
Definition digit_groups (r : Re.re) : Prop :=
  forall g, has_grp g r -> g = Re.Plus true Re.digit.

(** A string of digits, possibly empty. *)
Definition numeric (s : string) : Prop := all_chars PyStr.is_digit s = true.

(** One result, reported for early voting only. *)
Definition early_only : list Clarity.result :=
  [Clarity.mkResult "Early Voting"
     (Some (Clarity.mkChoice (Some "Ann Lee (DEM)") None)) "Governor" (Some "Kent") 4].

(** A record of a per-precinct statistic that has no method breakdown. *)
Definition statistic_only (r : Tabular.record) : Prop :=
  Tabular.office r ∈ ["Registered Voters"; "Ballots Cast"]
  /\ Tabular.district r = "" /\ Tabular.party r = "" /\ Tabular.candidate r = "".

(** The three method columns hold integers, or all three are empty and the
    record is a statistic without breakdown. *)
Definition uniform_methods (r : Tabular.record) : Prop :=
  match Tabular.absentee r, Tabular.early_voting r, Tabular.election_day r with
  | Tabular.CInt _, Tabular.CInt _, Tabular.CInt _ => True
  | Tabular.CEmpty, Tabular.CEmpty, Tabular.CEmpty => statistic_only r
  | _, _, _ => False
  end.

(** The store and the flag at the end of the [try] block of
    [add_voter_turnout_rows]; the flag is [false] when a value failed to
    parse. *)
Definition turnout_attempt (results : Clarity.store) (vt : Clarity.voter_turnout)
  (county_name : string) : Clarity.attempt :=
  fold_left (Clarity.turnout_vote_type county_name) (Clarity.vt_vote_types vt)
    (fold_left (Clarity.turnout_precinct county_name) (Clarity.vt_precincts vt)
       (results, true)).

(** [a'] comes after [a]: it has the keys of [a], and no exception was
    raised before [a] when none was raised before [a']. *)
Definition attempt_after (a a' : Clarity.attempt) : Prop :=
  (snd a' = true -> snd a = true)
  /\ forall k, k ∈ map fst (fst a) -> k ∈ map fst (fst a').

(** A turnout element with one precinct. *)
Definition one_precinct_turnout : Clarity.voter_turnout :=
  Clarity.mkVoterTurnout
    [Clarity.mkPrecinctElem (Some "P1") (Some "100") (Some "15") None] [].









(** * Properties *)

(** ** Facts about the string operations *)

Lemma prefix_cons_inv (c : ascii) (p s : string) :
  String.prefix (String c p) s = true ->
  exists s', s = String c s' /\ String.prefix p s' = true.
Proof.
  destruct s as [|x s']; [done|].
  cbn [String.prefix]. destruct (ascii_dec c x) as [->|]; [|done].
  intros H. by exists s'.
Qed.

Lemma contains_nil (sub : string) :
  PyStr.contains "" sub = String.prefix sub "".
Proof. cbn [PyStr.contains]. by destruct (String.prefix sub ""). Qed.

Lemma contains_cons (c : ascii) (s sub : string) :
  PyStr.contains (String c s) sub
  = String.prefix sub (String c s) || PyStr.contains s sub.
Proof. cbn [PyStr.contains]. by destruct (String.prefix sub (String c s)). Qed.

Lemma contains_prefix (s p q : string) :
  (forall t, String.prefix p t = true -> String.prefix q t = true) ->
  PyStr.contains s p = true -> PyStr.contains s q = true.
Proof.
  intros Hpq. induction s as [|c s IH].
  - rewrite !contains_nil. apply Hpq.
  - rewrite !contains_cons, !orb_true_iff. intros [H|H]; [left|right]; auto.
Qed.

(** ** Party resolution (clarity_parser.py) *)

Lemma independent_has_paren (s : string) :
  PyStr.contains s "(I)" = true -> PyStr.contains s "(" = true.
Proof.
  apply contains_prefix. intros t Ht.
  apply prefix_cons_inv in Ht as (t' & -> & _).
  cbn [String.prefix]. destruct (ascii_dec _ _); [|done]. by destruct t'.
Qed.

(** C3, as the code has it.  A candidate text that holds the independent
    marker [(I)] always resolves to party [I]: the marker is looked for
    before the generic parenthesised-party rule.  The marker is kept in the
    name only when text follows it: ["Jane Doe (I)(I)"] gives candidate
    ["Jane Doe"], ["John Smith (I)"] gives candidate ["John Smith"],
    ["Jane Doe (I) Write-in"] gives candidate ["Jane Doe (I)"], all with
    party ["I"]; ["John Smith (REP)"] gives ["John Smith"] with party
    ["REP"]. *)
Theorem parse_candidate_party_independent_first (t : string)
  (H : PyStr.contains (PyStr.strip t) "(I)" = true) :
  snd (Clarity.parse_candidate_party t) = Some "I"
  /\ Clarity.parse_candidate_party "Jane Doe (I)(I)" = ("Jane Doe", Some "I")
  /\ Clarity.parse_candidate_party "John Smith (I)" = ("John Smith", Some "I")
  /\ Clarity.parse_candidate_party "Jane Doe (I) Write-in" = ("Jane Doe (I)", Some "I")
  /\ Clarity.parse_candidate_party "John Smith (REP)" = ("John Smith", Some "REP").
Proof.
  split; [|repeat split; vm_compute; reflexivity].
  unfold Clarity.parse_candidate_party.
  rewrite (independent_has_paren _ H), H.
  destruct (PyStr.contains (PyStr.strip t) "(I)(I)"); [reflexivity|].
  destruct (_ && _); reflexivity.
Qed.

Lemma parse_candidate_party_independent_first_witness :
  snd (Clarity.parse_candidate_party "Pat Roe (I) (REP)") = Some "I".
Proof.
  apply (parse_candidate_party_independent_first "Pat Roe (I) (REP)").
  vm_compute. reflexivity.
Defined.

(** C3 as stated fails: neither path maps ["John Smith (I)"] to candidate
    ["John Smith (I)"] with party ["I"]. *)
Lemma single_independent_marker_counterexample :
  Clarity.parse_candidate_party "John Smith (I)" <> ("John Smith (I)", Some "I")
  /\ Clarity.statewide_candidate_party "John Smith (I)" None
     <> Some ("John Smith (I)", Some "I").
Proof. split; vm_compute; discriminate. Qed.

(** ** Office normalisation *)

(** C4.  ["President/Vice President"] is mapped to office ["President"]
    with no district by [parse_office], and to ["President"] by Collin's
    [normalize_office_name].  On ["State Representative, District 14 - REP"]
    [parse_office] finds district ["14"] but leaves the district in the
    office name, where Collin's header handling gives office
    ["State Representative"] and district ["14"]. *)
Theorem parse_office_keeps_district_in_office :
  Clarity.parse_office "President/Vice President" = ("President", None)
  /\ Collin.normalize_office_name "President/Vice President" = "President"
  /\ Clarity.parse_office "State Representative, District 14 - REP"
     = ("State Representative, District 14", Some "14")
  /\ Collin.normalize_office_name "State Representative, District 14 - REP"
     = "State Representative"
  /\ Collin.header_district "State Representative, District 14 - REP" = "14".
Proof. repeat split; vm_compute; reflexivity. Qed.

(** ** Lines read before a precinct or an office is known *)

Lemma collin_no_context (cnty : string) (st : Collin.state) (raw : string) :
  Collin.current_precinct st = None \/ Collin.current_office st = None ->
  Collin.data (Collin.step cnty st raw) = Collin.data st.
Proof.
  intros H. unfold Collin.step.
  destruct (negb _); [done|].
  destruct (if PyStr.startswith _ _ then _ else _); [done|].
  destruct (Collin.current_precinct st) eqn:Ep; [|done].
  destruct (_ && _); [done|].
  destruct (Collin.current_office st) eqn:Eo; [|done].
  by destruct H.
Qed.

Lemma fort_bend_no_precinct (cnty : string) (st : FortBend.state) (raw : string) :
  FortBend.current_precinct st = None ->
  FortBend.data (FortBend.step cnty st raw) = FortBend.data st.
Proof.
  intros H. unfold FortBend.step.
  destruct (negb _); [done|].
  destruct (FortBend.precinct_header _); [done|].
  by rewrite H.
Qed.

Lemma electionware_no_precinct (cnty : string) (st : Electionware.state) (raw : string) :
  Electionware.current_precinct st = None ->
  Electionware.data (Electionware.step cnty st raw) = Electionware.data st.
Proof.
  intros H. unfold Electionware.step.
  destruct (negb _); [done|].
  destruct (if PyStr.startswith _ _ then _ else _); [done|].
  by rewrite H.
Qed.

(** C7.  In [collin.py] a line read while [current_precinct] or
    [current_office] is unset adds no record, whatever the line is, and the
    scan goes on (the loop body is a total function of the state and the
    line).  The same holds in [fort_bend.py] and [electionware.py] while
    [current_precinct] is unset. *)
Theorem lines_without_context_are_dropped :
  (forall cnty st raw,
      Collin.current_precinct st = None \/ Collin.current_office st = None ->
      Collin.data (Collin.step cnty st raw) = Collin.data st)
  /\ (forall cnty st raw,
        FortBend.current_precinct st = None ->
        FortBend.data (FortBend.step cnty st raw) = FortBend.data st)
  /\ (forall cnty st raw,
        Electionware.current_precinct st = None ->
        Electionware.data (Electionware.step cnty st raw) = Electionware.data st).
Proof.
  split; [exact collin_no_context|].
  split; [exact fort_bend_no_precinct | exact electionware_no_precinct].
Qed.

Lemma lines_without_context_are_dropped_witness :
  Collin.data (Collin.step "Collin" Collin.init
                 "Rep Donald J. Trump/JD Vance 1,036 54.07% 119 886 30 1 0") = []
  /\ Collin.data
       (Collin.step "Collin" (Collin.mkState [] (Some "PCT 001") None "")
          "Rep Donald J. Trump/JD Vance 1,036 54.07% 119 886 30 1 0") = []
  /\ FortBend.data (FortBend.step "Fort Bend" FortBend.init
                      "Registered Voters - Total 3,788") = []
  /\ Electionware.data (Electionware.step "Hamilton" Electionware.init
                          "Registered Voters - Total 1,053") = [].
Proof.
  split; [apply (proj1 lines_without_context_are_dropped); left; reflexivity|].
  split; [apply (proj1 lines_without_context_are_dropped); right; reflexivity|].
  split; [apply (proj1 (proj2 lines_without_context_are_dropped)); reflexivity|].
  apply (proj2 (proj2 lines_without_context_are_dropped)); reflexivity.
Defined.

(** ** Named write-in candidates *)

Lemma fold_left_invariant {S L : Type} (P : S -> Prop) (f : S -> L -> S) :
  (forall s l, P s -> P (f s l)) ->
  forall ls s, P s -> P (fold_left f ls s).
Proof. intros Hf ls. induction ls as [|l ls IH]; simpl; auto. Qed.

(** Splits the goal on every test the loop body makes. *)
Ltac proj_simpl :=
  cbn [Electionware.data Electionware.current_precinct Electionware.current_office
       Electionware.district Electionware.precinct_stats_added
       FortBend.data FortBend.current_precinct FortBend.current_office
       FortBend.district FortBend.precinct_stats_added
       Greenbox.data Greenbox.current_precinct Greenbox.current_office
       Greenbox.district Greenbox.precinct_added
       Collin.data Collin.current_precinct Collin.current_office Collin.cur_district
       fst snd] in *.

Ltac branch_all := repeat (case_match; simplify_eq; proj_simpl; try done).

(** Closes the goal that the records after an append are all fine. *)
Ltac appended H :=
  apply Forall_app; split; [exact H|];
  repeat constructor; try (vm_compute; reflexivity); try done.

Lemma electionware_step_no_named_write_in cnty st raw :
  Forall (fun r => named_write_in r = false) (Electionware.data st) ->
  Forall (fun r => named_write_in r = false)
         (Electionware.data (Electionware.step cnty st raw)).
Proof.
  intros H.
  unfold Electionware.step, Electionware.registered_line, Electionware.ballots_line,
    Electionware.over_under, Electionware.contest_line, Electionware.add_flag,
    Electionware.append.
  branch_all; appended H.
Qed.

Lemma fort_bend_step_no_named_write_in cnty st raw :
  Forall (fun r => named_write_in r = false) (FortBend.data st) ->
  Forall (fun r => named_write_in r = false)
         (FortBend.data (FortBend.step cnty st raw)).
Proof.
  intros H.
  unfold FortBend.step, FortBend.registered_line, FortBend.ballots_line,
    FortBend.over_under, FortBend.write_in_totals, FortBend.candidate_line,
    FortBend.add_flag, FortBend.append.
  branch_all; appended H.
Qed.

Lemma greenbox_step_no_long_write_in cnty st raw :
  Forall (fun r => long_write_in r = false) (Greenbox.data st) ->
  Forall (fun r => long_write_in r = false)
         (Greenbox.data (Greenbox.step cnty st raw)).
Proof.
  intros H.
  unfold Greenbox.step, Greenbox.precinct_line, Greenbox.office_header,
    Greenbox.candidate_line, Greenbox.over_under, Greenbox.append.
  branch_all; try (appended H);
    unfold long_write_in; cbn [Tabular.party Tabular.candidate];
    match goal with
    | G : PyStr.contains ?p "(W)" && ?b = false |- String.eqb ?p "(W)" && ?b = false =>
        destruct (String.eqb_spec p "(W)") as [E|]; [|done];
        rewrite E in G; exact G
    end.
Qed.

Lemma electionware_named_write_in_line cnty prec st line cs :
  Re.rmatch Electionware.candidate_pattern line = Some cs ->
  PyStr.startswith (PyStr.strip (Tabular.grp 2 cs)) "Write-In:" = true ->
  Electionware.data (Electionware.contest_line cnty prec st line) = Electionware.data st.
Proof.
  intros Hm Hw. unfold Electionware.contest_line. rewrite Hm, Hw.
  branch_all.
Qed.

Lemma fort_bend_named_write_in_line cnty prec off st line pty rest n :
  PyStr.split_ws line = pty :: rest ->
  FortBend.number_start_from 1 rest = Some n ->
  PyStr.startswith (PyStr.join " " (firstn (n - 1) rest)) "Write-In:" = true ->
  FortBend.candidate_line cnty prec off st line = st.
Proof.
  intros Hp Hn Hw. unfold FortBend.candidate_line. rewrite Hp, Hn, Hw.
  branch_all.
Qed.

Lemma greenbox_long_write_in_line cnty prec off st cs :
  PyStr.contains (PyStr.strip (Tabular.grp 2 cs)) "(W)" = true ->
  (10 < String.length (PyStr.strip (Tabular.grp 1 cs)))%nat ->
  Greenbox.candidate_line cnty prec off st cs = st.
Proof.
  intros Hw Hl. unfold Greenbox.candidate_line. rewrite Hw.
  apply Nat.ltb_lt in Hl. rewrite Hl. branch_all.
Qed.

(** C9.  A line that the candidate pattern of [electionware.py] matches
    with a name that begins with ["Write-In:"] adds no record; neither does
    a [fort_bend.py] candidate line whose name begins with ["Write-In:"],
    nor a [greenbox.py] candidate line with party token [(W)] and a name of
    more than ten characters.  Consequently no record of a named write-in
    candidate is in the output of these parsers, whatever the input. *)
Theorem named_write_ins_are_omitted :
  (forall cnty prec st line cs,
      Re.rmatch Electionware.candidate_pattern line = Some cs ->
      PyStr.startswith (PyStr.strip (Tabular.grp 2 cs)) "Write-In:" = true ->
      Electionware.data (Electionware.contest_line cnty prec st line)
      = Electionware.data st)
  /\ (forall cnty prec off st line pty rest n,
        PyStr.split_ws line = pty :: rest ->
        FortBend.number_start_from 1 rest = Some n ->
        PyStr.startswith (PyStr.join " " (firstn (n - 1) rest)) "Write-In:" = true ->
        FortBend.candidate_line cnty prec off st line = st)
  /\ (forall cnty prec off st cs,
        PyStr.contains (PyStr.strip (Tabular.grp 2 cs)) "(W)" = true ->
        (10 < String.length (PyStr.strip (Tabular.grp 1 cs)))%nat ->
        Greenbox.candidate_line cnty prec off st cs = st)
  /\ (forall text cnty,
        Forall (fun r => named_write_in r = false)
               (Electionware.parse_election_data text cnty)
        /\ Forall (fun r => named_write_in r = false)
                  (FortBend.parse_election_data text cnty)
        /\ Forall (fun r => long_write_in r = false)
                  (Greenbox.parse_election_data text cnty)).
Proof.
  split; [exact electionware_named_write_in_line|].
  split; [exact fort_bend_named_write_in_line|].
  split; [exact greenbox_long_write_in_line|].
  intros text cnty. split; [|split].
  - apply (fold_left_invariant
             (fun st => Forall (fun r => named_write_in r = false) (Electionware.data st))).
    + intros s l. apply electionware_step_no_named_write_in.
    + constructor.
  - apply (fold_left_invariant
             (fun st => Forall (fun r => named_write_in r = false) (FortBend.data st))).
    + intros s l. apply fort_bend_step_no_named_write_in.
    + constructor.
  - apply (fold_left_invariant
             (fun st => Forall (fun r => long_write_in r = false) (Greenbox.data st))).
    + intros s l. apply greenbox_step_no_long_write_in.
    + constructor.
Qed.

Lemma named_write_ins_are_omitted_witness :
  Electionware.data
    (Electionware.contest_line "Hamilton" "Precinct 1"
       (Electionware.mkState [] (Some "Precinct 1") (Some "Sheriff") "" ∅)
       "REP Write-In: Jane Roe 3 0 2 1") = []
  /\ FortBend.candidate_line "Fort Bend" "Precinct 1004" "Sheriff"
       (FortBend.mkState [] (Some "Precinct 1004") (Some "Sheriff") "" ∅)
       "REP Write-In: Jane Roe 3 0.10% 1 0 2"
     = FortBend.mkState [] (Some "Precinct 1004") (Some "Sheriff") "" ∅
  /\ Greenbox.candidate_line "Kerr" "101" "Sheriff"
       (Greenbox.mkState [] (Some "101") (Some "Sheriff") "" ∅)
       [(6, "3"); (5, "2"); (4, "1"); (3, "0"); (2, "(W)"); (1, "Jane Roe Smith")]
     = Greenbox.mkState [] (Some "101") (Some "Sheriff") "" ∅.
Proof.
  split; [|split].
  - eapply (proj1 named_write_ins_are_omitted); vm_compute; reflexivity.
  - eapply (proj1 (proj2 named_write_ins_are_omitted)); vm_compute; reflexivity.
  - apply (proj1 (proj2 (proj2 named_write_ins_are_omitted))); vm_compute; [reflexivity|lia].
Defined.

(** ** The aggregation store of precinct_results *)

Lemma store_set_keys k vt v (st : Clarity.store) :
  map fst (Clarity.store_set k vt v st)
  = if bool_decide (k ∈ map fst st) then map fst st else (map fst st ++ [k])%list.
Proof.
  induction st as [|[k' p] st IH]; simpl; [done|].
  destruct (decide (k = k')) as [->|Hne]; simpl.
  - rewrite bool_decide_eq_true_2; [done|]. apply list_elem_of_here.
  - rewrite IH. destruct (bool_decide (k ∈ map fst st)) eqn:E.
    + apply bool_decide_eq_true_1 in E. rewrite bool_decide_eq_true_2; [done|].
      by apply list_elem_of_further.
    + apply bool_decide_eq_false_1 in E. rewrite bool_decide_eq_false_2; [done|].
      intros [?|?]%elem_of_cons; done.
Qed.

Lemma store_set_has_key k vt v (st : Clarity.store) :
  k ∈ map fst (Clarity.store_set k vt v st).
Proof.
  rewrite store_set_keys. case_bool_decide; [done|].
  apply elem_of_app. right. apply list_elem_of_here.
Qed.



Lemma store_get_set_ne k k' vt v (st : Clarity.store) :
  k' <> k ->
  Clarity.store_get k' (Clarity.store_set k vt v st) = Clarity.store_get k' st.
Proof.
  intros Hne. induction st as [|[k0 p] st IH]; simpl.
  - by rewrite decide_False.
  - destruct (decide (k = k0)) as [->|Hne0]; simpl.
    + by rewrite !decide_False by done.
    + destruct (decide (k' = k0)); [done|]. apply IH.
Qed.

Lemma store_set_length_present k vt v (st : Clarity.store) :
  k ∈ map fst st -> length (Clarity.store_set k vt v st) = length st.
Proof.
  intros H. rewrite <- !(length_map fst), store_set_keys.
  by rewrite bool_decide_eq_true_2.
Qed.





Lemma precinct_results_unfold county_name region rs turnout :
  Clarity.precinct_results county_name region rs turnout
  = Clarity.sort_rows
      (Clarity.output_rows (snd (scan county_name region rs))
                           (final_store county_name region rs turnout)).
Proof.
  unfold Clarity.precinct_results, final_store, scan.
  by destruct (fold_left _ rs _).
Qed.

(** ** The stable sort *)

Section StableSortFacts.
Context {A : Type} (le : A -> A -> bool).
Hypothesis le_total : forall a b, le a b = false -> le b a = true.

Abbreviation R := (holds le).

Lemma insert_sorted_perm x l : Permutation (x :: l) (Clarity.insert_sorted le x l).
  Proof.
    induction l as [|y l IH]; simpl; [done|].
    destruct (le x y); [done|].
    rewrite <- IH. apply perm_swap.
  Qed.

Lemma stable_sort_perm l : Permutation l (Clarity.stable_sort le l).
  Proof.
    induction l as [|x l IH]; simpl; [done|].
    rewrite <- insert_sorted_perm. by constructor.
  Qed.

Lemma insert_sorted_HdRel a x l :
    R a x -> HdRel R a l -> HdRel R a (Clarity.insert_sorted le x l).
  Proof.
    intros Hax Hal. destruct l as [|y l]; simpl; [by constructor|].
    destruct (le x y); constructor; [done|]. by inversion Hal.
  Qed.

Lemma insert_sorted_Sorted x l :
    Sorted R l -> Sorted R (Clarity.insert_sorted le x l).
  Proof.
    induction 1 as [|y l Hl IH Hy]; simpl; [by repeat constructor|].
    destruct (le x y) eqn:E.
    - constructor; [by constructor|]. by constructor.
    - constructor; [exact IH|]. apply insert_sorted_HdRel; [|done].
      by apply le_total.
  Qed.

Lemma stable_sort_Sorted l : Sorted R (Clarity.stable_sort le l).
  Proof.
    induction l as [|x l IH]; simpl; [constructor|].
    by apply insert_sorted_Sorted.
  Qed.
End StableSortFacts.

Lemma key_compare_antisym a b :
  Clarity.key_compare b a = CompOpp (Clarity.key_compare a b).
Proof.
  destruct a as [[o1 d1] c1], b as [[o2 d2] c2]. unfold Clarity.key_compare.
  rewrite (String.compare_antisym o1 o2), (String.compare_antisym d1 d2).
  destruct (o2 ?= o1)%string, (d2 ?= d1)%string; simpl; try done;
    destruct c1 as [x|], c2 as [y|]; simpl; try done;
    rewrite (String.compare_antisym x y); by destruct (y ?= x)%string.
Qed.

Lemma key_le_total a b : Clarity.key_le a b = false -> Clarity.key_le b a = true.
Proof.
  unfold Clarity.key_le. rewrite (key_compare_antisym a b).
  by destruct (Clarity.key_compare a b).
Qed.

Lemma keyed_spec rows kxs :
  Clarity.keyed rows = Some kxs ->
  map snd kxs = rows
  /\ Forall (fun kx => Clarity.sort_key_of (snd kx) = Some (fst kx)) kxs.
Proof.
  revert kxs. induction rows as [|x rows IH]; simpl; intros kxs H.
  - by simplify_eq.
  - destruct (Clarity.sort_key_of x) eqn:Ek; [|done].
    destruct (Clarity.keyed rows) as [kxs'|]; [|done]. simplify_eq.
    destruct (IH _ eq_refl) as [<- HF]. split; [done|]. by constructor.
Qed.

Lemma Sorted_map_weaken {A B : Type} (R : A -> A -> Prop) (R' : B -> B -> Prop)
  (P : A -> Prop) (f : A -> B) (l : list A) :
  (forall a b, P a -> P b -> R a b -> R' (f a) (f b)) ->
  Forall P l -> Sorted R l -> Sorted R' (map f l).
Proof.
  intros HR HP HS. induction HS as [|a l HS IH Hhd]; simpl; [constructor|].
  apply Forall_cons in HP as [Pa Pl]. constructor; [by apply IH|].
  destruct Hhd as [|b l' Hab]; simpl; constructor.
  apply Forall_cons in Pl as [Pb _]. by apply HR.
Qed.

Lemma sort_rows_spec rows rows' :
  Clarity.sort_rows rows = Some rows' ->
  Sorted rows_in_order rows' /\ Permutation rows rows'.
Proof.
  unfold Clarity.sort_rows. destruct (Clarity.keyed rows) as [kxs|] eqn:Ek; [|done].
  destruct (Clarity.all_comparable _); [|done]. intros [= <-].
  destruct (keyed_spec _ _ Ek) as [Hrows HF].
  set (le := fun a b : Clarity.sort_key * Clarity.row =>
               Clarity.key_le (fst a) (fst b)).
  assert (Hperm : Permutation kxs (Clarity.stable_sort le kxs))
    by apply stable_sort_perm.
  split.
  - apply (Sorted_map_weaken (fun a b => le a b = true) _
             (fun kx => Clarity.sort_key_of (snd kx) = Some (fst kx))).
    + intros a b Ha Hb Hab. by exists (fst a), (fst b).
    + by rewrite <- Hperm.
    + apply stable_sort_Sorted. intros a b. apply key_le_total.
  - rewrite <- Hrows. by apply Permutation_map.
Qed.

Section Stability.
Context {A : Type} (le : A -> A -> bool) (sel : A -> bool).
Hypothesis sel_le : forall a b, sel a = true -> sel b = true -> le a b = true.

Lemma filter_insert_sorted x l :
    List.filter sel (Clarity.insert_sorted le x l) = List.filter sel (x :: l).
  Proof.
    induction l as [|y l IH]; [done|].
    cbn [Clarity.insert_sorted]. destruct (le x y) eqn:E; [done|].
    cbn [List.filter] in *. rewrite IH.
    destruct (sel x) eqn:Ex, (sel y) eqn:Ey; try done.
    by rewrite (sel_le x y Ex Ey) in E.
  Qed.

Lemma filter_stable_sort l :
    List.filter sel (Clarity.stable_sort le l) = List.filter sel l.
  Proof.
    induction l as [|x l IH]; [done|].
    cbn [Clarity.stable_sort foldr]. rewrite filter_insert_sorted.
    cbn [List.filter]. unfold Clarity.stable_sort in IH. by rewrite IH.
  Qed.
End Stability.

Lemma key_compare_refl a : Clarity.key_compare a a = Eq.
Proof.
  pose proof (key_compare_antisym a a) as H.
  by destruct (Clarity.key_compare a a).
Qed.

Lemma filter_keyed (k : Clarity.sort_key) (kxs : list (Clarity.sort_key * Clarity.row)) :
  Forall (fun kx => Clarity.sort_key_of (snd kx) = Some (fst kx)) kxs ->
  List.filter (has_key k) (map snd kxs)
  = map snd (List.filter (fun kx => bool_decide (fst kx = k)) kxs).
Proof.
  induction 1 as [|[k' x] kxs Hx _ IH]; [done|].
  cbn [map List.filter]. unfold has_key at 1. simpl in *. rewrite Hx.
  destruct (decide (k' = k)) as [->|Hne].
  - rewrite !bool_decide_eq_true_2 by done. simpl. by rewrite IH.
  - rewrite !bool_decide_eq_false_2 by congruence. done.
Qed.

Lemma sort_rows_stable rows rows' k :
  Clarity.sort_rows rows = Some rows' ->
  List.filter (has_key k) rows' = List.filter (has_key k) rows.
Proof.
  unfold Clarity.sort_rows. destruct (Clarity.keyed rows) as [kxs|] eqn:Ek; [|done].
  destruct (Clarity.all_comparable _); [|done]. intros [= <-].
  destruct (keyed_spec _ _ Ek) as [Hrows HF].
  set (le := fun a b : Clarity.sort_key * Clarity.row =>
               Clarity.key_le (fst a) (fst b)).
  rewrite <- Hrows, !filter_keyed; [|done|].
  - f_equal. apply filter_stable_sort. intros a b Ha Hb.
    apply bool_decide_eq_true_1 in Ha, Hb. unfold le, Clarity.key_le.
    by rewrite Ha, Hb, key_compare_refl.
  - by rewrite <- (stable_sort_perm le kxs).
Qed.

(** ** Row order *)

Lemma collin_step_appends cnty st raw :
  exists new, Collin.data (Collin.step cnty st raw) = (Collin.data st ++ new)%list.
Proof.
  unfold Collin.step, Collin.over_under, Collin.candidate_line, Collin.strict_line,
    Collin.append.
  branch_all;
    first [ by exists []; rewrite app_nil_r | by eexists [_] ].
Qed.

(** C5, as the code has it.  The rows [precinct_results] writes are sorted
    by (office, district or the empty string, candidate), they are the rows
    built from the store in another order, and rows with the same sort key
    stay in the order in which their keys entered the store; so the order
    of rows that tie depends on the order of the input.  [collin.py] only
    ever appends to its list of records and writes it as it is. *)
Theorem clarity_rows_sorted county_name region rs turnout rows
  (H : Clarity.precinct_results county_name region rs turnout = Some rows) :
  Sorted rows_in_order rows
  /\ Permutation (Clarity.output_rows (snd (scan county_name region rs))
                                      (final_store county_name region rs turnout)) rows
  /\ (forall k, List.filter (has_key k) rows
                = List.filter (has_key k)
                    (Clarity.output_rows (snd (scan county_name region rs))
                                         (final_store county_name region rs turnout)))
  /\ (forall cnty st raw,
        exists new, Collin.data (Collin.step cnty st raw) = (Collin.data st ++ new)%list).
Proof.
  rewrite precinct_results_unfold in H.
  destruct (sort_rows_spec _ _ H) as [HS HP].
  split; [done|]. split; [done|]. split.
  - intros k. by apply sort_rows_stable.
  - apply collin_step_appends.
Qed.

(** C5 as stated fails: [collin.py] emits its records in input order. *)
Lemma collin_rows_not_sorted_counterexample :
  map (fun r => (Collin.office r, Collin.district r, Collin.candidate r))
      (Collin.parse_election_data
         (text_of ["PCT 001"; "President/Vice President";
                   "Rep Zed Young 10 50.00% 1 2 3 4 0";
                   "Dem Abe Old 10 50.00% 1 2 3 4 0"]) "Collin")
  = [("President", "", "Zed Young"); ("President", "", "Abe Old")]
  /\ String.ltb "Abe Old" "Zed Young" = true.
Proof. split; vm_compute; reflexivity. Qed.



Lemma clarity_rows_sorted_witness :
  match Clarity.precinct_results "cty" None sample_results sample_turnout with
  | Some rows => Sorted rows_in_order rows
  | None => False
  end.
Proof.
  assert (Hs : is_Some (Clarity.precinct_results "cty" None sample_results sample_turnout)).
  { apply (bool_decide_unpack _). vm_compute. reflexivity. }
  destruct (Clarity.precinct_results "cty" None sample_results sample_turnout)
    as [rows|] eqn:E.
  - exact (proj1 (clarity_rows_sorted _ _ _ _ _ E)).
  - by destruct Hs.
Defined.

(** ** The rows built from the store *)

Lemma base_row_lookup k vd :
  Clarity.base_row k vd !! "county" = Some (Clarity.VStr (k.1.1.1.1.1))
  /\ Clarity.base_row k vd !! "precinct" = Some (Clarity.VStr (k.1.1.1.1.2))
  /\ Clarity.base_row k vd !! "office" = Some (Clarity.VStr (Clarity.k_office k))
  /\ Clarity.base_row k vd !! "district" = Some (Clarity.of_opt (Clarity.k_district k))
  /\ Clarity.base_row k vd !! "party" = Some (Clarity.of_opt (Clarity.row_party k))
  /\ Clarity.base_row k vd !! "candidate" = Some (Clarity.of_opt (Clarity.k_candidate k))
  /\ Clarity.base_row k vd !! "votes" = Some (Clarity.VInt (Clarity.vote_total k vd)).
Proof.
  destruct k as [[[[[c p] o] d] pa] ca]. unfold Clarity.base_row.
  repeat split; by simplify_map_eq.
Qed.

Lemma row_data_base vts k vd h :
  no_clash vts -> h ∈ Clarity.base_headers ->
  Clarity.row_data vts k vd !! h = Clarity.base_row k vd !! h.
Proof.
  unfold Clarity.row_data. generalize (Clarity.base_row k vd) as acc.
  induction vts as [|vt vts IH]; intros acc Hc Hh; [done|].
  apply Forall_cons in Hc as [Hvt Hc]. cbn [fold_left]. rewrite IH by done.
  destruct (String.eqb vt "votes_only"); [done|].
  apply lookup_insert_ne. intros E. by subst h.
Qed.

Lemma scan_vote_types county_name region rs vt :
  vt ∈ snd (scan county_name region rs) -> vt ∈ map Clarity.vote_type rs.
Proof.
  unfold scan.
  assert (G : forall acc, vt ∈ snd (fold_left (Clarity.ingest county_name region) rs acc) ->
                          vt ∈ snd acc \/ vt ∈ map Clarity.vote_type rs).
  { induction rs as [|r rs IH]; intros acc H; [by left|].
    cbn [fold_left] in H. apply IH in H as [H|H]; [|right; by apply list_elem_of_further].
    destruct acc as [st vts]. unfold Clarity.ingest in H.
    cbn [map]. revert H. branch_all; intros Hin; try (by left);
      apply elem_of_union in Hin as [Hin|Hin%elem_of_singleton]; try (by left);
      right; subst vt; apply list_elem_of_here. }
  intros H. apply G in H as [H|H]; [|done]. by apply not_elem_of_empty in H.
Qed.

Lemma no_clash_scan county_name region rs :
  no_clash (map Clarity.vote_type rs) ->
  no_clash (elements (snd (scan county_name region rs))).
Proof.
  unfold no_clash. rewrite !Forall_forall. intros H vt Hvt.
  apply H. apply scan_vote_types with county_name region. by apply elem_of_elements.
Qed.

(** C10, as the code has it.  In the row written for a key of the store,
    the office is the key's office; when it contains ["Republican"] the
    party is ["REP"]; when it contains ["Democrat"] and not ["Republican"]
    the party is ["DEM"]; otherwise the party is the one in the key.  (No
    vote type may be named like one of the seven base columns, which it
    would overwrite.) *)
Theorem republican_office_wins county_name region rs turnout k vd
  (Hk : (k, vd) ∈ final_store county_name region rs turnout)
  (Hc : no_clash (map Clarity.vote_type rs)) :
  let x := Clarity.row_data (elements (snd (scan county_name region rs))) k vd in
  x !! "office" = Some (Clarity.VStr (Clarity.k_office k))
  /\ (PyStr.contains (Clarity.k_office k) "Republican" = true ->
      x !! "party" = Some (Clarity.VStr "REP"))
  /\ (PyStr.contains (Clarity.k_office k) "Republican" = false ->
      PyStr.contains (Clarity.k_office k) "Democrat" = true ->
      x !! "party" = Some (Clarity.VStr "DEM"))
  /\ (PyStr.contains (Clarity.k_office k) "Republican" = false ->
      PyStr.contains (Clarity.k_office k) "Democrat" = false ->
      x !! "party" = Some (Clarity.of_opt (Clarity.k_party k))).
Proof.
  intros x. subst x. apply (no_clash_scan county_name region) in Hc.
  rewrite !row_data_base by (done || (apply list_elem_of_In; vm_compute; tauto)).
  destruct (base_row_lookup k vd) as (_ & _ & Ho & _ & Hp & _).
  rewrite Ho, Hp. unfold Clarity.row_party.
  split; [done|]. split; [by intros ->|]. split; intros -> ->; done.
Qed.

Lemma republican_office_wins_witness :
  Clarity.row_data (elements (snd (scan "cty" None primary_results)))
                   primary_key primary_payload !! "party"
  = Some (Clarity.VStr "REP").
Proof.
  apply (republican_office_wins "cty" None primary_results None
           primary_key primary_payload).
  - apply (bool_decide_unpack _). vm_compute. reflexivity.
  - unfold no_clash. apply (bool_decide_unpack _). vm_compute. reflexivity.
  - vm_compute. reflexivity.
Defined.

(** C10 as stated fails: an office that contains both ["Republican"] and
    ["Democrat"] gets party ["REP"], not ["DEM"]. *)
Lemma democrat_office_counterexample :
  match Clarity.precinct_results "cty" None joint_results None with
  | Some [x] =>
      bool_decide (x !! "office"
                   = Some (Clarity.VStr "Democrat-Republican Joint Committee"))
      && PyStr.contains "Democrat-Republican Joint Committee" "Democrat"
      && bool_decide (x !! "party" = Some (Clarity.VStr "REP"))
      && negb (bool_decide (x !! "party" = Some (Clarity.VStr "DEM")))
  | _ => false
  end = true.
Proof. vm_compute. reflexivity. Qed.

(** ** One store entry per key *)













(** ** The votes column *)

Lemma payload_sum_empty : Clarity.payload_sum ∅ = 0%Z.
Proof. unfold Clarity.payload_sum. apply map_fold_empty. Qed.

Lemma payload_sum_insert (vd : gmap string Z) vt v :
  vd !! vt = None ->
  Clarity.payload_sum (<[vt := v]> vd)
  = (Clarity.payload_sum vd + (if String.eqb vt "votes_only" then 0 else v))%Z.
Proof.
  intros Hn. unfold Clarity.payload_sum.
  rewrite map_fold_insert_L; [|intros j1 j2 z1 z2 y _ _ _|done].
  - destruct (String.eqb vt "votes_only"); lia.
  - destruct (String.eqb j1 "votes_only"), (String.eqb j2 "votes_only"); lia.
Qed.

Lemma fold_columns_untouched k vd c vts (acc : Clarity.row) :
  c ∉ map Clarity.column_name vts ->
  fold_left (fun rd vt =>
               if String.eqb vt "votes_only" then rd
               else <[Clarity.column_name vt := Clarity.column_value k vd vt]> rd)
            vts acc !! c = acc !! c.
Proof.
  revert acc. induction vts as [|a vts IH]; intros acc Hc; [done|].
  cbn [fold_left]. rewrite IH.
  - destruct (String.eqb a "votes_only"); [done|].
    apply lookup_insert_ne. intros E. apply Hc. rewrite <- E. apply list_elem_of_here.
  - intros Hin. apply Hc. by apply list_elem_of_further.
Qed.

Lemma row_data_column vts k vd vt :
  NoDup (map Clarity.column_name vts) ->
  vt ∈ vts -> vt <> "votes_only" ->
  Clarity.row_data vts k vd !! Clarity.column_name vt
  = Some (Clarity.column_value k vd vt).
Proof.
  unfold Clarity.row_data. generalize (Clarity.base_row k vd) as acc.
  induction vts as [|a vts IH]; intros acc Hnd Hin Hne.
  - by apply elem_of_nil in Hin.
  - cbn [map] in Hnd. apply NoDup_cons in Hnd as [Ha Hnd].
    cbn [fold_left]. apply elem_of_cons in Hin as [->|Hin].
    + rewrite fold_columns_untouched by done.
      apply String.eqb_neq in Hne. rewrite Hne. apply lookup_insert_eq.
    + by apply IH.
Qed.


Lemma columns_sum_spec vts k vd :
  NoDup (map Clarity.column_name vts) ->
  Clarity.k_office k <> "Registered Voters" ->
  columns_sum vts (Clarity.row_data vts k vd)
  = foldr (fun vt acc => if String.eqb vt "votes_only" then acc
                         else (default 0%Z (vd !! vt) + acc)%Z) 0%Z vts.
Proof.
  intros Hnd Ho. unfold columns_sum.
  assert (G : forall l, (forall vt, vt ∈ l -> vt ∈ vts) ->
     foldr (fun vt acc => if String.eqb vt "votes_only" then acc
                          else (column_int (Clarity.row_data vts k vd)
                                           (Clarity.column_name vt) + acc)%Z) 0%Z l
     = foldr (fun vt acc => if String.eqb vt "votes_only" then acc
                            else (default 0%Z (vd !! vt) + acc)%Z) 0%Z l).
  { induction l as [|a l IH]; intros Hl; [done|].
    cbn [foldr]. rewrite IH by (intros; apply Hl; by apply list_elem_of_further).
    destruct (String.eqb_spec a "votes_only") as [|Hne]; [done|].
    unfold column_int. rewrite row_data_column; [|done|apply Hl, list_elem_of_here|done].
    unfold Clarity.column_value. apply String.eqb_neq in Ho. rewrite Ho.
    by destruct (vd !! a). }
  by apply G.
Qed.

Lemma sum_single (i : string) (x : Z) (l : list string) :
  NoDup l ->
  foldr (fun vt acc => if String.eqb vt "votes_only" then acc
                       else ((if String.eqb vt i then x else 0) + acc)%Z) 0%Z l
  = if bool_decide (i ∈ l) && negb (String.eqb i "votes_only") then x else 0%Z.
Proof.
  induction 1 as [|a l Ha Hnd IH]; [done|].
  cbn [foldr]. rewrite IH. clear IH.
  destruct (String.eqb_spec a i) as [->|Hai].
  - rewrite (bool_decide_eq_true_2 (i ∈ i :: l)) by apply list_elem_of_here.
    rewrite (bool_decide_eq_false_2 (i ∈ l)) by done.
    destruct (String.eqb i "votes_only"); simpl; lia.
  - destruct (bool_decide (i ∈ l)) eqn:E.
    + apply bool_decide_eq_true_1 in E.
      rewrite (bool_decide_eq_true_2 (i ∈ a :: l)) by (by apply list_elem_of_further).
      destruct (String.eqb a "votes_only"); simpl; [done|].
      destruct (String.eqb i "votes_only"); simpl; lia.
    + apply bool_decide_eq_false_1 in E.
      rewrite (bool_decide_eq_false_2 (i ∈ a :: l))
        by (intros [?|?]%elem_of_cons; congruence).
      destruct (String.eqb a "votes_only"); simpl; lia.
Qed.

Lemma lookups_sum (vts : list string) (vd : gmap string Z) :
  NoDup vts -> payload_within vts vd ->
  foldr (fun vt acc => if String.eqb vt "votes_only" then acc
                       else (default 0%Z (vd !! vt) + acc)%Z) 0%Z vts
  = Clarity.payload_sum vd.
Proof.
  intros Hnd. induction vd as [|i x m Hi IH] using map_ind; intros Hw.
  - rewrite payload_sum_empty. clear. induction vts as [|a l IH]; [done|].
    cbn [foldr]. rewrite IH, lookup_empty. by destruct (String.eqb a "votes_only").
  - rewrite payload_sum_insert by done. rewrite <- IH.
    2:{ intros vt Hvt. apply Hw. destruct (decide (i = vt)) as [->|].
        - rewrite lookup_insert_eq. by eexists.
        - by rewrite lookup_insert_ne. }
    assert (Hi' : i = "votes_only" \/ i ∈ vts).
    { apply Hw. rewrite lookup_insert_eq. by eexists. }
    transitivity
      (foldr (fun vt acc => if String.eqb vt "votes_only" then acc
                            else (default 0%Z (m !! vt) + acc)%Z) 0%Z vts
       + foldr (fun vt acc => if String.eqb vt "votes_only" then acc
                              else ((if String.eqb vt i then x else 0) + acc)%Z) 0%Z vts)%Z.
    + clear -Hi. induction vts as [|a l IHl]; [done|].
      cbn [foldr]. destruct (String.eqb a "votes_only"); [done|]. rewrite IHl.
      destruct (String.eqb_spec a i) as [->|Hne].
      * rewrite lookup_insert_eq, Hi. simpl. lia.
      * rewrite lookup_insert_ne by done. lia.
    + rewrite sum_single by done. f_equal.
      destruct (String.eqb_spec i "votes_only") as [->|Hne].
      * by rewrite andb_false_r.
      * destruct Hi' as [|Hin]; [done|]. by rewrite bool_decide_eq_true_2.
Qed.

(** ** Soundness of the matcher *)

Lemma sapp_cons (x : ascii) (a b : string) : String x a ++ b = String x (a ++ b).
Proof. reflexivity. Qed.

Lemma sapp_nil_l (a : string) : "" ++ a = a.
Proof. reflexivity. Qed.

Lemma sapp_assoc (a b c : string) : (a ++ b) ++ c = a ++ (b ++ c).
Proof. induction a as [|x a IH]; [done|]. rewrite !sapp_cons. by rewrite IH. Qed.

Lemma sapp_nil_r (a : string) : a ++ "" = a.
Proof. induction a as [|x a IH]; [done|]. rewrite sapp_cons. by rewrite IH. Qed.

Lemma slength_app (a b : string) :
  String.length (a ++ b) = (String.length a + String.length b)%nat.
Proof.
  induction a as [|x a IH]; [done|].
  rewrite sapp_cons. cbn [String.length]. by rewrite IH.
Qed.

Lemma take_app (a b : string) : PyStr.take (String.length a) (a ++ b) = a.
Proof.
  unfold PyStr.take. induction a as [|x a IH].
  - rewrite sapp_nil_l. by destruct b.
  - rewrite sapp_cons. cbn [String.length String.substring]. by rewrite IH.
Qed.

Lemma infix_refl (s : string) : infix s s.
Proof. exists "", "". by rewrite sapp_nil_r. Qed.

Lemma infix_app_l (v a b : string) : infix v a -> infix v (a ++ b).
Proof.
  intros (x & y & ->). exists x, (y ++ b). by rewrite !sapp_assoc.
Qed.

Lemma infix_app_r (v a b : string) : infix v b -> infix v (a ++ b).
Proof.
  intros (x & y & ->). exists (a ++ x), y. by rewrite !sapp_assoc.
Qed.

Lemma caps_within_refl s cs : caps_within s cs cs.
Proof. by exists []. Qed.

Lemma caps_within_app s1 s2 cs0 cs1 cs2 :
  caps_within s1 cs0 cs1 -> caps_within s2 cs1 cs2 ->
  caps_within (s1 ++ s2) cs0 cs2.
Proof.
  intros (n1 & -> & H1) (n2 & -> & H2). exists (n2 ++ n1)%list. split.
  - by rewrite app_assoc.
  - apply Forall_app. split.
    + eapply Forall_impl; [exact H2|]. intros nv. apply infix_app_r.
    + eapply Forall_impl; [exact H1|]. intros nv. apply infix_app_l.
Qed.

Section Soundness.
Variable ci : bool.
Context {A : Type}.
Abbreviation sound_at := (@sound_at ci A).

Lemma star_loop_sound (g : bool) (r : Re.re) :
    (forall s pos cs k x, Re.m ci r s pos cs k = Some x -> sound_at r s pos cs k x) ->
    forall fuel s pos cs k x,
      Re.star_loop (Re.m ci r) g k fuel s pos cs = Some x ->
      sound_at (Re.Star g r) s pos cs k x.
  Proof.
    intros Hr. induction fuel as [|f IH]; intros s pos cs k x H; [done|].
    cbn [Re.star_loop] in H.
    assert (Again : Re.m ci r s pos cs
                      (fun s' pos' cs' =>
                         if (pos <? pos')%nat
                         then Re.star_loop (Re.m ci r) g k f s' pos' cs' else None)
                    = Some x -> sound_at (Re.Star g r) s pos cs k x).
    { intros Ha. apply Hr in Ha as (s1 & s2 & cs1 & -> & HL & Hc & Hk).
      destruct (pos <? pos + String.length s1)%nat; [|done].
      apply IH in Hk as (t1 & t2 & cs2 & -> & HL2 & Hc2 & Hk2).
      exists (s1 ++ t1), t2, cs2. rewrite sapp_assoc, slength_app, Nat.add_assoc.
      split; [done|]. split; [by constructor|].
      split; [by eapply caps_within_app|done]. }
    assert (Stop : k s pos cs = Some x -> sound_at (Re.Star g r) s pos cs k x).
    { intros Hk. exists "", s, cs. rewrite Nat.add_0_r.
      split; [done|]. split; [constructor|]. split; [apply caps_within_refl|done]. }
    destruct g.
    - destruct (Re.m ci r s pos cs _) eqn:E; [|by apply Stop].
      simplify_eq. by apply Again.
    - destruct (k s pos cs) eqn:E; [by apply Stop|]. by apply Again.
  Qed.

Lemma m_sound (r : Re.re) :
    forall s pos cs k x, Re.m ci r s pos cs k = Some x -> sound_at r s pos cs k x.
  Proof.
    induction r as [|c|p|r1 IH1 r2 IH2|r1 IH1 r2 IH2|g r IH|n r IH| |];
      intros s pos cs k x H; cbn [Re.m] in H.
    - exists "", s, cs. rewrite Nat.add_0_r.
      split; [done|]. split; [constructor|]. split; [apply caps_within_refl|done].
    - destruct s as [|a s]; [done|]. destruct (Re.chr_ok ci c a) eqn:E; [|done].
      exists (String a ""), s, cs. cbn [String.length]. rewrite Nat.add_1_r.
      split; [done|]. split; [by constructor|]. split; [apply caps_within_refl|done].
    - destruct s as [|a s]; [done|]. destruct (Re.cls_ok ci p a) eqn:E; [|done].
      exists (String a ""), s, cs. cbn [String.length]. rewrite Nat.add_1_r.
      split; [done|]. split; [by constructor|]. split; [apply caps_within_refl|done].
    - apply IH1 in H as (s1 & s2 & cs1 & -> & HL1 & Hc1 & Hk).
      apply IH2 in Hk as (t1 & t2 & cs2 & -> & HL2 & Hc2 & Hk2).
      exists (s1 ++ t1), t2, cs2. rewrite sapp_assoc, slength_app, Nat.add_assoc.
      split; [done|]. split; [by constructor|].
      split; [by eapply caps_within_app|done].
    - destruct (Re.m ci r1 s pos cs k) eqn:E.
      + simplify_eq. apply IH1 in E as (s1 & s2 & cs1 & -> & HL & Hc & Hk).
        exists s1, s2, cs1. split; [done|]. split; [by apply L_AltL|done].
      + apply IH2 in H as (s1 & s2 & cs1 & -> & HL & Hc & Hk).
        exists s1, s2, cs1. split; [done|]. split; [by apply L_AltR|done].
    - by apply star_loop_sound in H.
    - apply IH in H as (s1 & s2 & cs1 & -> & HL & Hc & Hk).
      rewrite Nat.add_comm, Nat.add_sub, take_app, Nat.add_comm in Hk.
      exists s1, s2, ((n, s1) :: cs1). split; [done|]. split; [by constructor|].
      split; [|done]. destruct Hc as (new & -> & HF). exists ((n, s1) :: new).
      split; [done|]. constructor; [apply infix_refl|done].
    - destruct (Nat.eqb pos 0); [|done]. exists "", s, cs. rewrite Nat.add_0_r.
      split; [done|]. split; [constructor|]. split; [apply caps_within_refl|done].
    - assert (k s pos cs = Some x) as Hk.
      { destruct s as [|a s]; [done|]. destruct s; [|by destruct a as [[] [] [] [] [] [] [] []]].
        by destruct a as [[] [] [] [] [] [] [] []]. }
      exists "", s, cs. rewrite Nat.add_0_r.
      split; [done|]. split; [constructor|]. split; [apply caps_within_refl|done].
  Qed.
End Soundness.

Lemma rmatch_sound (r : Re.re) (s : string) (cs : Re.caps) :
  Re.rmatch r s = Some cs ->
  exists s1 s2, s = s1 ++ s2 /\ Lang false r s1 /\ caps_within s1 [] cs.
Proof.
  unfold Re.rmatch, Re.match_ci.
  destruct (Re.m false r s 0 [] Re.finish) as [[cs' e]|] eqn:E; [|done].
  intros [= <-]. apply m_sound in E as (s1 & s2 & cs1 & -> & HL & Hc & Hk).
  unfold Re.finish in Hk. simplify_eq. by exists s1, s2.
Qed.

Lemma search_sound (r : Re.re) (s : string) (cs : Re.caps) :
  Re.search r s = Some cs ->
  exists pre s1 s2, s = pre ++ s1 ++ s2 /\ Lang false r s1 /\ caps_within s1 [] cs.
Proof.
  unfold Re.search. generalize 0%nat.
  induction s as [|a s IH]; intros pos; cbn [Re.search_from].
  - destruct (Re.m false r "" pos [] Re.finish) as [[cs' e]|] eqn:E; [|done].
    intros [= <-]. apply m_sound in E as (s1 & s2 & cs1 & Hs & HL & Hc & Hk).
    unfold Re.finish in Hk. simplify_eq. exists "", s1, s2. by rewrite sapp_nil_l.
  - destruct (Re.m false r (String a s) pos [] Re.finish) as [[cs' e]|] eqn:E.
    + intros [= <-]. apply m_sound in E as (s1 & s2 & cs1 & Hs & HL & Hc & Hk).
      unfold Re.finish in Hk. simplify_eq. exists "", s1, s2. by rewrite sapp_nil_l.
    + intros H. apply IH in H as (pre & s1 & s2 & -> & HL & Hc).
      by exists (String a pre), s1, s2.
Qed.

(** ** Numbers on a line *)

Lemma lang_seq_inv ci r1 r2 s :
  Lang ci (Re.Seq r1 r2) s ->
  exists s1 s2, s = s1 ++ s2 /\ Lang ci r1 s1 /\ Lang ci r2 s2.
Proof. inversion 1; subst. by eexists _, _. Qed.

Lemma lang_grp_inv ci n r s : Lang ci (Re.Grp n r) s -> Lang ci r s.
Proof. by inversion 1. Qed.

Lemma lang_cls_inv p s :
  Lang false (Re.Cls p) s -> exists c, s = String c "" /\ p c = true.
Proof. inversion 1; subst. by eexists. Qed.

Lemma all_chars_app p a b :
  all_chars p (a ++ b) = all_chars p a && all_chars p b.
Proof.
  induction a as [|x a IH]; [done|].
  rewrite sapp_cons. cbn [all_chars]. by rewrite IH, andb_assoc.
Qed.

Lemma lang_star_cls g p s :
  Lang false (Re.Star g (Re.Cls p)) s -> all_chars p s = true.
Proof.
  intros H. remember (Re.Star g (Re.Cls p)) as r eqn:Er.
  induction H as [| | | | | | |g' r' s1 s2 H1 _ H2 IH2| | |]; simplify_eq; [done|].
  apply lang_cls_inv in H1 as (c & -> & Hc).
  rewrite sapp_cons, sapp_nil_l. cbn [all_chars]. rewrite Hc. by apply IH2.
Qed.

(** A match of [Plus g (Cls p)]: a first character of the class, then more
    of them. *)
Lemma lang_plus_cls g p s :
  Lang false (Re.Plus g (Re.Cls p)) s ->
  exists c s', s = String c s' /\ p c = true /\ all_chars p s' = true.
Proof.
  intros H. apply lang_seq_inv in H as (s1 & s2 & -> & H1 & H2).
  apply lang_cls_inv in H1 as (c & -> & Hc). apply lang_star_cls in H2.
  exists c, s2. by rewrite sapp_cons, sapp_nil_l.
Qed.

Lemma space_not_num c : PyStr.is_space c = true -> Re.is_num c = false.
Proof. destruct c as [[] [] [] [] [] [] [] []]; vm_compute; congruence. Qed.

Lemma runs_le s : (runs true s <= runs false s <= S (runs true s))%nat.
Proof. destruct s as [|c s]; cbn [runs]; [lia|]. destruct (Re.is_num c); simpl; lia. Qed.

Lemma runs_skip n b x y : (n <= runs true y)%nat -> (n <= runs b (x ++ y))%nat.
Proof.
  revert b. induction x as [|c x IH]; intros b H.
  - rewrite sapp_nil_l. pose proof (runs_le y). destruct b; lia.
  - rewrite sapp_cons. cbn [runs]. specialize (IH (Re.is_num c) H). lia.
Qed.

Lemma runs_spaces b w z :
  all_chars PyStr.is_space w = true -> w <> "" -> runs b (w ++ z) = runs false z.
Proof.
  intros Hw Hne. destruct w as [|c w]; [done|]. clear Hne.
  cbn [all_chars] in Hw. apply andb_true_iff in Hw as [Hc Hw].
  rewrite sapp_cons. cbn [runs]. rewrite (space_not_num c Hc). cbn [andb Nat.add].
  induction w as [|d w IH]; [done|].
  cbn [all_chars] in Hw. apply andb_true_iff in Hw as [Hd Hw].
  rewrite sapp_cons. cbn [runs]. rewrite (space_not_num d Hd). cbn [andb Nat.add].
  by apply IH.
Qed.

(** Blanks, then a number: one more run. *)
Lemma runs_number n b w num r :
  Lang false Re.ws1 w -> Lang false Re.num num ->
  (n <= runs true r)%nat -> (S n <= runs b (w ++ num ++ r))%nat.
Proof.
  intros Hw Hn H.
  apply lang_plus_cls in Hw as (c & w' & -> & Hc & Hw').
  apply lang_plus_cls in Hn as (d & n' & -> & Hd & Hn').
  rewrite runs_spaces; [| cbn [all_chars]; by rewrite Hc, Hw' | done].
  rewrite sapp_cons. cbn [runs]. rewrite Hd. cbn [andb negb].
  pose proof (runs_skip n true n' r H). lia.
Qed.

Lemma runs_prefix b v z : (runs b v <= runs b (v ++ z))%nat.
Proof.
  revert b. induction v as [|c v IH]; intros b; [cbn [runs]; lia|].
  rewrite sapp_cons. cbn [runs]. specialize (IH (Re.is_num c)). lia.
Qed.

Lemma runs_suffix b a y :
  (runs false y <= runs b (a ++ y) + (if b then 1 else 0))%nat.
Proof.
  revert b. induction a as [|c a IH]; intros b.
  - rewrite sapp_nil_l. pose proof (runs_le y). destruct b; lia.
  - rewrite sapp_cons. cbn [runs]. specialize (IH (Re.is_num c)).
    destruct (Re.is_num c), b; simpl in *; lia.
Qed.

Lemma runs_infix v s : infix v s -> (runs false v <= runs false s)%nat.
Proof.
  intros (a & b & ->). pose proof (runs_suffix false a (v ++ b)) as H1.
  cbv iota in H1. pose proof (runs_prefix false v b). lia.
Qed.

Lemma star_cls_greedy p fuel s pos cs :
  (String.length s < fuel)%nat ->
  Re.star_loop (Re.m false (Re.Cls p)) true Re.finish fuel s pos cs
  = Some (cs, (pos + lead p s)%nat).
Proof.
  revert s pos. induction fuel as [|f IH]; intros s pos Hf; [lia|].
  cbn [Re.star_loop Re.m]. destruct s as [|c s].
  - cbn [lead]. unfold Re.finish. by rewrite Nat.add_0_r.
  - cbn [lead String.length] in *. unfold Re.cls_ok. destruct (p c).
    + assert ((pos <? S pos)%nat = true) as -> by (apply Nat.ltb_lt; lia).
      rewrite IH by lia. f_equal. f_equal. lia.
    + unfold Re.finish. by rewrite Nat.add_0_r.
Qed.

Lemma m_num s pos :
  Re.m false Re.num s pos [] Re.finish
  = match s with
    | String c s' =>
        if Re.is_num c then Some ([], (S pos + lead Re.is_num s')%nat) else None
    | EmptyString => None
    end.
Proof.
  unfold Re.num, Re.Plus. cbn [Re.m]. destruct s as [|c s]; [done|].
  unfold Re.cls_ok. destruct (Re.is_num c); [|done].
  apply star_cls_greedy. lia.
Qed.

Lemma findall_num_runs s pos :
  length (Re.findall_aux Re.num 0 s pos) = runs false s
  /\ length (Re.findall_aux Re.num (lead Re.is_num s) s pos) = runs true s.
Proof.
  revert pos. induction s as [|c s IH]; intros pos.
  - cbn [Re.findall_aux lead runs]. by rewrite m_num.
  - destruct (IH (S pos)) as [IH0 IH1].
    cbn [Re.findall_aux lead runs]. rewrite m_num.
    destruct (Re.is_num c); cbn [andb negb Nat.add length Re.findall_aux].
    + replace (S (pos + lead Re.is_num s) - pos - 1)%nat with (lead Re.is_num s) by lia.
      by rewrite IH1.
    + by rewrite IH0.
Qed.

(** [re.findall(r'[\d,]+', s)] has one entry per run of digits and commas. *)
Lemma findall_num_length s : length (Re.findall Re.num s) = runs false s.
Proof. apply findall_num_runs. Qed.

Ltac lang_split :=
  repeat match goal with
    | H : Lang _ (Re.Seq _ _) _ |- _ =>
        let s1 := fresh "s" in let s2 := fresh "s" in
        apply lang_seq_inv in H as (s1 & s2 & -> & ? & ?)
    | H : Lang _ (Re.Grp _ _) _ |- _ => apply lang_grp_inv in H
    end.

(** Counts the numbers of a line that is split into the pieces a pattern
    consumed. *)
Ltac count_numbers :=
  rewrite ?sapp_assoc;
  repeat first [ eapply runs_number; [eassumption|eassumption|] | apply runs_skip ];
  lia.

Lemma collin_candidate_runs line cs :
  Re.search Collin.candidate_pattern line = Some cs -> (6 <= runs false line)%nat.
Proof.
  intros H. apply search_sound in H as (pre & s1 & s2 & -> & HL & _).
  unfold Collin.candidate_pattern in HL. cbn [Re.Seqs app Collin.five_nums] in HL.
  lang_split. count_numbers.
Qed.

Lemma collin_uncontested_runs line cs :
  Re.rmatch Collin.uncontested_pattern line = Some cs -> (6 <= runs false line)%nat.
Proof.
  intros H. apply rmatch_sound in H as (s1 & s2 & -> & HL & _).
  unfold Collin.uncontested_pattern in HL. cbn [Re.Seqs app Collin.five_nums] in HL.
  lang_split. count_numbers.
Qed.

Lemma collin_prop_runs line cs :
  Re.rmatch Collin.prop_pattern line = Some cs -> (6 <= runs false line)%nat.
Proof.
  intros H. apply rmatch_sound in H as (s1 & s2 & -> & HL & _).
  unfold Collin.prop_pattern in HL. cbn [Re.Seqs app Collin.five_nums] in HL.
  lang_split. count_numbers.
Qed.

Lemma grp_infix n s cs : caps_within s [] cs -> infix (Tabular.grp n cs) s.
Proof.
  intros (new & -> & HF). rewrite app_nil_r. unfold Tabular.grp.
  induction HF as [|[i v] new Hv _ IH]; cbn [Re.group].
  - exists "", s. by rewrite !sapp_nil_l.
  - destruct (Nat.eqb i n); [exact Hv | exact IH].
Qed.

Lemma collin_rest_runs line cs :
  Re.rmatch Collin.simple_pattern line = Some cs ->
  (runs false (Tabular.grp 2 cs) <= runs false line)%nat.
Proof.
  intros H. apply rmatch_sound in H as (s1 & s2 & -> & _ & Hc).
  apply runs_infix, infix_app_l. by apply grp_infix.
Qed.

Lemma party_prefix_not_statistic line :
  Tabular.startswith_any line Collin.party_prefixes = true ->
  PyStr.startswith line "Overvotes" = false
  /\ PyStr.startswith line "Undervotes" = false.
Proof.
  unfold Tabular.startswith_any, Collin.party_prefixes, PyStr.startswith.
  cbn [existsb]. rewrite !orb_true_iff.
  intros [H|[H|[H|[H|[H|H]]]]]; try done;
    apply prefix_cons_inv in H as (s' & -> & _); by vm_compute.
Qed.

(** A Collin line that begins with a party token and holds fewer than six
    numbers adds no record. *)
Lemma collin_few_numbers cnty st raw :
  Tabular.startswith_any (PyStr.strip raw) Collin.party_prefixes = true ->
  (length (Re.findall Re.num (PyStr.strip raw)) < 6)%nat ->
  Collin.data (Collin.step cnty st raw) = Collin.data st.
Proof.
  intros Hp Hn. rewrite findall_num_length in Hn.
  destruct (party_prefix_not_statistic _ Hp) as [Ho Hu].
  unfold Collin.step. set (line := PyStr.strip raw) in *.
  destruct (negb _); [done|].
  destruct (if PyStr.startswith _ _ then _ else _); [done|].
  destruct (Collin.current_precinct st) as [prec|]; [|done].
  destruct (_ && _); [done|].
  destruct (Collin.current_office st) as [off|]; [|done].
  destruct (Tabular.any_in line Collin.skip_terms); [done|].
  rewrite Ho, Hu. cbn [andb].
  assert (H1 : Re.search Collin.candidate_pattern line = None).
  { destruct (Re.search Collin.candidate_pattern line) eqn:E; [|done].
    apply collin_candidate_runs in E. lia. }
  assert (H4 : Re.rmatch Collin.uncontested_pattern line = None).
  { destruct (Re.rmatch Collin.uncontested_pattern line) eqn:E; [|done].
    apply collin_uncontested_runs in E. lia. }
  assert (H5 : Re.rmatch Collin.prop_pattern line = None).
  { destruct (Re.rmatch Collin.prop_pattern line) eqn:E; [|done].
    apply collin_prop_runs in E. lia. }
  assert (H3 : (6 <=? length (Re.findall Re.num line))%nat = false).
  { rewrite findall_num_length. apply Nat.leb_gt. lia. }
  unfold Collin.candidate_line, Collin.strict_line. rewrite H1, H4, H5.
  destruct (_ && PyStr.nonempty off).
  - destruct (Re.rmatch Collin.simple_pattern line) as [cs|] eqn:Es.
    + assert (H2 : (6 <=? length (Re.findall Re.num (Tabular.grp 2 cs)))%nat = false).
      { rewrite findall_num_length. apply Nat.leb_gt.
        pose proof (collin_rest_runs _ _ Es). lia. }
      rewrite H2. by repeat case_match.
    + rewrite H3. by repeat case_match.
  - by repeat case_match.
Qed.

Lemma numbers_of_length parts l :
  FortBend.numbers_of parts = Some l ->
  length l = length (List.filter FortBend.is_number_token parts).
Proof.
  revert l. induction parts as [|p ps IH]; intros l H; cbn [FortBend.numbers_of] in H.
  - by simplify_eq.
  - cbn [List.filter]. destruct (FortBend.is_number_token p); [|by apply IH].
    destruct (Tabular.int_commas p); [|done].
    destruct (FortBend.numbers_of ps) as [l'|]; [|done].
    cbn in H. simplify_eq. cbn [length]. f_equal. by apply IH.
Qed.

Lemma filter_skipn_length {A : Type} (p : A -> bool) n (l : list A) :
  (length (List.filter p (skipn n l)) <= length (List.filter p l))%nat.
Proof.
  revert n. induction l as [|x l IH]; intros [|n]; simpl; try lia.
  specialize (IH n). destruct (p x); simpl; lia.
Qed.

Lemma party_token_not_statistic line :
  Tabular.startswith_any line FortBend.party_tokens = true ->
  PyStr.startswith line "Overvotes" = false
  /\ PyStr.startswith line "Undervotes" = false
  /\ PyStr.startswith line "Write-In Totals" = false.
Proof.
  unfold Tabular.startswith_any, FortBend.party_tokens, PyStr.startswith.
  cbn [existsb]. rewrite !orb_true_iff.
  intros [H|[H|[H|[H|[H|H]]]]]; try done;
    apply prefix_cons_inv in H as (s' & -> & _); by vm_compute.
Qed.

(** A Fort Bend line that begins with a party token, is not a statistics
    line and holds fewer than four number parts adds no record. *)
Lemma fort_bend_few_numbers cnty st raw :
  Tabular.startswith_any (PyStr.strip raw) FortBend.party_tokens = true ->
  statistics_line (PyStr.strip raw) = false ->
  (number_tokens (PyStr.strip raw) < 4)%nat ->
  FortBend.data (FortBend.step cnty st raw) = FortBend.data st.
Proof.
  intros Hp Hs Hn.
  destruct (party_token_not_statistic _ Hp) as (Ho & Hu & Hw).
  unfold statistics_line in Hs. apply orb_false_iff in Hs as [Hs Hs3].
  apply orb_false_iff in Hs as [Hs1 Hs2].
  unfold FortBend.step. set (line := PyStr.strip raw) in *.
  destruct (negb _); [done|].
  destruct (FortBend.precinct_header line); [done|].
  destruct (FortBend.current_precinct st) as [prec|]; [|done].
  destruct (String.eqb line "STATISTICS"); [done|].
  rewrite Hs1, Hs2, Hs3, Ho, Hu, Hw. cbn [andb]. rewrite !andb_false_r.
  destruct (Tabular.any_in line FortBend.office_indicators); [done|].
  destruct (Tabular.any_in line FortBend.skip_terms); [done|].
  destruct (_ && _); [|done].
  unfold FortBend.candidate_line.
  destruct (6 <=? _)%nat; [|done].
  destruct (PyStr.split_ws line) as [|pty rest] eqn:Ep; [done|].
  destruct (FortBend.number_start_from 1 rest) as [ns|]; [|done].
  destruct (1 <? ns)%nat; [|done].
  destruct (FortBend.numbers_of (skipn ns (pty :: rest))) as [l|] eqn:El; [|done].
  apply numbers_of_length in El.
  pose proof (filter_skipn_length FortBend.is_number_token ns (pty :: rest)) as Hle.
  unfold number_tokens in Hn. rewrite Ep in Hn.
  destruct l as [|t [|d [|a [|e l]]]]; try done. cbn [length] in El. lia.
Qed.

(** C6: the code departs from the claim.  A [collin.py] candidate line that
    has the total, the percentage and only three of the five method counts
    is not passed over: the first fallback counts the numbers with
    [[\d,]+], which finds two in the percentage [50.00], so the test for
    six numbers succeeds; the record it adds has the decimals of the
    percentage as [election_day] and the three counts one column to the
    right.  ([collin_few_numbers] shows that no record is added when
    [[\d,]+] finds fewer than six numbers, and [fort_bend_few_numbers] that
    [fort_bend.py], which counts whole fields, adds none for fewer than
    four.) *)
Theorem collin_fallback_accepts_short_line :
  Re.findall Re.num "Rep Pat Roe 10 50.00% 1 2 3" = ["10"; "50"; "00"; "1"; "2"; "3"]
  /\ map (fun r => (Collin.candidate r, Collin.votes r, Collin.election_day r,
                    Collin.early_voting r, Collin.ballot_by_mail r,
                    Collin.provisional r, Collin.limited r))
         (Collin.parse_election_data
            (text_of ["PCT 001"; "President/Vice President";
                      "Rep Pat Roe 10 50.00% 1 2 3"]) "Collin")
     = [("Pat Roe", 10%Z, 0%Z, 1%Z, 2%Z, 3%Z, 0%Z)]
  /\ FortBend.parse_election_data
       (text_of ["1004"; "President"; "REP Pat Roe 10 50.00% 1"]) "Fort Bend" = [].
Proof. repeat split; vm_compute; reflexivity. Qed.

(** ** Per-precinct statistics are recorded once *)

Lemma count_registered_app prec data r :
  count_registered prec (data ++ [r])
  = (count_registered prec data + (if is_registered prec r then 1 else 0))%nat.
Proof.
  unfold count_registered. rewrite List.filter_app, length_app. cbn [List.filter].
  by destruct (is_registered prec r).
Qed.



Ltac effect_cases :=
  first
    [ left; split; [reflexivity | set_solver]
    | right; left; eexists; split; [reflexivity|]; split; [by intros|set_solver]
    | right; right; eexists _, _, _; split; [reflexivity|]; split;
      [ match goal with
        | H : bool_decide _ = false |- _ => apply bool_decide_eq_false_1 in H; exact H
        end
      | reflexivity ] ].

Lemma electionware_line_effect cnty st raw :
  line_effect (Electionware.data st) (Electionware.data (Electionware.step cnty st raw))
              (Electionware.precinct_stats_added st)
              (Electionware.precinct_stats_added (Electionware.step cnty st raw)).
Proof.
  unfold Electionware.step, Electionware.registered_line, Electionware.ballots_line,
    Electionware.over_under, Electionware.contest_line, Electionware.add_flag,
    Electionware.append, Electionware.stat_record.
  branch_all; effect_cases.
Qed.














(** * Further properties of the parsers *)

(** ** Records are appended in input order *)

Lemma electionware_step_appends cnty st raw :
  exists new,
    Electionware.data (Electionware.step cnty st raw) = (Electionware.data st ++ new)%list.
Proof.
  destruct (electionware_line_effect cnty st raw)
    as [[-> _]|[(r & -> & _)|(c & p & n & -> & _)]];
    [exists []; by rewrite app_nil_r | by eexists | by eexists].
Qed.

Lemma fort_bend_step_appends cnty st raw :
  exists new, FortBend.data (FortBend.step cnty st raw) = (FortBend.data st ++ new)%list.
Proof.
  unfold FortBend.step, FortBend.registered_line, FortBend.ballots_line,
    FortBend.over_under, FortBend.write_in_totals, FortBend.candidate_line,
    FortBend.add_flag, FortBend.append.
  branch_all; first [ by exists []; rewrite app_nil_r | by eexists [_] ].
Qed.

Lemma greenbox_step_appends cnty st raw :
  exists new, Greenbox.data (Greenbox.step cnty st raw) = (Greenbox.data st ++ new)%list.
Proof.
  unfold Greenbox.step, Greenbox.precinct_line, Greenbox.office_header,
    Greenbox.candidate_line, Greenbox.over_under, Greenbox.append.
  branch_all; first [ by exists []; rewrite app_nil_r | by eexists [_] | by eexists [_; _] ].
Qed.

Lemma run_extends {S R : Type} (data : S -> list R) (step : S -> string -> S) :
  (forall st raw, exists new, data (step st raw) = (data st ++ new)%list) ->
  forall lines st, exists new, data (fold_left step lines st) = (data st ++ new)%list.
Proof.
  intros Hs lines. induction lines as [|l lines IH]; intros st; cbn [fold_left].
  - exists []. by rewrite app_nil_r.
  - destruct (IH (step st l)) as [n2 ->]. destruct (Hs st l) as [n1 ->].
    exists (n1 ++ n2)%list. by rewrite app_assoc.
Qed.

(** X1.  The four PDF parsers never change or drop a record once it is
    emitted: the records of a document that continues another begin with
    the records of the other, in the same order. *)
Theorem records_follow_input_order (cnty : string) (l1 l2 : list string) :
  (exists new, Collin.data (Collin.run cnty Collin.init (l1 ++ l2))
               = (Collin.data (Collin.run cnty Collin.init l1) ++ new)%list)
  /\ (exists new, Electionware.data (Electionware.run cnty Electionware.init (l1 ++ l2))
                  = (Electionware.data (Electionware.run cnty Electionware.init l1)
                     ++ new)%list)
  /\ (exists new, FortBend.data (FortBend.run cnty FortBend.init (l1 ++ l2))
                  = (FortBend.data (FortBend.run cnty FortBend.init l1) ++ new)%list)
  /\ (exists new, Greenbox.data (Greenbox.run cnty Greenbox.init (l1 ++ l2))
                  = (Greenbox.data (Greenbox.run cnty Greenbox.init l1) ++ new)%list).
Proof.
  unfold Collin.run, Electionware.run, FortBend.run, Greenbox.run.
  rewrite !fold_left_app. repeat split.
  - apply (run_extends Collin.data), collin_step_appends.
  - apply (run_extends Electionware.data), electionware_step_appends.
  - apply (run_extends FortBend.data), fort_bend_step_appends.
  - apply (run_extends Greenbox.data), greenbox_step_appends.
Qed.

(** ** County and precinct of the records *)

Lemma prefix_app (p x : string) : String.prefix p (p ++ x) = true.
Proof.
  induction p as [|c p IH]; [by destruct x|].
  rewrite sapp_cons. cbn [String.prefix]. by destruct (ascii_dec c c).
Qed.

Ltac located_goal H Hp :=
  apply Forall_app; split; [exact H|];
  constructor; [split; [reflexivity | by apply Hp] | constructor].

Lemma fort_bend_header_label line p :
  FortBend.precinct_header line = Some p -> PyStr.startswith p "Precinct " = true.
Proof.
  unfold FortBend.precinct_header. intros H.
  repeat case_match; simplify_eq; apply prefix_app.
Qed.

(** The precinct after a step has the form of a header label. *)
Ltac precinct_goal Hp :=
  let p' := fresh "p" in let Hp' := fresh "Hp" in
  intros p' Hp';
  first [ by apply Hp
        | congruence
        | match goal with
          | E : _ = Some _ |- _ => rewrite E in Hp'; by apply Hp
          end
        | injection Hp' as <-;
          first [ apply prefix_app | by apply Hp | by eapply fort_bend_header_label ] ].

Lemma electionware_step_located cnty st raw :
  (forall p, Electionware.current_precinct st = Some p ->
             PyStr.startswith p "Precinct " = true) ->
  Forall (located cnty "Precinct ") (Electionware.data st) ->
  (forall p, Electionware.current_precinct (Electionware.step cnty st raw) = Some p ->
             PyStr.startswith p "Precinct " = true)
  /\ Forall (located cnty "Precinct ") (Electionware.data (Electionware.step cnty st raw)).
Proof.
  intros Hp Hd.
  unfold Electionware.step, Electionware.registered_line, Electionware.ballots_line,
    Electionware.over_under, Electionware.contest_line, Electionware.add_flag,
    Electionware.append, Electionware.stat_record.
  branch_all; (split; [precinct_goal Hp|]); first [exact Hd | located_goal Hd Hp].
Qed.

Lemma fort_bend_step_located cnty st raw :
  (forall p, FortBend.current_precinct st = Some p ->
             PyStr.startswith p "Precinct " = true) ->
  Forall (located cnty "Precinct ") (FortBend.data st) ->
  (forall p, FortBend.current_precinct (FortBend.step cnty st raw) = Some p ->
             PyStr.startswith p "Precinct " = true)
  /\ Forall (located cnty "Precinct ") (FortBend.data (FortBend.step cnty st raw)).
Proof.
  intros Hp Hd.
  unfold FortBend.step, FortBend.registered_line, FortBend.ballots_line,
    FortBend.over_under, FortBend.write_in_totals, FortBend.candidate_line,
    FortBend.add_flag, FortBend.append, FortBend.fb_record.
  branch_all; (split; [precinct_goal Hp|]); first [exact Hd | located_goal Hd Hp].
Qed.

Lemma collin_fallback_located cnty prec off dist :
  (forall cs numbers r,
      Collin.simple_fallback cnty prec off dist cs numbers = Some r ->
      Collin.county r = cnty /\ Collin.precinct r = prec)
  /\ (forall line r,
        Collin.pct_fallback cnty prec off dist line = Some r ->
        Collin.county r = cnty /\ Collin.precinct r = prec).
Proof.
  split.
  - intros cs numbers r. unfold Collin.simple_fallback.
    repeat case_match; intros; by simplify_eq.
  - intros line r. unfold Collin.pct_fallback.
    repeat case_match; intros; by simplify_eq.
Qed.

Lemma collin_candidate_line_located cnty prec off st line :
  Collin.candidate_line cnty prec off st line = st
  \/ exists r, Collin.candidate_line cnty prec off st line = Collin.append st r
               /\ Collin.county r = cnty /\ Collin.precinct r = prec.
Proof.
  destruct (collin_fallback_located cnty prec off (Collin.cur_district st)) as [Hs Hf].
  unfold Collin.candidate_line.
  destruct (if Tabular.startswith_any _ _ && _ then _ else _) as [r|] eqn:E.
  - right. exists r. split; [done|]. revert E.
    repeat case_match; intros; simplify_eq; first [by eapply Hs | by eapply Hf].
  - unfold Collin.strict_line.
    repeat case_match; first [by left | right; by eexists].
Qed.

Lemma collin_step_located cnty st raw :
  (forall p, Collin.current_precinct st = Some p -> PyStr.startswith p "PCT " = true) ->
  Forall (collin_located cnty) (Collin.data st) ->
  (forall p, Collin.current_precinct (Collin.step cnty st raw) = Some p ->
             PyStr.startswith p "PCT " = true)
  /\ Forall (collin_located cnty) (Collin.data (Collin.step cnty st raw)).
Proof.
  intros Hp Hd. unfold Collin.step.
  destruct (negb _); [done|].
  destruct (if PyStr.startswith _ _ then _ else _).
  { split; [|done]. intros p [= <-]. apply prefix_app. }
  destruct (Collin.current_precinct st) as [prec|] eqn:Ep; [|by rewrite Ep].
  assert (Hprec : PyStr.startswith prec "PCT " = true) by by apply Hp.
  assert (Keep : forall d o dist,
             (forall p, Collin.current_precinct (Collin.mkState d (Some prec) o dist)
                        = Some p -> PyStr.startswith p "PCT " = true))
    by (by intros d o dist p [= <-]).
  assert (Same : forall p, Collin.current_precinct st = Some p ->
                           PyStr.startswith p "PCT " = true)
    by (intros p; rewrite Ep; by intros [= <-]).
  destruct (_ && _); [by split|].
  destruct (Collin.current_office st) as [off|] eqn:Eo; [|by split].
  destruct (Tabular.any_in _ Collin.skip_terms); [by split|].
  assert (Over : forall cand,
             (forall p, Collin.current_precinct
                          (Collin.over_under cand cnty prec off st (PyStr.strip raw))
                        = Some p -> PyStr.startswith p "PCT " = true)
             /\ Forall (collin_located cnty)
                       (Collin.data (Collin.over_under cand cnty prec off st
                                       (PyStr.strip raw)))).
  { intros cand. unfold Collin.over_under, Collin.append.
    repeat case_match; proj_simpl; (split; [done|]); try done;
      apply Forall_app; split; [done|]; by repeat constructor. }
  destruct (_ && _); [apply Over|].
  destruct (_ && _); [apply Over|].
  destruct (collin_candidate_line_located cnty prec off st (PyStr.strip raw))
    as [->|(r & -> & Hc & Hr)]; [by split|].
  unfold Collin.append. proj_simpl. split; [done|].
  apply Forall_app. split; [done|]. repeat constructor; [done|]. by rewrite Hr.
Qed.

(** X2.  Every record of [electionware.py] and [fort_bend.py] carries the
    county the parser was called with and a precinct of the form
    ["Precinct ..."] taken from a header line; every record of [collin.py]
    carries the county and a precinct of the form ["PCT ..."].  No record is
    emitted without its precinct. *)
Theorem records_are_located (text cnty : string) :
  Forall (located cnty "Precinct ") (Electionware.parse_election_data text cnty)
  /\ Forall (located cnty "Precinct ") (FortBend.parse_election_data text cnty)
  /\ Forall (collin_located cnty) (Collin.parse_election_data text cnty).
Proof.
  split; [|split].
  - apply (fold_left_invariant
             (fun st => (forall p, Electionware.current_precinct st = Some p ->
                                   PyStr.startswith p "Precinct " = true)
                        /\ Forall (located cnty "Precinct ") (Electionware.data st))).
    + intros s l [H1 H2]. by apply electionware_step_located.
    + split; [done|constructor].
  - apply (fold_left_invariant
             (fun st => (forall p, FortBend.current_precinct st = Some p ->
                                   PyStr.startswith p "Precinct " = true)
                        /\ Forall (located cnty "Precinct ") (FortBend.data st))).
    + intros s l [H1 H2]. by apply fort_bend_step_located.
    + split; [done|constructor].
  - apply (fold_left_invariant
             (fun st => (forall p, Collin.current_precinct st = Some p ->
                                   PyStr.startswith p "PCT " = true)
                        /\ Forall (collin_located cnty) (Collin.data st))).
    + intros s l [H1 H2]. by apply collin_step_located.
    + split; [done|constructor].
Qed.

(** ** What the scan of the results tree stores *)

Lemma store_set_elem k vt v (st : Clarity.store) k' (vd' : gmap string Z) :
  (k', vd') ∈ Clarity.store_set k vt v st ->
  (k', vd') ∈ st
  \/ (k' = k /\ exists p, vd' = <[vt := v]> p /\ (p = ∅ \/ (k, p) ∈ st)).
Proof.
  induction st as [|[k0 p0] st IH]; cbn [Clarity.store_set].
  - intros E%list_elem_of_singleton. simplify_eq. right. split; [done|]. exists ∅.
    split; [|by left]. by rewrite insert_empty.
  - destruct (decide (k = k0)) as [->|Hne].
    + intros [E|Hin]%elem_of_cons.
      * simplify_eq. right. split; [done|]. exists p0. split; [done|].
        right. apply list_elem_of_here.
      * left. by apply list_elem_of_further.
    + intros [E|Hin]%elem_of_cons.
      * simplify_eq. left. apply list_elem_of_here.
      * apply IH in Hin as [Hin|(-> & p & -> & [->|Hp])].
        -- left. by apply list_elem_of_further.
        -- right. split; [done|]. exists ∅. split; [done|by left].
        -- right. split; [done|]. exists p. split; [done|]. right.
           by apply list_elem_of_further.
Qed.

Lemma ingest_methods_seen county_name region acc r :
  methods_seen acc -> methods_seen (Clarity.ingest county_name region acc r).
Proof.
  intros [Hm He]. destruct acc as [st vts]. unfold Clarity.ingest.
  destruct (bool_decide _) eqn:Eb; [by split|].
  apply bool_decide_eq_false_1 in Eb.
  destruct (Clarity.res_choice r) as [ch|]; [|by split].
  assert (He' : forall vt, vt ∈ vts ∪ {[Clarity.vote_type r]} ->
                           vt ∉ Clarity.excluded_vote_types).
  { intros vt [Hin|Hin%elem_of_singleton]%elem_of_union; [by apply He|by subst vt]. }
  assert (Hm' : forall k (vd : gmap string Z) vt,
             (k, vd) ∈ st -> is_Some (vd !! vt) -> vt ∈ vts ∪ {[Clarity.vote_type r]}).
  { intros k vd vt Hin Hs. apply elem_of_union_l. by eapply Hm. }
  destruct (negb _); [by split|].
  destruct (Clarity.parse_office _) as [office district].
  destruct (match Clarity.choice_party ch with Some _ => _ | None => _ end)
    as [candidate1 party].
  destruct (Clarity.jurisdiction r) as [precinct|]; [|by split].
  split; [|done]. cbn [fst snd]. intros k vd vt Hin Hs.
  apply store_set_elem in Hin as [Hin|(-> & p & -> & Hp)]; [by eapply Hm'|].
  destruct (decide (vt = Clarity.vote_type r)) as [->|Hne].
  - apply elem_of_union_r. by apply elem_of_singleton.
  - rewrite lookup_insert_ne in Hs by done.
    destruct Hp as [->|Hp]; [by rewrite lookup_empty in Hs; destruct Hs|].
    by eapply Hm'.
Qed.

Lemma scan_methods_seen county_name region rs :
  methods_seen (scan county_name region rs).
Proof.
  unfold scan. apply (fold_left_invariant methods_seen).
  - intros acc r. apply ingest_methods_seen.
  - split; [intros k vd vt Hin; by apply elem_of_nil in Hin|].
    intros vt Hin. by apply not_elem_of_empty in Hin.
Qed.

(** X3.  For a document without turnout data, the [votes] of every contest
    row is the sum of the row's vote-method columns: every method stored
    for a key during the scan is one of the vote types that become columns.
    (Office other than ["Registered Voters"], distinct column names, and no
    vote type named like a base column.) *)
Theorem contest_votes_are_column_sums county_name region rs k vd
  (Hk : (k, vd) ∈ fst (scan county_name region rs))
  (Ho : Clarity.k_office k <> "Registered Voters")
  (Hc : no_clash (map Clarity.vote_type rs))
  (Hd : NoDup (map Clarity.column_name (elements (snd (scan county_name region rs))))) :
  let vts := elements (snd (scan county_name region rs)) in
  payload_within vts vd
  /\ Clarity.row_data vts k vd !! "votes"
     = Some (Clarity.VInt (columns_sum vts (Clarity.row_data vts k vd))).
Proof.
  intros vts. subst vts.
  assert (Hw : payload_within (elements (snd (scan county_name region rs))) vd).
  { intros vt Hs. right. apply elem_of_elements.
    by eapply (proj1 (scan_methods_seen county_name region rs)). }
  split; [done|].
  apply (no_clash_scan county_name region) in Hc.
  rewrite row_data_base by (done || (apply list_elem_of_In; vm_compute; tauto)).
  destruct (base_row_lookup k vd) as (_ & _ & _ & _ & _ & _ & ->).
  rewrite columns_sum_spec, lookups_sum by (done || apply NoDup_elements).
  unfold Clarity.vote_total. apply String.eqb_neq in Ho. by rewrite Ho.
Qed.

Lemma contest_votes_are_column_sums_witness :
  Clarity.row_data (elements (snd (scan "cty" None sample_results)))
                   sample_key sample_payload !! "votes"
  = Some (Clarity.VInt
            (columns_sum (elements (snd (scan "cty" None sample_results)))
               (Clarity.row_data (elements (snd (scan "cty" None sample_results)))
                                 sample_key sample_payload))).
Proof.
  apply (contest_votes_are_column_sums "cty" None sample_results sample_key sample_payload).
  - apply (bool_decide_unpack _). vm_compute. reflexivity.
  - discriminate.
  - unfold no_clash. apply (bool_decide_unpack _). vm_compute. reflexivity.
  - apply (bool_decide_unpack _). vm_compute. reflexivity.
Defined.

(** X4.  The vote types ["Number of Precincts"], ["Overvotes"] and
    ["Undervotes"] are filtered out of the scan: none of them becomes a
    column and none is stored by the scan in any payload. *)
Theorem excluded_vote_types_are_dropped county_name region rs vt
  (Hx : vt ∈ Clarity.excluded_vote_types) :
  (vt ∉ snd (scan county_name region rs))
  /\ forall k (vd : gmap string Z),
       (k, vd) ∈ fst (scan county_name region rs) -> vd !! vt = None.
Proof.
  destruct (scan_methods_seen county_name region rs) as [Hm He].
  split; [intros Hin; by apply (He vt)|].
  intros k vd Hin. destruct (vd !! vt) as [v|] eqn:E; [|done].
  exfalso. apply (He vt); [|done]. eapply Hm; [exact Hin|]. by rewrite E.
Qed.

Lemma excluded_vote_types_are_dropped_witness :
  "Overvotes" ∉ snd (scan "cty" None
                       (Clarity.mkResult "Overvotes"
                          (Some (Clarity.mkChoice (Some "John Smith") None))
                          "Sheriff" (Some "P1") 2 :: sample_results)).
Proof.
  apply excluded_vote_types_are_dropped.
  apply (bool_decide_unpack _). vm_compute. reflexivity.
Defined.

(** ** The turnout rows *)

Lemma extends_refl results : extends_with_turnout results results.
Proof. split; [|done]. exists []. by rewrite app_nil_r. Qed.

Lemma extends_store_set results st k vt v :
  turnout_key k -> extends_with_turnout results st ->
  extends_with_turnout results (Clarity.store_set k vt v st).
Proof.
  intros Hk [(extra & He & Ht) Hg]. split.
  - rewrite store_set_keys. case_bool_decide; [by exists extra|].
    exists (extra ++ [k])%list. rewrite He, app_assoc. split; [done|].
    apply Forall_app. split; [done|]. constructor; [done|constructor].
  - intros k' Hk'. rewrite store_get_set_ne; [by apply Hg|]. by intros ->.
Qed.

Lemma extends_set_int results k vt value (a : Clarity.attempt) :
  turnout_key k -> extends_with_turnout results (fst a) ->
  extends_with_turnout results (fst (Clarity.set_int k vt value a)).
Proof.
  intros Hk H. destruct a as [st ok]. unfold Clarity.set_int.
  destruct ok; [|done]. destruct (PyStr.py_int value); [|done].
  by apply extends_store_set.
Qed.

Lemma add_voter_turnout_rows_extends results rs turnout county_name :
  extends_with_turnout results
    (Clarity.add_voter_turnout_rows results rs turnout county_name).
Proof.
  unfold Clarity.add_voter_turnout_rows.
  destruct turnout as [vt|]; [|apply extends_refl].
  assert (Hreg : forall n, turnout_key (Clarity.reg_key county_name n)) by (by left).
  assert (Hbal : forall n, turnout_key (Clarity.ballots_key county_name n)) by (by right).
  assert (H1 : extends_with_turnout results
                 (fst (fold_left (Clarity.turnout_precinct county_name)
                         (Clarity.vt_precincts vt) (results, true)))).
  { apply (fold_left_invariant (fun a => extends_with_turnout results (fst a)));
      [|apply extends_refl].
    intros a pe Ha. unfold Clarity.turnout_precinct.
    repeat case_match; try done; repeat apply extends_set_int; done. }
  assert (H2 : extends_with_turnout results
                 (fst (fold_left (Clarity.turnout_vote_type county_name)
                         (Clarity.vt_vote_types vt)
                         (fold_left (Clarity.turnout_precinct county_name)
                            (Clarity.vt_precincts vt) (results, true))))).
  { apply (fold_left_invariant (fun a => extends_with_turnout results (fst a))); [|done].
    intros a vte Ha. unfold Clarity.turnout_vote_type.
    destruct (Clarity.vte_name vte); [|done]. destruct (_ && _); [|done].
    apply (fold_left_invariant (fun a => extends_with_turnout results (fst a))); [|done].
    intros a' pe Ha'. repeat case_match; try done; by apply extends_set_int. }
  destruct (fold_left (Clarity.turnout_vote_type county_name) _ _) as [st ok].
  destruct ok; [done|].
  apply (fold_left_invariant (extends_with_turnout results)); [|done].
  intros st' [name n] Hst'. destruct (0 <? n)%Z; [|done]. by apply extends_store_set.
Qed.

(** X5.  Adding the turnout rows never touches a contest: the keys already
    in the store keep their place, the keys added after them all have
    office ["Registered Voters"] or ["Ballots Cast"], and the payload of
    every key with another office is what it was before, also when a
    malformed attribute makes the function fall back to the
    [regVotersCounty] results. *)
Theorem turnout_rows_leave_contests_alone results rs turnout county_name k
  (Hk : Clarity.k_office k <> "Registered Voters")
  (Hb : Clarity.k_office k <> "Ballots Cast") :
  Clarity.store_get k (Clarity.add_voter_turnout_rows results rs turnout county_name)
  = Clarity.store_get k results
  /\ exists extra,
      map fst (Clarity.add_voter_turnout_rows results rs turnout county_name)
      = (map fst results ++ extra)%list
      /\ Forall turnout_key extra.
Proof.
  destruct (add_voter_turnout_rows_extends results rs turnout county_name) as [He Hg].
  split; [|done]. apply Hg. by intros [?|?].
Qed.

Lemma turnout_rows_leave_contests_alone_witness :
  Clarity.store_get sample_key
    (Clarity.add_voter_turnout_rows [(sample_key, sample_payload)] sample_results
       sample_turnout "cty")
  = Some sample_payload.
Proof.
  rewrite (proj1 (turnout_rows_leave_contests_alone
                    [(sample_key, sample_payload)] sample_results sample_turnout "cty"
                    sample_key ltac:(discriminate) ltac:(discriminate))).
  reflexivity.
Defined.

(** ** Size of the store *)

Lemma store_set_length_le k vt v (st : Clarity.store) :
  (length (Clarity.store_set k vt v st) <= S (length st))%nat.
Proof.
  rewrite <- !(length_map fst), store_set_keys.
  case_bool_decide; [lia|]. rewrite length_app. cbn [length]. lia.
Qed.

(** X6.  The scan stores at most one key per result of the tree, so a
    document without turnout data gives at most as many rows as it has
    results. *)
Theorem at_most_one_key_per_result county_name region rs :
  (length (fst (scan county_name region rs)) <= length rs)%nat
  /\ (length (Clarity.output_rows (snd (scan county_name region rs))
                                  (final_store county_name region rs None))
      <= length rs)%nat.
Proof.
  assert (G : forall acc,
             (length (fst (fold_left (Clarity.ingest county_name region) rs acc))
              <= length (fst acc) + length rs)%nat).
  { induction rs as [|r rs IH]; intros acc; cbn [fold_left length]; [lia|].
    specialize (IH (Clarity.ingest county_name region acc r)).
    assert (length (fst (Clarity.ingest county_name region acc r))
            <= S (length (fst acc)))%nat; [|lia].
    destruct acc as [st vts]. unfold Clarity.ingest.
    repeat case_match; cbn [fst]; try lia; apply store_set_length_le. }
  specialize (G ([], ∅)). cbn [fst length] in G.
  split; [exact G|].
  unfold Clarity.output_rows, final_store, Clarity.add_voter_turnout_rows.
  by rewrite length_map.
Qed.

(** ** Stripping and the canonical office names *)

Lemma rev_onto_app s acc : PyStr.rev_onto s acc = PyStr.srev s ++ acc.
Proof.
  unfold PyStr.srev. revert acc. induction s as [|c s IH]; intros acc; [done|].
  cbn [PyStr.rev_onto]. rewrite (IH (String c acc)), (IH (String c "")).
  by rewrite sapp_assoc.
Qed.

Lemma srev_cons c s : PyStr.srev (String c s) = PyStr.srev s ++ String c "".
Proof. unfold PyStr.srev at 1. cbn [PyStr.rev_onto]. apply rev_onto_app. Qed.

Lemma srev_app a b : PyStr.srev (a ++ b) = PyStr.srev b ++ PyStr.srev a.
Proof.
  induction a as [|c a IH].
  - by rewrite sapp_nil_l, sapp_nil_r.
  - by rewrite sapp_cons, !srev_cons, IH, sapp_assoc.
Qed.

Lemma srev_involutive s : PyStr.srev (PyStr.srev s) = s.
Proof.
  induction s as [|c s IH]; [done|].
  by rewrite srev_cons, srev_app, IH.
Qed.

Lemma lstrip_head_ok s : head_ok (PyStr.lstrip s) = true.
Proof.
  induction s as [|c s IH]; [done|]. cbn [PyStr.lstrip].
  destruct (PyStr.is_space c) eqn:E; [done|]. cbn [head_ok]. by rewrite E.
Qed.

Lemma lstrip_fixed s : head_ok s = true -> PyStr.lstrip s = s.
Proof.
  destruct s as [|c s]; [done|]. cbn [head_ok PyStr.lstrip].
  by destruct (PyStr.is_space c).
Qed.

Lemma lstrip_keeps_last x c :
  PyStr.is_space c = false ->
  exists y, PyStr.lstrip (x ++ String c "") = y ++ String c "".
Proof.
  intros Hc. induction x as [|d x IH].
  - exists "". rewrite sapp_nil_l. cbn [PyStr.lstrip]. by rewrite Hc.
  - rewrite sapp_cons. cbn [PyStr.lstrip]. destruct (PyStr.is_space d); [done|].
    by exists (String d x).
Qed.

Lemma rstrip_head_ok s : head_ok s = true -> head_ok (PyStr.rstrip s) = true.
Proof.
  destruct s as [|c s]; [done|]. cbn [head_ok]. intros Hc%negb_true_iff.
  unfold PyStr.rstrip. rewrite srev_cons.
  destruct (lstrip_keeps_last (PyStr.srev s) c Hc) as [y ->].
  rewrite srev_app. change (PyStr.srev (String c "")) with (String c "").
  rewrite sapp_cons. cbn [head_ok]. by rewrite Hc.
Qed.

Lemma rstrip_idem s : PyStr.rstrip (PyStr.rstrip s) = PyStr.rstrip s.
Proof.
  unfold PyStr.rstrip. rewrite srev_involutive.
  by rewrite (lstrip_fixed _ (lstrip_head_ok _)).
Qed.

(** [strip] gives a string that [strip] leaves alone. *)
Lemma strip_idem s : PyStr.strip (PyStr.strip s) = PyStr.strip s.
Proof.
  unfold PyStr.strip.
  rewrite (lstrip_fixed (PyStr.rstrip (PyStr.lstrip s))).
  - apply rstrip_idem.
  - apply rstrip_head_ok, lstrip_head_ok.
Qed.

(** Normalising a normalised office: either the office is one of the fixed
    names, or it is the stripped input, for which the same tests hold. *)
Ltac normalize_twice norm :=
  let r := fresh "r" in let Er := fresh "Er" in
  intros x; remember (norm x) as r eqn:Er;
  unfold norm in Er; cbv zeta in Er;
  repeat match type of Er with
    | context [if ?b then _ else _] => destruct b eqn:?
    end;
  subst r;
  lazymatch goal with
  | |- norm (PyStr.strip _) = _ =>
      unfold norm; cbv zeta; rewrite strip_idem;
      repeat match goal with H : _ = true |- _ => rewrite H; clear H end;
      repeat match goal with H : _ = false |- _ => rewrite H; clear H end;
      reflexivity
  | |- _ => vm_compute; reflexivity
  end.

Lemma collin_normalize_idem :
  forall x, Collin.normalize_office_name (Collin.normalize_office_name x)
            = Collin.normalize_office_name x.
Proof. normalize_twice Collin.normalize_office_name. Qed.

Lemma electionware_normalize_idem :
  forall x, Electionware.normalize_office_name (Electionware.normalize_office_name x)
            = Electionware.normalize_office_name x.
Proof. normalize_twice Electionware.normalize_office_name. Qed.

Lemma fort_bend_normalize_idem :
  forall x, FortBend.normalize_office_name (FortBend.normalize_office_name x)
            = FortBend.normalize_office_name x.
Proof. normalize_twice FortBend.normalize_office_name. Qed.

Lemma greenbox_normalize_idem :
  forall x, Greenbox.normalize_office_name (Greenbox.normalize_office_name x)
            = Greenbox.normalize_office_name x.
Proof. normalize_twice Greenbox.normalize_office_name. Qed.

(** X7.  [normalize_office_name] is idempotent in each of the four PDF
    parsers: a canonical office name is mapped to itself, so normalising an
    already normalised office changes nothing. *)
Theorem normalize_office_name_idempotent (x : string) :
  Collin.normalize_office_name (Collin.normalize_office_name x)
  = Collin.normalize_office_name x
  /\ Electionware.normalize_office_name (Electionware.normalize_office_name x)
     = Electionware.normalize_office_name x
  /\ FortBend.normalize_office_name (FortBend.normalize_office_name x)
     = FortBend.normalize_office_name x
  /\ Greenbox.normalize_office_name (Greenbox.normalize_office_name x)
     = Greenbox.normalize_office_name x.
Proof.
  split; [apply collin_normalize_idem|].
  split; [apply electionware_normalize_idem|].
  split; [apply fort_bend_normalize_idem | apply greenbox_normalize_idem].
Qed.

(** ** Greenbox: the statistics of a precinct *)

Lemma counted_once_other data added r :
  (forall prec, is_registered prec r = false) ->
  counted_once data added -> counted_once (data ++ [r]) added.
Proof.
  intros Hr H prec. by rewrite count_registered_app, Hr, Nat.add_0_r.
Qed.

Lemma counted_once_pair data added cnty p n b :
  p ∉ added -> counted_once data added ->
  counted_once
    (data ++ [Tabular.mkRecord cnty p "Registered Voters" "" "" "" n
                Tabular.CEmpty Tabular.CEmpty Tabular.CEmpty;
              Tabular.mkRecord cnty p "Ballots Cast" "" "" "" b
                Tabular.CEmpty Tabular.CEmpty Tabular.CEmpty])
    (added ∪ {[ p ]}).
Proof.
  intros Hp H prec. specialize (H prec).
  change (data ++ [?x; ?y])%list with (data ++ [x] ++ [y])%list.
  rewrite app_assoc, !count_registered_app, H.
  unfold is_registered. cbn [Tabular.absentee Tabular.precinct Tabular.office].
  rewrite String.eqb_refl, andb_true_r.
  replace ("Ballots Cast" =? "Registered Voters")%string with false by done.
  rewrite andb_false_r.
  destruct (String.eqb_spec p prec) as [->|Hne].
  - rewrite bool_decide_eq_false_2 by done.
    rewrite bool_decide_eq_true_2 by set_solver. done.
  - destruct (decide (prec ∈ added)).
    + rewrite !bool_decide_eq_true_2 by set_solver. done.
    + rewrite !bool_decide_eq_false_2 by set_solver. done.
Qed.

Lemma greenbox_step_counted cnty st raw :
  counted_once (Greenbox.data st) (Greenbox.precinct_added st) ->
  counted_once (Greenbox.data (Greenbox.step cnty st raw))
               (Greenbox.precinct_added (Greenbox.step cnty st raw)).
Proof.
  intros H.
  unfold Greenbox.step, Greenbox.precinct_line, Greenbox.office_header,
    Greenbox.candidate_line, Greenbox.over_under, Greenbox.append.
  branch_all;
    first [ exact H
          | apply counted_once_other; [intros ?; reflexivity|exact H]
          | apply counted_once_pair; [|exact H];
            match goal with
            | E : bool_decide _ = false |- _ => apply bool_decide_eq_false_1 in E; exact E
            end ].
Qed.

(** X8.  Greenbox records the registered voters of a precinct once: however
    often the summary line of a precinct occurs in the text, the records
    hold at most one registered-voters record for it. *)
Theorem greenbox_registered_once (text cnty prec : string) :
  (count_registered prec (Greenbox.parse_election_data text cnty) <= 1)%nat.
Proof.
  unfold Greenbox.parse_election_data, Greenbox.run.
  assert (H : counted_once
                (Greenbox.data (fold_left (Greenbox.step cnty)
                   (PyStr.split text (String "010" "")) Greenbox.init))
                (Greenbox.precinct_added (fold_left (Greenbox.step cnty)
                   (PyStr.split text (String "010" "")) Greenbox.init))).
  { apply (fold_left_invariant
             (fun st => counted_once (Greenbox.data st) (Greenbox.precinct_added st))).
    - intros st raw. apply greenbox_step_counted.
    - intros p. cbn. rewrite bool_decide_eq_false_2 by set_solver. done. }
  rewrite (H prec). case_match; lia.
Qed.

(** ** The header of the precinct file *)

Lemma string_leb_total a b : String.leb a b = false -> String.leb b a = true.
Proof.
  unfold String.leb. rewrite (String.compare_antisym a b).
  by destruct (String.compare b a).
Qed.

(** X9.  The method columns of the header are in ascending order and are,
    up to order, the column names of the vote types seen: sorting neither
    drops nor merges a column. *)
Theorem vote_type_headers_sorted (vote_types : gset string) :
  Sorted (holds String.leb) (Clarity.vote_type_headers vote_types)
  /\ Permutation (map Clarity.column_name (elements vote_types))
                 (Clarity.vote_type_headers vote_types).
Proof.
  unfold Clarity.vote_type_headers. split.
  - apply stable_sort_Sorted, string_leb_total.
  - apply stable_sort_perm.
Qed.

(** ** The party of a candidate text *)

Lemma contains_find s sub i :
  PyStr.contains s sub = true -> is_Some (PyStr.find_from i s sub).
Proof.
  revert i. induction s as [|c s IH]; intros i.
  - rewrite contains_nil. cbn [PyStr.find_from]. intros ->. by eexists.
  - rewrite contains_cons. cbn [PyStr.find_from].
    destruct (String.prefix sub (String c s)); [by eexists|]. apply IH.
Qed.

(** X10.  [parse_candidate_party] gives no party exactly when the stripped
    text holds no opening parenthesis: with a parenthesis the split always
    yields two parts, so the fallback for a failed unpacking is never
    taken. *)
Theorem party_missing_only_without_parenthesis (t : string) :
  snd (Clarity.parse_candidate_party t) = None
  <-> PyStr.contains (PyStr.strip t) "(" = false.
Proof.
  unfold Clarity.parse_candidate_party. cbv zeta.
  destruct (PyStr.contains (PyStr.strip t) "(") eqn:Ep; [|done].
  destruct (PyStr.contains (PyStr.strip t) "(I)"); [by repeat case_match|].
  unfold PyStr.split1, PyStr.find.
  destruct (contains_find _ _ 0 Ep) as [i ->]. done.
Qed.

(** ** The fallback tally of registered voters *)

Lemma tally_get_add_eq n v t :
  tally_get n (Clarity.tally_add n v t) = (tally_get n t + v)%Z.
Proof.
  induction t as [|[m w] t IH]; cbn [Clarity.tally_add tally_get].
  - by rewrite String.eqb_refl.
  - destruct (String.eqb m n) eqn:E; cbn [tally_get]; rewrite E; [done|apply IH].
Qed.

Lemma tally_get_add_ne n m v t :
  n <> m -> tally_get m (Clarity.tally_add n v t) = tally_get m t.
Proof.
  intros Hne. induction t as [|[k w] t IH]; cbn [Clarity.tally_add tally_get].
  - apply String.eqb_neq in Hne. by rewrite Hne.
  - destruct (String.eqb k n) eqn:E; cbn [tally_get]; [|by rewrite IH].
    apply String.eqb_eq in E. subst k.
    apply String.eqb_neq in Hne. by rewrite Hne.
Qed.

Lemma tally_add_names n v t :
  map fst (Clarity.tally_add n v t)
  = if bool_decide (n ∈ map fst t) then map fst t else (map fst t ++ [n])%list.
Proof.
  induction t as [|[m w] t IH]; cbn [Clarity.tally_add map fst app]; [done|].
  destruct (String.eqb_spec m n) as [->|Hne]; cbn [map fst].
  - rewrite bool_decide_eq_true_2; [done|]. apply list_elem_of_here.
  - rewrite IH. destruct (decide (n ∈ map fst t)) as [Hin|Hin].
    + rewrite !bool_decide_eq_true_2; [done| |done]. by apply list_elem_of_further.
    + rewrite !bool_decide_eq_false_2; [done| |done].
      intros [?|?]%elem_of_cons; [congruence|done].
Qed.

Lemma tally_add_NoDup n v t :
  NoDup (map fst t) -> NoDup (map fst (Clarity.tally_add n v t)).
Proof.
  intros H. rewrite tally_add_names. case_bool_decide as E; [done|].
  apply NoDup_app. split; [done|]. split.
  - intros x Hx ->%list_elem_of_singleton. done.
  - apply NoDup_singleton.
Qed.

(** X11.  The tally the exception handler of [add_voter_turnout_rows]
    builds has one entry per precinct, and the entry of a precinct is the
    sum of the votes of its [regVotersCounty] results. *)
Theorem reg_voters_tally_sums (rs : list Clarity.result) (name : string) :
  NoDup (map fst (Clarity.reg_voters_data rs))
  /\ tally_get name (Clarity.reg_voters_data rs) = registered_in name rs.
Proof.
  unfold Clarity.reg_voters_data.
  set (f := fun (tally : list (string * Z)) (r : Clarity.result) => _).
  assert (G : forall rs t,
             NoDup (map fst t) ->
             NoDup (map fst (fold_left f rs t))
             /\ tally_get name (fold_left f rs t)
                = (tally_get name t + registered_in name rs)%Z).
  { clear rs. induction rs as [|r rs IH]; intros t Ht; cbn [fold_left registered_in foldr].
    - split; [done|lia].
    - assert (Hs : NoDup (map fst (f t r))
                   /\ tally_get name (f t r)
                      = (tally_get name t
                         + (if String.eqb (Clarity.vote_type r) "regVotersCounty"
                               && bool_decide (Clarity.jurisdiction r = Some name)
                               && PyStr.nonempty name
                            then Clarity.res_votes r else 0))%Z).
      { unfold f. destruct (Clarity.jurisdiction r) as [n|].
        - destruct (String.eqb (Clarity.vote_type r) "regVotersCounty");
            cbn [andb]; [|split; [done|lia]].
          destruct (decide (n = name)) as [->|Hne].
          + rewrite bool_decide_eq_true_2 by done. cbn [andb].
            destruct (PyStr.nonempty name); cbn [andb]; [|split; [done|lia]].
            destruct (Z.eqb_spec (Clarity.res_votes r) 0) as [E|E]; cbn [negb].
            * split; [done|]. rewrite E. lia.
            * split; [by apply tally_add_NoDup|apply tally_get_add_eq].
          + rewrite bool_decide_eq_false_2 by congruence. cbn [andb].
            destruct (_ && _); [|split; [done|lia]].
            split; [by apply tally_add_NoDup|].
            rewrite tally_get_add_ne by done. lia.
        - rewrite bool_decide_eq_false_2 by done. rewrite andb_false_r. cbn [andb].
          split; [done|lia]. }
      destruct Hs as [Hs1 Hs2]. destruct (IH (f t r) Hs1) as [I1 I2].
      split; [done|]. rewrite I2, Hs2. fold (registered_in name rs).
      destruct (_ && _ && _); lia. }
  destruct (G rs [] (NoDup_nil_2 (A := string))) as [G1 G2]. split; [done|].
  rewrite G2. done.
Qed.

(** ** Every row has every column *)

Lemma fold_columns_keep k vd vts (acc : Clarity.row) c :
  is_Some (acc !! c) ->
  is_Some (fold_left (fun rd vt =>
                        if String.eqb vt "votes_only" then rd
                        else <[Clarity.column_name vt := Clarity.column_value k vd vt]> rd)
                     vts acc !! c).
Proof.
  revert acc. induction vts as [|a vts IH]; intros acc Hc; [done|].
  cbn [fold_left]. apply IH. destruct (String.eqb a "votes_only"); [done|].
  destruct (decide (Clarity.column_name a = c)) as [<-|Hne].
  - rewrite (lookup_insert_eq acc). by eexists.
  - by rewrite (lookup_insert_ne acc).
Qed.

Lemma row_data_has_column vts k vd vt :
  vt ∈ vts -> vt <> "votes_only" ->
  is_Some (Clarity.row_data vts k vd !! Clarity.column_name vt).
Proof.
  unfold Clarity.row_data. generalize (Clarity.base_row k vd) as acc.
  induction vts as [|a vts IH]; intros acc Hin Hne.
  - by apply elem_of_nil in Hin.
  - cbn [fold_left]. apply elem_of_cons in Hin as [->|Hin]; [|by apply IH].
    apply fold_columns_keep. apply String.eqb_neq in Hne. rewrite Hne.
    rewrite (lookup_insert_eq acc). by eexists.
Qed.

Lemma row_data_has_base vts k vd h :
  h ∈ Clarity.base_headers -> is_Some (Clarity.row_data vts k vd !! h).
Proof.
  intros Hh. apply fold_columns_keep.
  destruct (base_row_lookup k vd) as (H1 & H2 & H3 & H4 & H5 & H6 & H7).
  unfold Clarity.base_headers in Hh.
  repeat (apply elem_of_cons in Hh as [->|Hh]; [by eexists|]).
  by apply elem_of_nil in Hh.
Qed.

(** X12.  The rows are rectangular: every row built for the store has a
    value under each of the seven base headers and under the column of each
    vote type seen, so the default of the CSV writer is used for no column
    but that of the marker [votes_only]. *)
Theorem rows_have_every_column county_name region rs turnout :
  Forall (fun x =>
            Forall (has_column x)
                   (Clarity.base_headers
                    ++ Clarity.vote_type_headers (snd (scan county_name region rs))))
         (Clarity.output_rows (snd (scan county_name region rs))
                              (final_store county_name region rs turnout)).
Proof.
  unfold Clarity.output_rows. apply Forall_map, Forall_forall.
  intros [k vd] _. apply Forall_app. split; apply Forall_forall; intros h Hh.
  - right. by apply row_data_has_base.
  - unfold Clarity.vote_type_headers in Hh.
    rewrite <- (stable_sort_perm String.leb) in Hh.
    apply list_elem_of_fmap in Hh as (vt & -> & Hvt).
    destruct (decide (vt = "votes_only")) as [->|Hne]; [by left|].
    right. by apply row_data_has_column.
Qed.

(** ** Statewide rows *)

Lemma same_identity_spec c o d p ca (x : Clarity.srow) :
  Clarity.same_identity c o d p ca x = true
  <-> identity x = [Some c; Some o; Some d; Some p; Some ca].
Proof.
  unfold Clarity.same_identity, identity, identity_fields. cbn [map].
  rewrite !andb_true_iff, !bool_decide_eq_true. split.
  - intros [[[[-> ->] ->] ->] ->]. done.
  - intros [= -> -> -> -> ->]. done.
Qed.

Lemma identity_insert vt v (x : Clarity.srow) :
  vt ∉ identity_fields -> identity (<[vt := v]> x) = identity x.
Proof.
  intros Hvt. unfold identity. apply map_ext_in. intros f Hf.
  apply lookup_insert_ne. intros ->. by apply Hvt, list_elem_of_In.
Qed.

Lemma set_first_identities same vt v rows rows' :
  vt ∉ identity_fields ->
  Clarity.set_first same vt v rows = Some rows' ->
  map identity rows' = map identity rows.
Proof.
  intros Hvt. revert rows'. induction rows as [|x rows IH]; intros rows'; [done|].
  cbn [Clarity.set_first]. destruct (same x).
  - intros [= <-]. cbn [map]. by rewrite identity_insert.
  - destruct (Clarity.set_first same vt v rows) as [r|]; [|done].
    intros [= <-]. cbn [map]. by rewrite (IH r).
Qed.

Lemma set_first_none same vt v rows :
  Clarity.set_first same vt v rows = None -> Forall (fun x => same x = false) rows.
Proof.
  induction rows as [|x rows IH]; [by constructor|].
  cbn [Clarity.set_first]. destruct (same x) eqn:E; [done|].
  destruct (Clarity.set_first same vt v rows); [done|]. intros _. by constructor; [|apply IH].
Qed.

Lemma statewide_ingest_NoDup rows r rows' :
  Clarity.vote_type r ∉ identity_fields ->
  Clarity.statewide_ingest rows r = Some rows' ->
  NoDup (map identity rows) ->
  NoDup (map identity rows') /\ (length rows' <= length rows + 1)%nat.
Proof.
  intros Hvt. unfold Clarity.statewide_ingest.
  destruct (Clarity.parse_office _) as [office district].
  destruct (match Clarity.res_choice r with Some _ => _ | None => _ end)
    as [[candidate party]|]; [|done].
  destruct (Clarity.set_first _ _ _ rows) as [r1|] eqn:E.
  - intros [= <-] Hnd. rewrite (set_first_identities _ _ _ _ _ Hvt E). split; [done|].
    rewrite <- (length_map identity), (set_first_identities _ _ _ _ _ Hvt E), length_map.
    lia.
  - intros [= <-] Hnd. apply set_first_none in E.
    rewrite map_app, length_app. cbn [map length]. split; [|lia].
    rewrite identity_insert by done.
    apply NoDup_app. split; [done|]. split; [|apply NoDup_singleton].
    intros i Hi ->%list_elem_of_singleton.
    apply list_elem_of_fmap in Hi as (x & Hx & Hin).
    rewrite Forall_forall in E. specialize (E x Hin).
    assert (Clarity.same_identity (Clarity.of_opt (Clarity.jurisdiction r))
              (Clarity.VStr office) (Clarity.of_opt district) (Clarity.of_opt party)
              (Clarity.VStr candidate) x = true); [|congruence].
    apply same_identity_spec. rewrite <- Hx. unfold identity, identity_fields.
    cbn [map]. by simplify_map_eq.
Qed.

(** X13.  [statewide_results] keeps one row per candidate of a contest in a
    county: no two rows agree on county, office, district, party and
    candidate, and there are at most as many rows as results.  (No vote
    type may be named like one of these five fields, which it would
    overwrite.) *)
Theorem statewide_one_row_per_identity (rs : list Clarity.result)
  (rows : list Clarity.srow)
  (Hvt : Forall (fun r => Clarity.vote_type r ∉ identity_fields) rs)
  (Hrows : Clarity.statewide_rows [] rs = Some rows) :
  NoDup (map identity rows) /\ (length rows <= length rs)%nat.
Proof.
  assert (G : forall rs rows0 rows,
             Forall (fun r => Clarity.vote_type r ∉ identity_fields) rs ->
             Clarity.statewide_rows rows0 rs = Some rows ->
             NoDup (map identity rows0) ->
             NoDup (map identity rows) /\ (length rows <= length rows0 + length rs)%nat).
  { clear. induction rs as [|r rs IH]; intros rows0 rows Hvt; cbn [Clarity.statewide_rows].
    - intros [= <-] Hnd. split; [done|]. cbn [length]. lia.
    - apply Forall_cons in Hvt as [Hr Hvt].
      destruct (Clarity.statewide_ingest rows0 r) as [rows1|] eqn:E; [|done].
      intros Hrows Hnd.
      destruct (statewide_ingest_NoDup _ _ _ Hr E Hnd) as [H1 H2].
      destruct (IH _ _ Hvt Hrows H1) as [H3 H4]. split; [done|]. cbn [length]. lia. }
  destruct (G rs [] rows Hvt Hrows (NoDup_nil_2 (A := list (option Clarity.cell))))
    as [H1 H2].
  split; [done|]. cbn [length] in H2. lia.
Qed.

Lemma statewide_one_row_per_identity_witness :
  match Clarity.statewide_rows [] statewide_sample with
  | Some rows => NoDup (map identity rows) /\ (length rows <= 2)%nat
  | None => False
  end.
Proof.
  assert (Hs : is_Some (Clarity.statewide_rows [] statewide_sample))
    by (apply (bool_decide_unpack _); vm_compute; reflexivity).
  destruct Hs as [rows Hrows]. rewrite Hrows.
  apply (statewide_one_row_per_identity statewide_sample rows); [|exact Hrows].
  apply (bool_decide_unpack _). vm_compute. reflexivity.
Defined.

(** ** Offices of the records *)

Ltac canonical_goal H idem :=
  first
    [ exact H
    | apply Forall_app; split; [exact H|];
      repeat constructor; unfold canonical; proj_simpl;
      cbn [Tabular.office Collin.office];
      lazymatch goal with
      | |- ?n (?n _) = _ => apply idem
      | |- _ => vm_compute; reflexivity
      end ].

Lemma electionware_step_canonical cnty st raw :
  Forall (fun r => canonical Electionware.normalize_office_name (Tabular.office r))
         (Electionware.data st) ->
  Forall (fun r => canonical Electionware.normalize_office_name (Tabular.office r))
         (Electionware.data (Electionware.step cnty st raw)).
Proof.
  intros Hd.
  unfold Electionware.step, Electionware.registered_line, Electionware.ballots_line,
    Electionware.over_under, Electionware.contest_line, Electionware.add_flag,
    Electionware.append, Electionware.stat_record.
  branch_all; canonical_goal Hd electionware_normalize_idem.
Qed.

Lemma fort_bend_step_canonical cnty st raw :
  Forall (fun r => canonical FortBend.normalize_office_name (Tabular.office r))
         (FortBend.data st) ->
  Forall (fun r => canonical FortBend.normalize_office_name (Tabular.office r))
         (FortBend.data (FortBend.step cnty st raw)).
Proof.
  intros Hd.
  unfold FortBend.step, FortBend.registered_line, FortBend.ballots_line,
    FortBend.over_under, FortBend.write_in_totals, FortBend.candidate_line,
    FortBend.add_flag, FortBend.append, FortBend.fb_record.
  branch_all; canonical_goal Hd fort_bend_normalize_idem.
Qed.

Lemma greenbox_step_canonical cnty st raw :
  Forall (fun r => canonical Greenbox.normalize_office_name (Tabular.office r))
         (Greenbox.data st) ->
  Forall (fun r => canonical Greenbox.normalize_office_name (Tabular.office r))
         (Greenbox.data (Greenbox.step cnty st raw)).
Proof.
  intros Hd.
  unfold Greenbox.step, Greenbox.precinct_line, Greenbox.office_header,
    Greenbox.candidate_line, Greenbox.over_under, Greenbox.append.
  branch_all; canonical_goal Hd greenbox_normalize_idem.
Qed.

Lemma collin_fallback_office cnty prec off dist :
  (forall cs numbers r,
      Collin.simple_fallback cnty prec off dist cs numbers = Some r ->
      Collin.office r = Collin.normalize_office_name off)
  /\ (forall line r,
        Collin.pct_fallback cnty prec off dist line = Some r ->
        Collin.office r = Collin.normalize_office_name off).
Proof.
  split.
  - intros cs numbers r. unfold Collin.simple_fallback.
    repeat case_match; intros; by simplify_eq.
  - intros line r. unfold Collin.pct_fallback.
    repeat case_match; intros; by simplify_eq.
Qed.

Lemma collin_candidate_line_office cnty prec off st line :
  Collin.candidate_line cnty prec off st line = st
  \/ exists r, Collin.candidate_line cnty prec off st line = Collin.append st r
               /\ Collin.office r = Collin.normalize_office_name off.
Proof.
  destruct (collin_fallback_office cnty prec off (Collin.cur_district st)) as [Hs Hf].
  unfold Collin.candidate_line.
  destruct (if Tabular.startswith_any _ _ && _ then _ else _) as [r|] eqn:E.
  - right. exists r. split; [done|]. revert E.
    repeat case_match; intros; simplify_eq; first [by eapply Hs | by eapply Hf].
  - unfold Collin.strict_line.
    repeat case_match; first [by left | right; by eexists].
Qed.

Lemma collin_step_canonical cnty st raw :
  Forall (fun r => canonical Collin.normalize_office_name (Collin.office r))
         (Collin.data st) ->
  Forall (fun r => canonical Collin.normalize_office_name (Collin.office r))
         (Collin.data (Collin.step cnty st raw)).
Proof.
  intros Hd. unfold Collin.step.
  destruct (negb _); [done|].
  destruct (if PyStr.startswith _ _ then _ else _); [done|].
  destruct (Collin.current_precinct st) as [prec|]; [|done].
  destruct (_ && _); [done|].
  destruct (Collin.current_office st) as [off|]; [|done].
  destruct (Tabular.any_in _ Collin.skip_terms); [done|].
  assert (Over : forall cand,
             Forall (fun r => canonical Collin.normalize_office_name (Collin.office r))
                    (Collin.data (Collin.over_under cand cnty prec off st
                                    (PyStr.strip raw)))).
  { intros cand. unfold Collin.over_under, Collin.append.
    repeat case_match; proj_simpl; try done.
    apply Forall_app; split; [done|]. repeat constructor.
    apply collin_normalize_idem. }
  destruct (_ && _); [apply Over|].
  destruct (_ && _); [apply Over|].
  destruct (collin_candidate_line_office cnty prec off st (PyStr.strip raw))
    as [->|(r & -> & Hr)]; [done|].
  unfold Collin.append. proj_simpl.
  apply Forall_app. split; [done|]. repeat constructor.
  unfold canonical. rewrite Hr. apply collin_normalize_idem.
Qed.

(** X14.  The office of every record of the four PDF parsers is in
    canonical form: it is a name that the parser's [normalize_office_name]
    maps to itself, whether it comes from an office header or is one of
    the statistics labels. *)
Theorem offices_are_canonical (text cnty : string) :
  Forall (fun r => canonical Electionware.normalize_office_name (Tabular.office r))
         (Electionware.parse_election_data text cnty)
  /\ Forall (fun r => canonical FortBend.normalize_office_name (Tabular.office r))
            (FortBend.parse_election_data text cnty)
  /\ Forall (fun r => canonical Greenbox.normalize_office_name (Tabular.office r))
            (Greenbox.parse_election_data text cnty)
  /\ Forall (fun r => canonical Collin.normalize_office_name (Collin.office r))
            (Collin.parse_election_data text cnty).
Proof.
  repeat split.
  - apply (fold_left_invariant
             (fun st => Forall (fun r => canonical Electionware.normalize_office_name
                                           (Tabular.office r)) (Electionware.data st))).
    + intros s l. apply electionware_step_canonical.
    + constructor.
  - apply (fold_left_invariant
             (fun st => Forall (fun r => canonical FortBend.normalize_office_name
                                           (Tabular.office r)) (FortBend.data st))).
    + intros s l. apply fort_bend_step_canonical.
    + constructor.
  - apply (fold_left_invariant
             (fun st => Forall (fun r => canonical Greenbox.normalize_office_name
                                           (Tabular.office r)) (Greenbox.data st))).
    + intros s l. apply greenbox_step_canonical.
    + constructor.
  - apply (fold_left_invariant
             (fun st => Forall (fun r => canonical Collin.normalize_office_name
                                           (Collin.office r)) (Collin.data st))).
    + intros s l. apply collin_step_canonical.
    + constructor.
Qed.

(** ** A result reported twice *)

Lemma store_set_twice k vt v v' (st : Clarity.store) :
  Clarity.store_set k vt v' (Clarity.store_set k vt v st) = Clarity.store_set k vt v' st.
Proof.
  induction st as [|[k' p] st IH]; cbn [Clarity.store_set].
  - rewrite decide_True by done. by rewrite insert_singleton_eq.
  - destruct (decide (k = k')) as [->|Hne]; cbn [Clarity.store_set].
    + rewrite decide_True by done. by rewrite insert_insert_eq.
    + rewrite decide_False by done. by rewrite IH.
Qed.

(** X15.  Votes are stored, not added: when a result is followed by the
    same result with another count, the store and the vote types are those
    of the second result alone. *)
Theorem repeated_result_overwrites county_name region acc (r : Clarity.result) (v : Z) :
  Clarity.ingest county_name region (Clarity.ingest county_name region acc r)
                 (with_votes r v)
  = Clarity.ingest county_name region acc (with_votes r v).
Proof.
  destruct acc as [st vts]. unfold Clarity.ingest, with_votes.
  cbn [Clarity.vote_type Clarity.res_choice Clarity.contest_text Clarity.jurisdiction
       Clarity.res_votes].
  repeat case_match; simplify_eq; try done;
    rewrite ?store_set_twice; f_equal; set_solver.
Qed.

(** ** Names without surrounding blanks *)

Ltac stripped_goal :=
  unfold stripped;
  lazymatch goal with
  | |- PyStr.strip (PyStr.strip _) = _ => apply strip_idem
  | |- True => exact I
  | |- _ => vm_compute; reflexivity
  end.

(** X16.  The office and the district that [parse_office] returns and the
    name that [clean_candidate_name] returns carry no leading or trailing
    blank. *)
Theorem parsed_names_are_stripped (t : string) :
  stripped (fst (Clarity.parse_office t))
  /\ match snd (Clarity.parse_office t) with
     | Some d => stripped d
     | None => True
     end
  /\ stripped (Clarity.clean_candidate_name t).
Proof.
  split; [|split].
  - unfold Clarity.parse_office. cbv zeta.
    repeat case_match; cbn [fst]; stripped_goal.
  - unfold Clarity.parse_office, Clarity.district_after. cbv zeta.
    repeat case_match; simplify_eq; cbn [snd] in *; simplify_eq;
      repeat case_match; stripped_goal.
  - destruct t as [|a t]; [vm_compute; reflexivity|].
    unfold Clarity.clean_candidate_name, Clarity.party_name_prefixes.
    cbn [PyStr.nonempty negb Clarity.strip_first_prefix].
    repeat case_match; stripped_goal.
Qed.

(** ** What the groups of a match hold *)

Lemma caps_from_refl ci r cs : caps_from ci r cs cs.
Proof. by exists []. Qed.

Lemma caps_from_mono ci r r' cs0 cs :
  (forall g, has_grp g r -> has_grp g r') ->
  caps_from ci r cs0 cs -> caps_from ci r' cs0 cs.
Proof.
  intros Hsub (new & -> & HF). exists new. split; [done|].
  eapply Forall_impl; [exact HF|]. intros nv (g & Hg & HL). exists g. by split; [apply Hsub|].
Qed.

Lemma caps_from_trans ci r cs0 cs1 cs2 :
  caps_from ci r cs0 cs1 -> caps_from ci r cs1 cs2 -> caps_from ci r cs0 cs2.
Proof.
  intros (n1 & -> & H1) (n2 & -> & H2). exists (n2 ++ n1)%list.
  split; [by rewrite app_assoc|]. by apply Forall_app.
Qed.

Section GroupSoundness.
Variable ci : bool.
Context {A : Type}.
Abbreviation groups_at' := (@groups_at ci A).

Lemma star_loop_groups (g : bool) (r : Re.re) :
    (forall s pos cs k x, Re.m ci r s pos cs k = Some x -> groups_at' r s pos cs k x) ->
    forall fuel s pos cs k x,
      Re.star_loop (Re.m ci r) g k fuel s pos cs = Some x ->
      groups_at' (Re.Star g r) s pos cs k x.
  Proof.
    intros Hr. induction fuel as [|f IH]; intros s pos cs k x H; [done|].
    cbn [Re.star_loop] in H.
    assert (Again : Re.m ci r s pos cs
                      (fun s' pos' cs' =>
                         if (pos <? pos')%nat
                         then Re.star_loop (Re.m ci r) g k f s' pos' cs' else None)
                    = Some x -> groups_at' (Re.Star g r) s pos cs k x).
    { intros Ha. apply Hr in Ha as (s1 & s2 & cs1 & -> & HL & Hc & Hk).
      destruct (pos <? pos + String.length s1)%nat; [|done].
      apply IH in Hk as (t1 & t2 & cs2 & -> & HL2 & Hc2 & Hk2).
      exists (s1 ++ t1), t2, cs2. rewrite sapp_assoc, slength_app, Nat.add_assoc.
      split; [done|]. split; [by constructor|]. split; [|done].
      eapply caps_from_trans; [|exact Hc2].
      eapply caps_from_mono; [|exact Hc]. intros g0. apply hg_star. }
    assert (Stop : k s pos cs = Some x -> groups_at' (Re.Star g r) s pos cs k x).
    { intros Hk. exists "", s, cs. rewrite Nat.add_0_r.
      split; [done|]. split; [constructor|]. split; [apply caps_from_refl|done]. }
    destruct g.
    - destruct (Re.m ci r s pos cs _) eqn:E; [|by apply Stop].
      simplify_eq. by apply Again.
    - destruct (k s pos cs) eqn:E; [by apply Stop|]. by apply Again.
  Qed.

Lemma m_groups (r : Re.re) :
    forall s pos cs k x, Re.m ci r s pos cs k = Some x -> groups_at' r s pos cs k x.
  Proof.
    induction r as [|c|p|r1 IH1 r2 IH2|r1 IH1 r2 IH2|g r IH|n r IH| |];
      intros s pos cs k x H; cbn [Re.m] in H.
    - exists "", s, cs. rewrite Nat.add_0_r.
      split; [done|]. split; [constructor|]. split; [apply caps_from_refl|done].
    - destruct s as [|a s]; [done|]. destruct (Re.chr_ok ci c a) eqn:E; [|done].
      exists (String a ""), s, cs. cbn [String.length]. rewrite Nat.add_1_r.
      split; [done|]. split; [by constructor|]. split; [apply caps_from_refl|done].
    - destruct s as [|a s]; [done|]. destruct (Re.cls_ok ci p a) eqn:E; [|done].
      exists (String a ""), s, cs. cbn [String.length]. rewrite Nat.add_1_r.
      split; [done|]. split; [by constructor|]. split; [apply caps_from_refl|done].
    - apply IH1 in H as (s1 & s2 & cs1 & -> & HL1 & Hc1 & Hk).
      apply IH2 in Hk as (t1 & t2 & cs2 & -> & HL2 & Hc2 & Hk2).
      exists (s1 ++ t1), t2, cs2. rewrite sapp_assoc, slength_app, Nat.add_assoc.
      split; [done|]. split; [by constructor|]. split; [|done].
      eapply caps_from_trans.
      + eapply caps_from_mono; [|exact Hc1]. intros g0. apply hg_seq_l.
      + eapply caps_from_mono; [|exact Hc2]. intros g0. apply hg_seq_r.
    - destruct (Re.m ci r1 s pos cs k) eqn:E.
      + simplify_eq. apply IH1 in E as (s1 & s2 & cs1 & -> & HL & Hc & Hk).
        exists s1, s2, cs1. split; [done|]. split; [by apply L_AltL|]. split; [|done].
        eapply caps_from_mono; [|exact Hc]. intros g0. apply hg_alt_l.
      + apply IH2 in H as (s1 & s2 & cs1 & -> & HL & Hc & Hk).
        exists s1, s2, cs1. split; [done|]. split; [by apply L_AltR|]. split; [|done].
        eapply caps_from_mono; [|exact Hc]. intros g0. apply hg_alt_r.
    - by apply star_loop_groups in H.
    - apply IH in H as (s1 & s2 & cs1 & -> & HL & Hc & Hk).
      rewrite Nat.add_comm, Nat.add_sub, take_app, Nat.add_comm in Hk.
      exists s1, s2, ((n, s1) :: cs1). split; [done|]. split; [by constructor|].
      split; [|done]. destruct Hc as (new & -> & HF). exists ((n, s1) :: new).
      split; [done|]. constructor.
      + exists r. split; [constructor|done].
      + eapply Forall_impl; [exact HF|]. intros nv (g0 & Hg & HLg).
        exists g0. split; [by apply hg_grp|done].
    - destruct (Nat.eqb pos 0); [|done]. exists "", s, cs. rewrite Nat.add_0_r.
      split; [done|]. split; [constructor|]. split; [apply caps_from_refl|done].
    - assert (k s pos cs = Some x) as Hk.
      { destruct s as [|a s]; [done|]. destruct s; [|by destruct a as [[] [] [] [] [] [] [] []]].
        by destruct a as [[] [] [] [] [] [] [] []]. }
      exists "", s, cs. rewrite Nat.add_0_r.
      split; [done|]. split; [constructor|]. split; [apply caps_from_refl|done].
  Qed.
End GroupSoundness.

Lemma search_groups (r : Re.re) (s : string) (cs : Re.caps) :
  Re.search r s = Some cs -> Forall (fun nv => captured false r (snd nv)) cs.
Proof.
  unfold Re.search. generalize 0%nat.
  assert (Here : forall s pos cs' e,
             Re.m false r s pos [] Re.finish = Some (cs', e) ->
             Forall (fun nv => captured false r (snd nv)) cs').
  { intros s0 pos cs' e E. apply m_groups in E as (s1 & s2 & cs1 & Hs & HL & Hc & Hk).
    unfold Re.finish in Hk. simplify_eq. destruct Hc as (new & -> & HF).
    by rewrite app_nil_r. }
  induction s as [|a s IH]; intros pos; cbn [Re.search_from].
  - destruct (Re.m false r "" pos [] Re.finish) as [[cs' e]|] eqn:E; [|done].
    intros [= <-]. by eapply Here.
  - destruct (Re.m false r (String a s) pos [] Re.finish) as [[cs' e]|] eqn:E.
    + intros [= <-]. by eapply Here.
    + apply IH.
Qed.

Lemma lit_no_grp g w : ~ has_grp g (Re.Lit w).
Proof.
  induction w as [|c w IH]; cbn [Re.Lit]; [by inversion 1|].
  destruct w as [|d w]; [by inversion 1|].
  inversion 1; subst; [by match goal with H : has_grp _ (Re.Chr _) |- _ => inversion H end|].
  by apply IH.
Qed.

Ltac grp_cases :=
  repeat match goal with
    | H : has_grp _ (Re.Lit _) |- _ => by apply lit_no_grp in H
    | H : has_grp _ (Re.Seq _ _) |- _ => inversion H; clear H; subst
    | H : has_grp _ (Re.Star _ _) |- _ => inversion H; clear H; subst
    | H : has_grp _ (Re.Grp _ _) |- _ => inversion H; clear H; subst
    | H : has_grp _ (Re.Cls _) |- _ => inversion H
    | H : has_grp _ (Re.Chr _) |- _ => inversion H
    end.

Lemma word_number_digit_groups w : digit_groups (Tabular.word_number w).
Proof.
  intros g H. unfold Tabular.word_number, Re.ws1, Re.ws, Re.Plus, Re.digit in *.
  cbn [Re.Seqs] in H. grp_cases; done.
Qed.

Lemma fort_bend_precinct_no_digit_groups : digit_groups FortBend.precinct_no.
Proof.
  intros g H. unfold FortBend.precinct_no, Re.ws1, Re.ws, Re.Plus, Re.digit in *.
  cbn [Re.Seqs] in H. grp_cases; done.
Qed.

Lemma collin_precinct_no_digit_groups : digit_groups Collin.precinct_no.
Proof.
  intros g H. unfold Collin.precinct_no, Re.ws1, Re.ws, Re.Plus, Re.digit in *.
  cbn [Re.Seqs] in H. grp_cases; done.
Qed.

Lemma greenbox_district_digit_groups : digit_groups Greenbox.district_pattern.
Proof.
  intros g H. unfold Greenbox.district_pattern, Re.ws1, Re.ws, Re.Plus, Re.digit, Re.dot in *.
  cbn [Re.Seqs] in H. grp_cases; done.
Qed.

Lemma search_numeric r line cs n :
  digit_groups r -> Re.search r line = Some cs -> numeric (Tabular.grp n cs).
Proof.
  intros Hr H%search_groups. unfold Tabular.grp, numeric.
  induction H as [|[i v] cs (g & Hg & HL) _ IH]; cbn [Re.group]; [done|].
  destruct (Nat.eqb i n); [|exact IH].
  apply Hr in Hg. subst g. cbn [snd] in HL.
  apply lang_plus_cls in HL as (c & s' & -> & Hc & Hs).
  cbn [all_chars]. by rewrite Hc, Hs.
Qed.

Lemma first_search_numeric rs line d :
  Forall digit_groups rs -> Tabular.first_search rs line = Some d -> numeric d.
Proof.
  induction 1 as [|r rs Hr _ IH]; cbn [Tabular.first_search]; [done|].
  destruct (Re.search r line) as [cs|] eqn:E; [|exact IH].
  intros [= <-]. by eapply search_numeric.
Qed.

Lemma electionware_header_numeric line : numeric (Electionware.header_district line).
Proof.
  unfold Electionware.header_district.
  destruct (Tabular.first_search _ line) eqn:E; [|done].
  eapply first_search_numeric; [|exact E].
  repeat constructor; apply word_number_digit_groups.
Qed.

Lemma fort_bend_header_numeric line : numeric (FortBend.header_district line).
Proof.
  unfold FortBend.header_district.
  destruct (Tabular.first_search _ line) eqn:E; [|done].
  eapply first_search_numeric; [|exact E].
  repeat constructor;
    first [apply word_number_digit_groups | apply fort_bend_precinct_no_digit_groups].
Qed.

Lemma collin_header_numeric line : numeric (Collin.header_district line).
Proof.
  unfold Collin.header_district.
  destruct (Tabular.first_search _ line) eqn:E; [|done].
  eapply first_search_numeric; [|exact E].
  repeat constructor;
    first [apply word_number_digit_groups | apply collin_precinct_no_digit_groups].
Qed.

(** ** Districts of the records *)

Ltac numeric_state :=
  first
    [ assumption
    | reflexivity
    | apply electionware_header_numeric
    | apply fort_bend_header_numeric
    | eapply search_numeric; [|eassumption];
      first [apply greenbox_district_digit_groups | apply word_number_digit_groups] ].

Ltac numeric_goal Hs Hd :=
  split; [proj_simpl; numeric_state|];
  first [ exact Hd
        | apply Forall_app; split; [exact Hd|];
          repeat constructor; proj_simpl; cbn [Tabular.district]; numeric_state ].

Lemma electionware_step_numeric cnty st raw :
  numeric (Electionware.district st) ->
  Forall (fun r => numeric (Tabular.district r)) (Electionware.data st) ->
  numeric (Electionware.district (Electionware.step cnty st raw))
  /\ Forall (fun r => numeric (Tabular.district r))
            (Electionware.data (Electionware.step cnty st raw)).
Proof.
  intros Hs Hd.
  unfold Electionware.step, Electionware.registered_line, Electionware.ballots_line,
    Electionware.over_under, Electionware.contest_line, Electionware.add_flag,
    Electionware.append, Electionware.stat_record.
  branch_all; numeric_goal Hs Hd.
Qed.

Lemma fort_bend_step_numeric cnty st raw :
  numeric (FortBend.district st) ->
  Forall (fun r => numeric (Tabular.district r)) (FortBend.data st) ->
  numeric (FortBend.district (FortBend.step cnty st raw))
  /\ Forall (fun r => numeric (Tabular.district r))
            (FortBend.data (FortBend.step cnty st raw)).
Proof.
  intros Hs Hd.
  unfold FortBend.step, FortBend.registered_line, FortBend.ballots_line,
    FortBend.over_under, FortBend.write_in_totals, FortBend.candidate_line,
    FortBend.add_flag, FortBend.append, FortBend.fb_record.
  branch_all; numeric_goal Hs Hd.
Qed.

Lemma greenbox_step_numeric cnty st raw :
  numeric (Greenbox.district st) ->
  Forall (fun r => numeric (Tabular.district r)) (Greenbox.data st) ->
  numeric (Greenbox.district (Greenbox.step cnty st raw))
  /\ Forall (fun r => numeric (Tabular.district r))
            (Greenbox.data (Greenbox.step cnty st raw)).
Proof.
  intros Hs Hd.
  unfold Greenbox.step, Greenbox.precinct_line, Greenbox.office_header,
    Greenbox.candidate_line, Greenbox.over_under, Greenbox.append.
  branch_all; numeric_goal Hs Hd.
Qed.

Lemma collin_fallback_district cnty prec off dist :
  (forall cs numbers r,
      Collin.simple_fallback cnty prec off dist cs numbers = Some r ->
      Collin.district r = dist)
  /\ (forall line r,
        Collin.pct_fallback cnty prec off dist line = Some r ->
        Collin.district r = dist).
Proof.
  split.
  - intros cs numbers r. unfold Collin.simple_fallback.
    repeat case_match; intros; by simplify_eq.
  - intros line r. unfold Collin.pct_fallback.
    repeat case_match; intros; by simplify_eq.
Qed.

Lemma collin_candidate_line_district cnty prec off st line :
  Collin.candidate_line cnty prec off st line = st
  \/ exists r, Collin.candidate_line cnty prec off st line = Collin.append st r
               /\ Collin.district r = Collin.cur_district st.
Proof.
  destruct (collin_fallback_district cnty prec off (Collin.cur_district st)) as [Hs Hf].
  unfold Collin.candidate_line.
  destruct (if Tabular.startswith_any _ _ && _ then _ else _) as [r|] eqn:E.
  - right. exists r. split; [done|]. revert E.
    repeat case_match; intros; simplify_eq; first [by eapply Hs | by eapply Hf].
  - unfold Collin.strict_line.
    repeat case_match; first [by left | right; by eexists].
Qed.

Lemma collin_step_numeric cnty st raw :
  numeric (Collin.cur_district st) ->
  Forall (fun r => numeric (Collin.district r)) (Collin.data st) ->
  numeric (Collin.cur_district (Collin.step cnty st raw))
  /\ Forall (fun r => numeric (Collin.district r)) (Collin.data (Collin.step cnty st raw)).
Proof.
  intros Hs Hd. unfold Collin.step.
  destruct (negb _); [done|].
  destruct (if PyStr.startswith _ _ then _ else _); [done|].
  destruct (Collin.current_precinct st) as [prec|]; [|done].
  destruct (_ && _); [split; [apply collin_header_numeric|done]|].
  destruct (Collin.current_office st) as [off|]; [|done].
  destruct (Tabular.any_in _ Collin.skip_terms); [done|].
  assert (Over : forall cand,
             numeric (Collin.cur_district
                        (Collin.over_under cand cnty prec off st (PyStr.strip raw)))
             /\ Forall (fun r => numeric (Collin.district r))
                       (Collin.data (Collin.over_under cand cnty prec off st
                                       (PyStr.strip raw)))).
  { intros cand. unfold Collin.over_under, Collin.append.
    repeat case_match; proj_simpl; (split; [done|]); try done.
    apply Forall_app; split; [done|]. by repeat constructor. }
  destruct (_ && _); [apply Over|].
  destruct (_ && _); [apply Over|].
  destruct (collin_candidate_line_district cnty prec off st (PyStr.strip raw))
    as [->|(r & -> & Hr)]; [done|].
  unfold Collin.append. proj_simpl. split; [done|].
  apply Forall_app. split; [done|]. repeat constructor. by rewrite Hr.
Qed.

(** X17.  The district of every record of the four PDF parsers is a string
    of digits or empty: it is the number captured from the office header
    that was current, never other text of the line. *)
Theorem districts_are_numeric (text cnty : string) :
  Forall (fun r => numeric (Tabular.district r))
         (Electionware.parse_election_data text cnty)
  /\ Forall (fun r => numeric (Tabular.district r))
            (FortBend.parse_election_data text cnty)
  /\ Forall (fun r => numeric (Tabular.district r))
            (Greenbox.parse_election_data text cnty)
  /\ Forall (fun r => numeric (Collin.district r))
            (Collin.parse_election_data text cnty).
Proof.
  repeat split.
  - apply (fold_left_invariant
             (fun st => numeric (Electionware.district st)
                        /\ Forall (fun r => numeric (Tabular.district r))
                                  (Electionware.data st))).
    + intros s l [H1 H2]. by apply electionware_step_numeric.
    + split; [done|constructor].
  - apply (fold_left_invariant
             (fun st => numeric (FortBend.district st)
                        /\ Forall (fun r => numeric (Tabular.district r))
                                  (FortBend.data st))).
    + intros s l [H1 H2]. by apply fort_bend_step_numeric.
    + split; [done|constructor].
  - apply (fold_left_invariant
             (fun st => numeric (Greenbox.district st)
                        /\ Forall (fun r => numeric (Tabular.district r))
                                  (Greenbox.data st))).
    + intros s l [H1 H2]. by apply greenbox_step_numeric.
    + split; [done|constructor].
  - apply (fold_left_invariant
             (fun st => numeric (Collin.cur_district st)
                        /\ Forall (fun r => numeric (Collin.district r))
                                  (Collin.data st))).
    + intros s l [H1 H2]. by apply collin_step_numeric.
    + split; [done|constructor].
Qed.

(** ** The votes column of the statewide file *)

Lemma set_first_keeps (P : Clarity.srow -> Prop) same vt v rows rows' :
  (forall x, P x -> P (<[vt := Clarity.VInt v]> x)) ->
  Clarity.set_first same vt v rows = Some rows' ->
  Forall P rows -> Forall P rows'.
Proof.
  intros HP. revert rows'. induction rows as [|x rows IH]; intros rows'; [done|].
  cbn [Clarity.set_first]. intros H [Hx Hr]%Forall_cons. destruct (same x).
  - simplify_eq. constructor; [by apply HP|done].
  - destruct (Clarity.set_first same vt v rows) as [r|]; [|done].
    cbn [option_map] in H. simplify_eq. constructor; [done|by apply IH].
Qed.

Lemma statewide_ingest_no_election_day rows r rows' :
  Clarity.vote_type r <> "Election Day" ->
  Clarity.statewide_ingest rows r = Some rows' ->
  Forall (fun x => Clarity.statewide_total x = None) rows ->
  Forall (fun x => Clarity.statewide_total x = None) rows'.
Proof.
  intros Hvt. unfold Clarity.statewide_ingest.
  destruct (Clarity.parse_office _) as [office district].
  destruct (match Clarity.res_choice r with Some _ => _ | None => _ end)
    as [[candidate party]|]; [|done].
  destruct (Clarity.set_first _ _ _ rows) as [r1|] eqn:E.
  - intros [= <-] H. eapply set_first_keeps; [|exact E|exact H].
    intros x Hx. cbv beta in *. unfold Clarity.statewide_total in *.
    rewrite <- Hx. by apply lookup_insert_ne.
  - intros [= <-] H. apply Forall_app. split; [done|]. repeat constructor.
    unfold Clarity.statewide_total.
    repeat (etrans; [by apply lookup_insert_ne|]). apply lookup_empty.
Qed.

(** X18.  The statewide writer takes the [votes] column from the entry
    ['Election Day'] of a row: when no result is reported for that vote
    type, no row has the entry, so the lookup fails on every row. *)
Theorem statewide_total_needs_election_day (rs : list Clarity.result)
  (rows : list Clarity.srow)
  (Hvt : Forall (fun r => Clarity.vote_type r <> "Election Day") rs)
  (Hrows : Clarity.statewide_rows [] rs = Some rows) :
  Forall (fun x => Clarity.statewide_total x = None) rows.
Proof.
  assert (G : forall rs rows0 rows,
             Forall (fun r => Clarity.vote_type r <> "Election Day") rs ->
             Clarity.statewide_rows rows0 rs = Some rows ->
             Forall (fun x => Clarity.statewide_total x = None) rows0 ->
             Forall (fun x => Clarity.statewide_total x = None) rows).
  { clear. induction rs as [|r rs IH]; intros rows0 rows Hvt; cbn [Clarity.statewide_rows].
    - by intros [= <-].
    - apply Forall_cons in Hvt as [Hr Hvt].
      destruct (Clarity.statewide_ingest rows0 r) as [rows1|] eqn:E; [|done].
      intros Hrows H0. eapply IH; [exact Hvt|exact Hrows|].
      by eapply statewide_ingest_no_election_day. }
  eapply G; [exact Hvt|exact Hrows|constructor].
Qed.

Lemma statewide_total_needs_election_day_witness :
  match Clarity.statewide_rows [] early_only with
  | Some rows => rows <> [] /\ Forall (fun x => Clarity.statewide_total x = None) rows
  | None => False
  end.
Proof.
  assert (Hs : match Clarity.statewide_rows [] early_only with
               | Some rows => negb (Nat.eqb (length rows) 0) = true
               | None => False
               end) by (vm_compute; reflexivity).
  destruct (Clarity.statewide_rows [] early_only) as [rows|] eqn:Hrows; [|done].
  split; [by destruct rows|].
  apply (statewide_total_needs_election_day early_only rows); [|exact Hrows].
  repeat constructor; done.
Defined.

(** ** The method columns of a record *)

Ltac uniform_goal Hd :=
  first
    [ exact Hd
    | apply Forall_app; split; [exact Hd|];
      repeat constructor; unfold uniform_methods, statistic_only; proj_simpl;
      cbn [Tabular.absentee Tabular.early_voting Tabular.election_day Tabular.office
           Tabular.district Tabular.party Tabular.candidate];
      first [ exact I
            | repeat split; try reflexivity;
              first [ apply list_elem_of_here
                    | apply list_elem_of_further, list_elem_of_here ] ] ].

Lemma electionware_step_uniform cnty st raw :
  Forall uniform_methods (Electionware.data st) ->
  Forall uniform_methods (Electionware.data (Electionware.step cnty st raw)).
Proof.
  intros Hd.
  unfold Electionware.step, Electionware.registered_line, Electionware.ballots_line,
    Electionware.over_under, Electionware.contest_line, Electionware.add_flag,
    Electionware.append, Electionware.stat_record.
  branch_all; uniform_goal Hd.
Qed.

Lemma fort_bend_step_uniform cnty st raw :
  Forall uniform_methods (FortBend.data st) ->
  Forall uniform_methods (FortBend.data (FortBend.step cnty st raw)).
Proof.
  intros Hd.
  unfold FortBend.step, FortBend.registered_line, FortBend.ballots_line,
    FortBend.over_under, FortBend.write_in_totals, FortBend.candidate_line,
    FortBend.add_flag, FortBend.append, FortBend.fb_record.
  branch_all; uniform_goal Hd.
Qed.

Lemma greenbox_step_uniform cnty st raw :
  Forall uniform_methods (Greenbox.data st) ->
  Forall uniform_methods (Greenbox.data (Greenbox.step cnty st raw)).
Proof.
  intros Hd.
  unfold Greenbox.step, Greenbox.precinct_line, Greenbox.office_header,
    Greenbox.candidate_line, Greenbox.over_under, Greenbox.append.
  branch_all; uniform_goal Hd.
Qed.

(** X19.  In the records of [electionware.py], [fort_bend.py] and
    [greenbox.py] the three method columns go together: either all three
    hold integers, or all three are empty, and then the record is a
    registered-voters or ballots-cast statistic with empty district, party
    and candidate.  No record has a partly filled breakdown. *)
Theorem method_columns_go_together (text cnty : string) :
  Forall uniform_methods (Electionware.parse_election_data text cnty)
  /\ Forall uniform_methods (FortBend.parse_election_data text cnty)
  /\ Forall uniform_methods (Greenbox.parse_election_data text cnty).
Proof.
  repeat split.
  - apply (fold_left_invariant (fun st => Forall uniform_methods (Electionware.data st))).
    + intros s l. apply electionware_step_uniform.
    + constructor.
  - apply (fold_left_invariant (fun st => Forall uniform_methods (FortBend.data st))).
    + intros s l. apply fort_bend_step_uniform.
    + constructor.
  - apply (fold_left_invariant (fun st => Forall uniform_methods (Greenbox.data st))).
    + intros s l. apply greenbox_step_uniform.
    + constructor.
Qed.

(** ** Precincts of the turnout element *)

Lemma attempt_after_refl a : attempt_after a a.
Proof. by split. Qed.

Lemma attempt_after_trans a b c :
  attempt_after a b -> attempt_after b c -> attempt_after a c.
Proof. intros [H1 H2] [H3 H4]. split; [tauto|]. intros k Hk. by apply H4, H2. Qed.

Lemma store_set_keeps_keys k k' vt v (st : Clarity.store) :
  k' ∈ map fst st -> k' ∈ map fst (Clarity.store_set k vt v st).
Proof.
  intros H. rewrite store_set_keys. case_bool_decide; [done|].
  apply elem_of_app. by left.
Qed.

Lemma set_int_after k vt value a : attempt_after a (Clarity.set_int k vt value a).
Proof.
  destruct a as [st ok]. unfold Clarity.set_int.
  destruct ok; [|apply attempt_after_refl].
  destruct (PyStr.py_int value); split; cbn [fst snd]; try done.
  intros k'. apply store_set_keeps_keys.
Qed.

Lemma set_int_has_key k vt value a :
  snd (Clarity.set_int k vt value a) = true ->
  k ∈ map fst (fst (Clarity.set_int k vt value a)).
Proof.
  destruct a as [st ok]. unfold Clarity.set_int.
  destruct ok; [|done]. destruct (PyStr.py_int value); [|done].
  intros _. apply store_set_has_key.
Qed.

Lemma turnout_precinct_after county_name a pe :
  attempt_after a (Clarity.turnout_precinct county_name a pe).
Proof.
  unfold Clarity.turnout_precinct.
  repeat case_match; try apply attempt_after_refl; try apply set_int_after.
  eapply attempt_after_trans; apply set_int_after.
Qed.

Lemma turnout_vote_type_after county_name a vte :
  attempt_after a (Clarity.turnout_vote_type county_name a vte).
Proof.
  unfold Clarity.turnout_vote_type.
  destruct (Clarity.vte_name vte); [|apply attempt_after_refl].
  destruct (_ && _); [|apply attempt_after_refl].
  generalize (Clarity.vte_precincts vte) as l. intros l. revert a.
  induction l as [|pe l IH]; intros a; cbn [fold_left]; [apply attempt_after_refl|].
  eapply attempt_after_trans; [|apply IH].
  repeat case_match; first [apply attempt_after_refl | apply set_int_after].
Qed.

Lemma fold_after {X : Type} (f : Clarity.attempt -> X -> Clarity.attempt) l a :
  (forall a x, attempt_after a (f a x)) -> attempt_after a (fold_left f l a).
Proof.
  intros Hf. revert a. induction l as [|x l IH]; intros a; cbn [fold_left].
  - apply attempt_after_refl.
  - eapply attempt_after_trans; [apply Hf|apply IH].
Qed.

Lemma turnout_precinct_registers county_name a pe name :
  Clarity.pe_name pe = Some name -> PyStr.nonempty name = true ->
  Clarity.counted (Clarity.attr (Clarity.pe_totalVoters pe) "0") = true ->
  snd (Clarity.turnout_precinct county_name a pe) = true ->
  Clarity.reg_key county_name name
  ∈ map fst (fst (Clarity.turnout_precinct county_name a pe)).
Proof.
  intros Hn Hne Hc. unfold Clarity.turnout_precinct. rewrite Hn, Hne, Hc.
  destruct (Clarity.counted (Clarity.attr (Clarity.pe_ballotsCast pe) "0")).
  - intros Hok. apply set_int_after. apply set_int_has_key.
    by apply (set_int_after _ _ _ _) in Hok.
  - apply set_int_has_key.
Qed.

(** X20.  When the [try] block of [add_voter_turnout_rows] runs through,
    every named precinct of the turnout element whose [totalVoters] is
    present and not ['0'] has a registered-voters key in the store. *)
Theorem turnout_precinct_gets_registered_key results rs vt county_name pe name
  (Hpe : pe ∈ Clarity.vt_precincts vt)
  (Hname : Clarity.pe_name pe = Some name)
  (Hne : PyStr.nonempty name = true)
  (Hc : Clarity.counted (Clarity.attr (Clarity.pe_totalVoters pe) "0") = true)
  (Hok : snd (turnout_attempt results vt county_name) = true) :
  Clarity.reg_key county_name name
  ∈ map fst (Clarity.add_voter_turnout_rows results rs (Some vt) county_name).
Proof.
  unfold Clarity.add_voter_turnout_rows. unfold turnout_attempt in Hok.
  destruct (fold_left (Clarity.turnout_vote_type county_name) _ _) as [st ok] eqn:E.
  cbn [snd] in Hok. subst ok.
  change st with (fst (st, true)). rewrite <- E.
  pose proof (fold_after (Clarity.turnout_vote_type county_name)
                (Clarity.vt_vote_types vt)
                (fold_left (Clarity.turnout_precinct county_name)
                   (Clarity.vt_precincts vt) (results, true))
                (turnout_vote_type_after county_name)) as [Hok2 Hk2].
  rewrite E in Hok2. specialize (Hok2 eq_refl). apply Hk2.
  apply list_elem_of_split in Hpe as (l1 & l2 & Hl). rewrite Hl in *.
  rewrite fold_left_app in *. cbn [fold_left] in *.
  set (a1 := fold_left (Clarity.turnout_precinct county_name) l1 (results, true)) in *.
  pose proof (fold_after (Clarity.turnout_precinct county_name) l2
                (Clarity.turnout_precinct county_name a1 pe)
                (turnout_precinct_after county_name)) as [Hok3 Hk3].
  apply Hk3. apply turnout_precinct_registers; [done|done|done|]. by apply Hok3.
Qed.

Lemma turnout_precinct_gets_registered_key_witness :
  Clarity.reg_key "cty" "P1"
  ∈ map fst (Clarity.add_voter_turnout_rows [] [] (Some one_precinct_turnout) "cty").
Proof.
  apply (turnout_precinct_gets_registered_key [] [] one_precinct_turnout "cty"
           (Clarity.mkPrecinctElem (Some "P1") (Some "100") (Some "15") None) "P1").
  - apply list_elem_of_here.
  - reflexivity.
  - reflexivity.
  - reflexivity.
  - vm_compute. reflexivity.
Defined.

(** ** The votes column of the rows and records *)









